(** * Brachisto-Probe simulation core: a shallow embedding of the tick engine

    The engine is JavaScript.  A JavaScript number is modelled as a
    rational ([Q]).  The Dyson system adds increments of a few hundred
    kilograms to a mass of up to 5e24 kg, where binary64 rounding decides
    the result: there every operation is rounded to 53 significant bits
    ([Module Binary64]); elsewhere arithmetic is exact.  The
    transcendental parts of the composite skill calculator ([Math.pow],
    [Math.log], [Math.exp]) are modelled over the reals in
    [Module CompositeSkills].  Objects used as dictionaries are
    [gmap string _]; an absent property is [None], and the idiom [x || d]
    is [JS.orDefault d].  Arrays that the code walks by index or in
    insertion order are lists. *)

From Stdlib Require Import QArith Qround Qminmax Qabs Qpower Qreduction ZArith Lia Lqa String List.
From Stdlib Require Reals Lra Floats.
From stdpp Require Import gmap strings.

Open Scope Q_scope.
Open Scope string_scope.

(** ** JavaScript idioms *)

Module JS.

(** [x || d]: [d] when [x] is [undefined] or [0]. *)
Definition orDefault (d : Q) (o : option Q) : Q :=
  match o with
  | Some x => if Qeq_bool x 0 then d else x
  | None => d
  end.

Definition orZero : option Q -> Q := orDefault 0.

(** [s || d] on an optional string; the empty string is falsy. *)
Definition orString (d : string) (o : option string) : string :=
  match o with
  | Some s => if String.eqb s "" then d else s
  | None => d
  end.

(** [o || {}] on an optional dictionary. *)
Definition orEmpty {A} (o : option (gmap string A)) : gmap string A :=
  match o with Some m => m | None => ∅ end.

Definition ltb (a b : Q) : bool := negb (Qle_bool b a).
Definition leb (a b : Q) : bool := Qle_bool a b.
Definition eqb (a b : Q) : bool := Qeq_bool a b.

Definition Math_min (a b : Q) : Q := Qmin a b.
Definition Math_max (a b : Q) : Q := Qmax a b.
Definition Math_floor (x : Q) : Q := inject_Z (Qfloor x).

(** Truncation towards zero, and the remainder operator [a % b]. *)
Definition trunc (x : Q) : Z :=
  if Qle_bool 0 x then Qfloor x else Qceiling x.
Definition rem (a b : Q) : Q := a - b * inject_Z (trunc (a / b)).

(** [Object.values(o).reduce((sum, c) => sum + (c || 0), 0)] *)
Definition sumValues (m : gmap string Q) : Q :=
  map_fold (fun _ c acc => acc + orZero (Some c)) 0 m.

Definition isInteger (x : Q) : Prop := x == inject_Z (Qfloor x).

Arguments orDefault : simpl never.
Arguments orZero : simpl never.
Arguments Math_min : simpl never.
Arguments Math_max : simpl never.
Arguments Math_floor : simpl never.
Arguments sumValues : simpl never.

End JS.

(** ** Binary64 rounding

    A finite, non-zero binary64 number is [m * 2^k] with an integer
    significand of 53 bits.  [round] maps a rational to the nearest such
    number, ties to the even significand, which is what [+], [-], [*] and
    [/] of JavaScript do with the exact result.  The exponent is not
    bounded: overflow to [Infinity], gradual underflow and [NaN] are outside
    the model. *)

Module Binary64.

Definition pow2 (e : Z) : Q := 2 ^ e.

(** [floor (log2 x)] for [x > 0]. *)
Definition ilog2 (x : Q) : Z :=
  let e := (Z.log2 (Qnum x) - Z.log2 (Zpos (Qden x)))%Z in
  if Qle_bool (pow2 e) x then e else (e - 1)%Z.

(** Nearest integer, ties to even. *)
Definition rne (x : Q) : Z :=
  let f := Qfloor x in
  match Qcompare (x - inject_Z f) (1#2) with
  | Lt => f
  | Gt => (f + 1)%Z
  | Eq => if Z.even f then f else (f + 1)%Z
  end.

(** The unit in the last place of [x]. *)
Definition ulp (x : Q) : Q := pow2 (ilog2 (Qabs x) - 52).

Definition round (x : Q) : Q :=
  if Qeq_bool x 0 then 0
  else Qred (inject_Z (rne (x / ulp x)) * ulp x).

(** The values a JavaScript number can hold. *)
Definition representable (x : Q) : Prop := round x == x.

(** The rational a primitive binary64 float stands for; [None] for
    infinities and [NaN]. *)
Definition ofFloat (f : PrimFloat.float) : option Q :=
  match FloatOps.Prim2SF f with
  | SpecFloat.S754_zero _ => Some 0
  | SpecFloat.S754_finite s m e =>
      Some (Qred ((if s then -1 else 1) * inject_Z (Zpos m) * pow2 e))
  | _ => None
  end.

Arguments pow2 : simpl never.
Arguments ilog2 : simpl never.
Arguments rne : simpl never.
Arguments ulp : simpl never.
Arguments round : simpl never.

End Binary64.

(** ** Zone registry (class [OrbitalMechanics], zone getters) *)

Module OrbitalMechanics.

Record ZoneDescriptor := {
  z_id : string;
  total_mass_kg : option Q;
  metal_stores_kg : option Q;
  mining_rate_multiplier : option Q;
  is_dyson_zone : option bool
}.

(** [this.orbitalZones] is [null] until [initialize] ran. *)
Definition Registry := option (list ZoneDescriptor).

Definition getZone (orbitalZones : Registry) (zoneId : string)
  : option ZoneDescriptor :=
  match orbitalZones with
  | None => None
  | Some zs => List.find (fun z => String.eqb (z_id z) zoneId) zs
  end.

Definition getZoneMetallicity (orbitalZones : Registry) (zoneId : string) : Q :=
  match getZone orbitalZones zoneId with
  | None => 0
  | Some zone =>
      let totalMass := JS.orZero (total_mass_kg zone) in
      let metalMass := JS.orZero (metal_stores_kg zone) in
      if JS.eqb totalMass 0 then 0 else metalMass / totalMass
  end.

Definition getZoneMiningMultiplier (orbitalZones : Registry) (zoneId : string) : Q :=
  match getZone orbitalZones zoneId with
  | None => 1
  | Some zone => JS.orDefault 1 (mining_rate_multiplier zone)
  end.

Definition isDysonZone (orbitalZones : Registry) (zoneId : string) : bool :=
  match getZone orbitalZones zoneId with
  | None => false
  | Some zone => match is_dyson_zone zone with Some b => b | None => false end
  end.

End OrbitalMechanics.

(** ** The [engine_v2] world state and its systems *)

Module V2.

Import OrbitalMechanics.

Record Skills := {
  propulsion : Q;
  robotic : Q;
  production : Q;
  energy_collection : Q;
  dyson_construction : Q
}.

Record ZoneState := {
  metal_remaining : option Q;
  mass_remaining : option Q;
  slag_produced : option Q;
  depleted : bool
}.

Record DysonSphere := {
  mass : option Q;
  target_mass : option Q;
  progress : option Q
}.

Record Transfer := {
  t_id : string;
  from_zone : string;
  to_zone : string;
  probe_type : option string;
  probe_count : option Q;
  departure_time : Q;
  arrival_time : Q;
  delta_v_cost : Q;
  status : string
}.

Record Rates := {
  metal_mining : Q;
  energy_production : Q;
  energy_consumption : Q;
  probe_production : Q;
  rate_dyson_construction : Q
}.

Record State := {
  time : option Q;
  metal : option Q;
  slag : option Q;
  skills : Skills;
  probes_by_zone : gmap string (gmap string Q);
  probe_allocations_by_zone : gmap string (gmap string Q);
  structures_by_zone : gmap string (gmap string Q);
  zones : list (string * ZoneState);
  dyson_sphere : option DysonSphere;
  active_transfers : list Transfer;
  rates : option Rates;
  construction_progress_probes : option (gmap string Q)
}.

Definition set_metal (v : option Q) (s : State) : State :=
  {| time := time s; metal := v; slag := slag s; skills := skills s;
     probes_by_zone := probes_by_zone s;
     probe_allocations_by_zone := probe_allocations_by_zone s;
     structures_by_zone := structures_by_zone s; zones := zones s;
     dyson_sphere := dyson_sphere s; active_transfers := active_transfers s;
     rates := rates s;
     construction_progress_probes := construction_progress_probes s |}.

Definition set_slag (v : option Q) (s : State) : State :=
  {| time := time s; metal := metal s; slag := v; skills := skills s;
     probes_by_zone := probes_by_zone s;
     probe_allocations_by_zone := probe_allocations_by_zone s;
     structures_by_zone := structures_by_zone s; zones := zones s;
     dyson_sphere := dyson_sphere s; active_transfers := active_transfers s;
     rates := rates s;
     construction_progress_probes := construction_progress_probes s |}.

Definition set_probes_by_zone (v : gmap string (gmap string Q)) (s : State) : State :=
  {| time := time s; metal := metal s; slag := slag s; skills := skills s;
     probes_by_zone := v;
     probe_allocations_by_zone := probe_allocations_by_zone s;
     structures_by_zone := structures_by_zone s; zones := zones s;
     dyson_sphere := dyson_sphere s; active_transfers := active_transfers s;
     rates := rates s;
     construction_progress_probes := construction_progress_probes s |}.

Definition set_zones (v : list (string * ZoneState)) (s : State) : State :=
  {| time := time s; metal := metal s; slag := slag s; skills := skills s;
     probes_by_zone := probes_by_zone s;
     probe_allocations_by_zone := probe_allocations_by_zone s;
     structures_by_zone := structures_by_zone s; zones := v;
     dyson_sphere := dyson_sphere s; active_transfers := active_transfers s;
     rates := rates s;
     construction_progress_probes := construction_progress_probes s |}.

Definition set_dyson_sphere (v : option DysonSphere) (s : State) : State :=
  {| time := time s; metal := metal s; slag := slag s; skills := skills s;
     probes_by_zone := probes_by_zone s;
     probe_allocations_by_zone := probe_allocations_by_zone s;
     structures_by_zone := structures_by_zone s; zones := zones s;
     dyson_sphere := v; active_transfers := active_transfers s;
     rates := rates s;
     construction_progress_probes := construction_progress_probes s |}.

Definition set_active_transfers (v : list Transfer) (s : State) : State :=
  {| time := time s; metal := metal s; slag := slag s; skills := skills s;
     probes_by_zone := probes_by_zone s;
     probe_allocations_by_zone := probe_allocations_by_zone s;
     structures_by_zone := structures_by_zone s; zones := zones s;
     dyson_sphere := dyson_sphere s; active_transfers := v;
     rates := rates s;
     construction_progress_probes := construction_progress_probes s |}.

Definition set_rates (v : option Rates) (s : State) : State :=
  {| time := time s; metal := metal s; slag := slag s; skills := skills s;
     probes_by_zone := probes_by_zone s;
     probe_allocations_by_zone := probe_allocations_by_zone s;
     structures_by_zone := structures_by_zone s; zones := zones s;
     dyson_sphere := dyson_sphere s; active_transfers := active_transfers s;
     rates := v;
     construction_progress_probes := construction_progress_probes s |}.

Definition set_construction_progress_probes (v : option (gmap string Q)) (s : State) : State :=
  {| time := time s; metal := metal s; slag := slag s; skills := skills s;
     probes_by_zone := probes_by_zone s;
     probe_allocations_by_zone := probe_allocations_by_zone s;
     structures_by_zone := structures_by_zone s; zones := zones s;
     dyson_sphere := dyson_sphere s; active_transfers := active_transfers s;
     rates := rates s;
     construction_progress_probes := v |}.

Definition set_rate_dyson_construction (v : Q) (r : Rates) : Rates :=
  {| metal_mining := metal_mining r; energy_production := energy_production r;
     energy_consumption := energy_consumption r;
     probe_production := probe_production r;
     rate_dyson_construction := v |}.

(** [zoneProbes[probeType]] two levels deep, [undefined] when either level
    is absent. *)
Definition probeCount (pbz : gmap string (gmap string Q)) (zoneId probeType : string)
  : option Q :=
  match pbz !! zoneId with
  | Some zp => zp !! probeType
  | None => None
  end.

(** *** Building catalogue *)

Record Building := {
  b_id : string;
  metal_production_per_day : option Q;
  energy_production_per_second : option Q;
  energy_consumption_per_second : option Q;
  orbital_efficiency : gmap string Q
}.

Record Buildings := {
  energy : list Building;
  mining : list Building;
  factories : list Building;
  transport : list Building;
  recycling : list Building;
  omni : list Building
}.

(** *** [ProductionCalculator] *)

Module ProductionCalculator.

Definition BASE_MINING_RATE : Q := 100.
Definition BASE_BUILDING_RATE : Q := 100.

Definition calculateMiningRate (orbitalZones : Registry)
    (probeCount : Q) (zoneId : string) (skills : Skills) : Q :=
  if JS.leb probeCount 0 then 0
  else
    let rate := BASE_MINING_RATE * probeCount in
    let rate := rate * robotic skills in
    let rate := rate * production skills in
    let zoneMultiplier := getZoneMiningMultiplier orbitalZones zoneId in
    rate * zoneMultiplier.

Definition calculateBuildingRate (probeCount : Q) (skills : Skills) : Q :=
  if JS.leb probeCount 0 then 0
  else
    let rate := BASE_BUILDING_RATE * probeCount in
    let rate := rate * robotic skills in
    rate * production skills.

(** One pass of [for (const building of list)] accumulating into
    [totalRate]. *)
Definition structureMiningPass (zoneStructures : gmap string Q)
    (zoneId : string) (skills : Skills) (bs : list Building) (totalRate : Q) : Q :=
  fold_left
    (fun totalRate building =>
       let count := JS.orZero (zoneStructures !! b_id building) in
       if JS.eqb count 0 then totalRate
       else
         let baseRate := JS.orZero (metal_production_per_day building) in
         let zoneEfficiency :=
           JS.orDefault 1 (orbital_efficiency building !! zoneId) in
         let effectiveRate :=
           baseRate * count * zoneEfficiency * production skills in
         totalRate + effectiveRate)
    bs totalRate.

Definition calculateStructureMiningRate
    (structuresByZone : gmap string (gmap string Q)) (zoneId : string)
    (buildings : Buildings) (skills : Skills) : Q :=
  let zoneStructures := JS.orEmpty (structuresByZone !! zoneId) in
  let totalRate := structureMiningPass zoneStructures zoneId skills (mining buildings) 0 in
  structureMiningPass zoneStructures zoneId skills (omni buildings) totalRate.

End ProductionCalculator.

End V2.

(** ** [DysonSystem] (engine_v2) *)

Module DysonSystem.

Import V2 Binary64.

Definition METAL_TO_DYSON_RATIO : Q := 2.

(** The literal [5e24], which is not a binary64 number: the nearest one is
    5000000000000000452984832. *)
Definition DEFAULT_TARGET_MASS : Q := round (inject_Z (5 * 10 ^ 24)).

Definition emptyDyson : DysonSphere :=
  {| mass := None; target_mass := None; progress := None |}.

(** [Object.values(o).reduce((sum, count) => sum + (count || 0), 0)], each
    addition rounded.  The fold visits the entries in key order; the order
    matters only once a partial sum passes 2^53. *)
Definition sumValues (m : gmap string Q) : Q :=
  map_fold (fun _ count sum => round (sum + JS.orZero (Some count))) 0 m.

(** [this.productionCalculator.calculateBuildingRate(probeCount, skills)],
    each product rounded. *)
Definition calculateBuildingRate (probeCount : Q) (skills : Skills) : Q :=
  if JS.leb probeCount 0 then 0
  else
    let rate := round (ProductionCalculator.BASE_BUILDING_RATE * probeCount) in
    let rate := round (rate * robotic skills) in
    round (rate * production skills).

(** [processDysonConstruction(state, deltaTime, skills, energyThrottle)].
    [None] is the [TypeError] raised by [newState.rates.dyson_construction = _]
    when the state carries no [rates] object. *)
Definition processDysonConstruction (state : State) (deltaTime : Q)
    (skills : Skills) (energyThrottle : Q) : option State :=
  let newState := state in
  let dysonZoneId := "dyson_sphere" in
  let probesByZone := probes_by_zone newState in
  let probeAllocationsByZone := probe_allocations_by_zone newState in
  let dysonSphere :=
    match dyson_sphere newState with Some d => d | None => emptyDyson end in
  let zoneProbes := JS.orEmpty (probesByZone !! dysonZoneId) in
  let totalProbes := sumValues zoneProbes in
  if JS.eqb totalProbes 0 then
    match rates newState with
    | None => None
    | Some r => Some (set_rates (Some (set_rate_dyson_construction 0 r)) newState)
    end
  else
    let allocations := JS.orEmpty (probeAllocationsByZone !! dysonZoneId) in
    let dysonAllocation := JS.orZero (allocations !! "dyson") in
    let dysonProbes := round (totalProbes * dysonAllocation) in
    let buildingRate := calculateBuildingRate dysonProbes skills in
    let effectiveBuildingRate := round (buildingRate * dyson_construction skills) in
    let throttledRate := round (effectiveBuildingRate * energyThrottle) in
    let metalNeeded :=
      round (round (throttledRate * METAL_TO_DYSON_RATIO) * deltaTime) in
    let metalAvailable := JS.orZero (metal newState) in
    let actualMetalConsumed := JS.Math_min metalNeeded metalAvailable in
    let dysonMassAdded := round (actualMetalConsumed / METAL_TO_DYSON_RATIO) in
    let currentMass := JS.orZero (mass dysonSphere) in
    let targetMass := JS.orDefault DEFAULT_TARGET_MASS (target_mass dysonSphere) in
    let newMass := round (currentMass + dysonMassAdded) in
    let dysonSphere :=
      {| mass := Some newMass;
         target_mass := target_mass dysonSphere;
         progress := Some (JS.Math_min 1 (round (newMass / targetMass))) |} in
    let newState := set_metal (Some (round (metalAvailable - actualMetalConsumed))) newState in
    match rates newState with
    | None => None
    | Some r =>
        let newState :=
          set_rates (Some (set_rate_dyson_construction throttledRate r)) newState in
        Some (set_dyson_sphere (Some dysonSphere) newState)
    end.

Arguments sumValues : simpl never.
Arguments calculateBuildingRate : simpl never.
Arguments DEFAULT_TARGET_MASS : simpl never.

(** Observations on a state. *)
Definition dysonOf (s : State) : DysonSphere :=
  match dyson_sphere s with Some d => d | None => emptyDyson end.
Definition dysonMass (s : State) : Q := JS.orZero (mass (dysonOf s)).
Definition dysonTarget (s : State) : Q :=
  JS.orDefault DEFAULT_TARGET_MASS (target_mass (dysonOf s)).
Definition metalOf (s : State) : Q := JS.orZero (metal s).
Definition totalProbes (s : State) : Q :=
  sumValues (JS.orEmpty (probes_by_zone s !! "dyson_sphere")).
Definition dysonAllocation (s : State) : Q :=
  JS.orZero (JS.orEmpty (probe_allocations_by_zone s !! "dyson_sphere") !! "dyson").
Definition dysonRate (s : State) : Q :=
  match rates s with Some r => rate_dyson_construction r | None => 0 end.

(** The rate that a call stores in [rates.dyson_construction]. *)
Definition throttledRate (s : State) (skills : Skills) (energyThrottle : Q) : Q :=
  round (round (calculateBuildingRate (round (totalProbes s * dysonAllocation s)) skills
                * dyson_construction skills)
         * energyThrottle).

(** [Math.min(metalNeeded, metalAvailable)] for a given rate. *)
Definition metalTaken (s : State) (rate deltaTime : Q) : Q :=
  JS.Math_min (round (round (rate * METAL_TO_DYSON_RATIO) * deltaTime)) (metalOf s).

(** The specification's reading of the stored fraction: it agrees with the
    stored mass. *)
Definition progressClamped (s : State) : Prop :=
  exists p, progress (dysonOf s) = Some p /\
            p == JS.Math_min 1 (dysonMass s / dysonTarget s).

(** The specification's reading of one call: mass does not decrease, the
    metal that left the pool is exactly twice the mass gained and no more
    than there was, and the stored fraction agrees with the mass. *)
Definition convertsTwoToOne (s s' : State) : Prop :=
  dysonMass s <= dysonMass s' /\
  metalOf s - metalOf s' == METAL_TO_DYSON_RATIO * (dysonMass s' - dysonMass s) /\
  0 <= metalOf s' <= metalOf s /\
  progressClamped s'.

Definition exampleRates : Rates :=
  {| metal_mining := 0; energy_production := 0; energy_consumption := 0;
     probe_production := 0; rate_dyson_construction := 0 |}.

Definition unitSkills : Skills :=
  {| propulsion := 1; robotic := 1; production := 1;
     energy_collection := 1; dyson_construction := 1 |}.

(** Ten probes in the Dyson zone, all allocated to the sphere, 1000 kg of
    metal, a sphere 90 kg short of a 100 kg target. *)
Definition exampleState : State :=
  {| time := Some 0; metal := Some 1000; slag := Some 0; skills := unitSkills;
     probes_by_zone := {[ "dyson_sphere" := {[ "probe" := 10 ]} ]};
     probe_allocations_by_zone := {[ "dyson_sphere" := {[ "dyson" := 1 ]} ]};
     structures_by_zone := ∅; zones := [];
     dyson_sphere :=
       Some {| mass := Some 10; target_mass := Some 100; progress := Some (1#10) |};
     active_transfers := []; rates := Some exampleRates;
     construction_progress_probes := None |}.

(** The same ten probes next to a sphere of 1e20 kg with the target of a
    new game and 1e6 kg of metal in the pool. *)
Definition heavySphere : State :=
  {| time := Some 0; metal := Some (inject_Z (10 ^ 6)); slag := Some 0;
     skills := unitSkills;
     probes_by_zone := {[ "dyson_sphere" := {[ "probe" := 10 ]} ]};
     probe_allocations_by_zone := {[ "dyson_sphere" := {[ "dyson" := 1 ]} ]};
     structures_by_zone := ∅; zones := [];
     dyson_sphere :=
       Some {| mass := Some (inject_Z (10 ^ 20));
               target_mass := Some DEFAULT_TARGET_MASS;
               progress := Some (round (inject_Z (10 ^ 20) / DEFAULT_TARGET_MASS)) |};
     active_transfers := []; rates := Some exampleRates;
     construction_progress_probes := None |}.

(** No probe in the Dyson zone; the sphere holds 60 kg of a 100 kg target
    and a stored fraction of 0. *)
Definition idleSphere : State :=
  {| time := Some 0; metal := Some 1000; slag := Some 0; skills := unitSkills;
     probes_by_zone := {[ "earth" := {[ "probe" := 10 ]} ]};
     probe_allocations_by_zone := {[ "dyson_sphere" := {[ "dyson" := 1 ]} ]};
     structures_by_zone := ∅; zones := [];
     dyson_sphere :=
       Some {| mass := Some 60; target_mass := Some 100; progress := Some 0 |};
     active_transfers := []; rates := Some exampleRates;
     construction_progress_probes := None |}.

End DysonSystem.

(** ** Early errors of a method body

    A script is checked as a whole before any of it runs.  The static
    semantics of ECMAScript refuse a method whose parameters and the
    [const] names declared directly in its body are not pairwise distinct,
    and a block in which a [const] name is declared twice ("Identifier has
    already been declared"); a script that holds such a method is a
    SyntaxError and defines nothing.  The model keeps of a body what these
    rules read: its statement lists and the names they declare. *)

Module Script.

#[warnings="-register-all"]
Inductive Statement : Type :=
| ConstDecl (name : string)                       (* const name = ...; *)
| IfThen (consequent : list Statement)            (* if (...) { ... } *)
| ForIn (name : string) (body : list Statement)   (* for (const name in ...) { ... } *)
| Plain.                                          (* assignment, call, continue, return *)

Record Method : Type :=
  { m_name : string; m_parameters : list string; m_body : list Statement }.

Record Class : Type := { c_name : string; c_methods : list Method }.

(** LexicallyDeclaredNames of a statement list: the names declared
    directly in it, in source order; a nested block is a scope of its own. *)
Fixpoint lexicallyDeclaredNames (statements : list Statement) : list string :=
  match statements with
  | [] => []
  | ConstDecl name :: rest => name :: lexicallyDeclaredNames rest
  | _ :: rest => lexicallyDeclaredNames rest
  end.

(** The first name, read left to right, that is already bound. *)
Fixpoint redeclared (seen names : list string) : option string :=
  match names with
  | [] => None
  | name :: rest =>
      if bool_decide (name ∈ seen) then Some name else redeclared (name :: seen) rest
  end.

Definition orElse (first second : option string) : option string :=
  match first with Some name => Some name | None => second end.

(** The early error of the blocks inside one statement, if any. *)
Fixpoint statementError (statement : Statement) : option string :=
  let nested :=
    fix nested (statements : list Statement) : option string :=
      match statements with
      | [] => None
      | first :: rest => orElse (statementError first) (nested rest)
      end in
  let blockError (statements : list Statement) : option string :=
    orElse (redeclared [] (lexicallyDeclaredNames statements)) (nested statements) in
  match statement with
  | ConstDecl _ => None
  | Plain => None
  | IfThen consequent => blockError consequent
  | ForIn _ body => blockError body
  end.

Fixpoint nestedError (statements : list Statement) : option string :=
  match statements with
  | [] => None
  | first :: rest => orElse (statementError first) (nestedError rest)
  end.

(** The names bound in the top scope of a method: parameters, then the
    declarations of the body. *)
Definition topLevelNames (method : Method) : list string :=
  m_parameters method ++ lexicallyDeclaredNames (m_body method).

(** [Some name]: the method is refused, [name] has already been declared. *)
Definition methodError (method : Method) : option string :=
  orElse (redeclared [] (topLevelNames method)) (nestedError (m_body method)).

Definition classError (class : Class) : option string :=
  fold_right (fun method later => orElse (methodError method) later) None
    (c_methods class).

Inductive Completion : Type :=
| Defines (globals : list string)
| SyntaxError (identifier : string).

(** Running a script that consists of one class declaration. *)
Definition evaluate (class : Class) : Completion :=
  match classError class with
  | Some name => SyntaxError name
  | None => Defines [c_name class]
  end.

(** The body with the statement at position [i] taken out. *)
Definition withoutStatement (i : nat) (method : Method) : Method :=
  {| m_name := m_name method; m_parameters := m_parameters method;
     m_body := take i (m_body method) ++ drop (S i) (m_body method) |}.

End Script.

(** ** [MiningSystem] (engine_v2) *)

Module MiningSystem.

Import OrbitalMechanics V2 Script.

(** [constructor(productionCalculator, orbitalMechanics)]: two assignments. *)
Definition constructor : Method :=
  {| m_name := "constructor";
     m_parameters := ["productionCalculator"; "orbitalMechanics"];
     m_body := [Plain; Plain] |}.

(** [processMining(state, deltaTime, skills, buildings, energyThrottle)],
    statement by statement as shipped. *)
Definition processMining : Method :=
  {| m_name := "processMining";
     m_parameters := ["state"; "deltaTime"; "skills"; "buildings"; "energyThrottle"];
     m_body :=
       [ ConstDecl "profiler";
         ConstDecl "cloneStart";
         ConstDecl "newState";
         IfThen [Plain];
         ConstDecl "zones";
         ConstDecl "probesByZone";
         ConstDecl "probeAllocationsByZone";
         ConstDecl "structuresByZone";
         ConstDecl "profiler";
         ForIn "zoneId"
           [ ConstDecl "zone";
             IfThen [Plain];
             IfThen [Plain];
             ConstDecl "zoneProbes";
             ConstDecl "probeCountStart";
             ConstDecl "totalProbes";
             IfThen [ConstDecl "probeCountTime"; IfThen [Plain]];
             ConstDecl "allocations";
             ConstDecl "harvestAllocation";
             ConstDecl "miningProbes";
             ConstDecl "probeMiningRate";
             ConstDecl "structureMiningRate";
             ConstDecl "totalMiningRate";
             ConstDecl "effectiveMiningRate";
             ConstDecl "metalExtracted";
             ConstDecl "metalRemaining";
             ConstDecl "actualExtraction";
             ConstDecl "metallicity";
             ConstDecl "totalMassExtracted";
             ConstDecl "slagProduced";
             Plain; Plain; Plain;
             IfThen [Plain];
             Plain; Plain ];
         Plain;
         Plain ] |}.

(** The script: [class MiningSystem { constructor; processMining }]. *)
Definition script : Class :=
  {| c_name := "MiningSystem"; c_methods := [constructor; processMining] |}.

Definition noBuildings : Buildings :=
  {| energy := []; mining := []; factories := []; transport := [];
     recycling := []; omni := [] |}.

(** One probe at earth, half of it harvesting, 1000 kg of metal in the zone. *)
Definition exampleState : State :=
  {| time := Some 0; metal := Some 1000; slag := Some 0;
     skills := DysonSystem.unitSkills;
     probes_by_zone := {[ "earth" := {[ "probe" := 1 ]} ]};
     probe_allocations_by_zone := {[ "earth" := {[ "harvest" := 1#2 ]} ]};
     structures_by_zone := ∅;
     zones := [ ("earth", {| metal_remaining := Some 1000; mass_remaining := Some 4000;
                             slag_produced := Some 0; depleted := false |}) ];
     dyson_sphere := None; active_transfers := []; rates := Some DysonSystem.exampleRates;
     construction_progress_probes := None |}.

End MiningSystem.

(** ** [ProbeSystem] (engine_v2) *)

Module ProbeSystem.

Import V2.

Definition PROBE_MASS : Q := 100.

(** [processReplication(state, zoneId, replicationRate, deltaTime)].  The
    progress accumulator [construction_progress.probes['probe']] is one per
    probe type, shared by every zone. *)
Definition processReplication (state : State) (zoneId : string)
    (replicationRate deltaTime : Q) : State :=
  let probes := JS.orEmpty (construction_progress_probes state) in
  let probesByZone := probes_by_zone state in
  let probeType := "probe" in
  let currentProgress := JS.orZero (probes !! probeType) in
  let progressAdded := replicationRate * deltaTime in
  let newProgress := currentProgress + progressAdded in
  if JS.leb PROBE_MASS newProgress then
    let probesToAdd := JS.Math_floor (newProgress / PROBE_MASS) in
    let remainingProgress := JS.rem newProgress PROBE_MASS in
    let zoneProbes := JS.orEmpty (probesByZone !! zoneId) in
    let current := JS.orZero (zoneProbes !! probeType) in
    let probesByZone :=
      <[zoneId := <[probeType := current + probesToAdd]> zoneProbes]> probesByZone in
    set_probes_by_zone probesByZone
      (set_construction_progress_probes
         (Some (<[probeType := remainingProgress]> probes)) state)
  else
    set_probes_by_zone probesByZone
      (set_construction_progress_probes
         (Some (<[probeType := newProgress]> probes)) state).


(** Observations. *)
Definition progressOf (s : State) : Q :=
  JS.orZero (JS.orEmpty (construction_progress_probes s) !! "probe").
Definition probesAt (s : State) (zoneId : string) : Q :=
  JS.orZero (probeCount (probes_by_zone s) zoneId "probe").

(** Thirty kilograms of progress so far, 250 kg added in one day: two probes
    are completed at earth and 80 kg carry over. *)
Definition replicationExample : State :=
  set_construction_progress_probes (Some {[ "probe" := 30 ]}) MiningSystem.exampleState.

End ProbeSystem.

(** ** [TransferSystem] of engine_v2 and the engine's [createTransfer] action *)

Module TransferSystemV2.

Import V2.

Definition set_status (v : string) (t : Transfer) : Transfer :=
  {| t_id := t_id t; from_zone := from_zone t; to_zone := to_zone t;
     probe_type := probe_type t; probe_count := probe_count t;
     departure_time := departure_time t; arrival_time := arrival_time t;
     delta_v_cost := delta_v_cost t; status := v |}.

(** [completeTransfer(state, transfer)]: mutates both arguments. *)
Definition completeTransfer (state : State) (transfer : Transfer)
  : State * Transfer :=
  let probesByZone := probes_by_zone state in
  let fromZoneId := from_zone transfer in
  let toZoneId := to_zone transfer in
  let probeType := JS.orString "probe" (probe_type transfer) in
  let probeCount := JS.orZero (probe_count transfer) in
  (* Remove probes from source zone *)
  let probesByZone :=
    match probesByZone !! fromZoneId with
    | Some zoneProbes =>
        match zoneProbes !! probeType with
        | Some held =>
            if JS.eqb held 0 then probesByZone
            else <[fromZoneId :=
                     <[probeType := JS.Math_max 0 (held - probeCount)]> zoneProbes]>
                   probesByZone
        | None => probesByZone
        end
    | None => probesByZone
    end in
  (* Add probes to destination zone *)
  let zoneProbes := JS.orEmpty (probesByZone !! toZoneId) in
  let current := JS.orZero (zoneProbes !! probeType) in
  let probesByZone :=
    <[toZoneId := <[probeType := current + probeCount]> zoneProbes]> probesByZone in
  (set_probes_by_zone probesByZone state, set_status "completed" transfer).

(** A transfer that the scan of [processTransfers] completes. *)
Definition isDue (currentTime : Q) (transfer : Transfer) : bool :=
  negb (String.eqb (status transfer) "paused")
  && (JS.leb (arrival_time transfer) currentTime
      && String.eqb (status transfer) "traveling").

(** The first loop of [processTransfers]: walks [activeTransfers] from index
    [i], completes what is due, and collects the indices in
    [completedTransfers]. *)
Fixpoint scanTransfers (currentTime : Q) (i : nat) (pending : list Transfer)
    (state : State) : State * list Transfer * list nat :=
  match pending with
  | [] => (state, [], [])
  | transfer :: rest =>
      if String.eqb (status transfer) "paused" then
        let '(state', rest', completed) := scanTransfers currentTime (S i) rest state in
        (state', transfer :: rest', completed)
      else if JS.leb (arrival_time transfer) currentTime
              && String.eqb (status transfer) "traveling" then
        let '(state, transfer') := completeTransfer state transfer in
        let '(state', rest', completed) := scanTransfers currentTime (S i) rest state in
        (state', transfer' :: rest', i :: completed)
      else
        let '(state', rest', completed) := scanTransfers currentTime (S i) rest state in
        (state', transfer :: rest', completed)
  end.

(** The second loop: [activeTransfers.splice(completedTransfers[i], 1)] for
    [i] from the last index down. *)
Definition removeCompleted (completed : list nat) (activeTransfers : list Transfer)
  : list Transfer :=
  fold_left (fun l i => delete i l) (rev completed) activeTransfers.

Definition processTransfers (state : State) (deltaTime : Q) : State :=
  let newState := state in
  let activeTransfers := active_transfers newState in
  let currentTime := JS.orZero (time newState) in
  let '(newState, activeTransfers, completedTransfers) :=
    scanTransfers currentTime 0 activeTransfers newState in
  let activeTransfers := removeCompleted completedTransfers activeTransfers in
  set_active_transfers activeTransfers newState.

Definition addTransfer (state : State) (transfer : Transfer) : State :=
  let newState := state in
  let activeTransfers := active_transfers newState in
  set_active_transfers (activeTransfers ++ [transfer]) newState.

Section Engine.

(** [OrbitalMechanics.calculateDeltaV] and [calculateTransferTime] are
    Hohmann-transfer formulas over square roots; the transfer system only
    stores their results, so they are parameters here.  [generateTransferId]
    reads the clock and a random source: the fresh id is an input. *)
Variables calculateDeltaV calculateTransferTime : string -> string -> Q -> Q.

Definition createTransfer (state : State) (fromZoneId toZoneId probeType : string)
    (probeCount : Q) (skills : Skills) (freshId : string) : Transfer :=
  let currentTime := JS.orZero (time state) in
  let deltaV := calculateDeltaV fromZoneId toZoneId (propulsion skills) in
  let transferTime := calculateTransferTime fromZoneId toZoneId (propulsion skills) in
  {| t_id := freshId; from_zone := fromZoneId; to_zone := toZoneId;
     probe_type := Some probeType; probe_count := Some probeCount;
     departure_time := currentTime; arrival_time := currentTime + transferTime;
     delta_v_cost := deltaV; status := "traveling" |}.

(** The payload of the [create_transfer] action. *)
Record TransferAction := {
  a_from_zone : string;
  a_to_zone : string;
  a_probe_type : option string;
  a_probe_count : Q
}.

Inductive ActionResult :=
| Success (transfer : Transfer)
| Failure (error : string).

(** [GameEngine.createTransfer(actionData)]: the result and [this.state]
    afterwards. *)
Definition engineCreateTransfer (state : State) (actionData : TransferAction)
    (freshId : string) : ActionResult * State :=
  let from_zone := a_from_zone actionData in
  let to_zone := a_to_zone actionData in
  let probe_type :=
    match a_probe_type actionData with Some t => t | None => "probe" end in
  let probe_count := a_probe_count actionData in
  let probesByZone := probes_by_zone state in
  let zoneProbes := JS.orEmpty (probesByZone !! from_zone) in
  let available := JS.orZero (zoneProbes !! probe_type) in
  if JS.ltb available probe_count then
    (Failure "Insufficient probes", state)
  else
    let transfer :=
      createTransfer state from_zone to_zone probe_type probe_count
        (skills state) freshId in
    (Success transfer, addTransfer state transfer).

End Engine.

(** Observations. *)
Definition held (s : State) (zoneId probeType : string) : Q :=
  JS.orZero (probeCount (probes_by_zone s) zoneId probeType).

(** All probes of all types in all zones. *)
Definition totalOf (pbz : gmap string (gmap string Q)) : Q :=
  map_fold (fun _ zoneProbes acc => acc + JS.sumValues zoneProbes) 0 pbz.

Definition totalProbes (s : State) : Q := totalOf (probes_by_zone s).

Definition countsNonNegative (s : State) : Prop :=
  forall zoneId probeType, 0 <= held s zoneId probeType.

(** Five probes at earth, none elsewhere, no transfer under way. *)
Definition fiveAtEarth : State :=
  {| time := Some 0; metal := Some 1000; slag := Some 0;
     skills := DysonSystem.unitSkills;
     probes_by_zone := {[ "earth" := {[ "probe" := 5 ]} ]};
     probe_allocations_by_zone := ∅; structures_by_zone := ∅; zones := [];
     dyson_sphere := None; active_transfers := [];
     rates := Some DysonSystem.exampleRates;
     construction_progress_probes := None |}.

Definition moveThree : TransferAction :=
  {| a_from_zone := "earth"; a_to_zone := "mars";
     a_probe_type := None; a_probe_count := 3 |}.

Definition moveFive : TransferAction :=
  {| a_from_zone := "earth"; a_to_zone := "mars";
     a_probe_type := None; a_probe_count := 5 |}.

(** A transfer of six probes from earth to mars, arrived at day 10. *)
Definition sixToMars : Transfer :=
  {| t_id := "t6"; from_zone := "earth"; to_zone := "mars";
     probe_type := Some "probe"; probe_count := Some 6;
     departure_time := 0; arrival_time := 10; delta_v_cost := 0;
     status := "traveling" |}.

Definition moveSix : TransferAction :=
  {| a_from_zone := "earth"; a_to_zone := "mars";
     a_probe_type := None; a_probe_count := 6 |}.

(** A ten-day trip at no delta-v cost, whatever the zones. *)
Definition tenDays : string -> string -> Q -> Q := fun _ _ _ => 10.
Definition noCost : string -> string -> Q -> Q := fun _ _ _ => 0.

Definition set_time (v : option Q) (s : State) : State :=
  {| time := v; metal := metal s; slag := slag s; skills := skills s;
     probes_by_zone := probes_by_zone s;
     probe_allocations_by_zone := probe_allocations_by_zone s;
     structures_by_zone := structures_by_zone s; zones := zones s;
     dyson_sphere := dyson_sphere s; active_transfers := active_transfers s;
     rates := rates s;
     construction_progress_probes := construction_progress_probes s |}.

(** The same scan read as three independent folds: the state after every
    due transfer has been completed in order, the array with the completed
    transfers marked, and the indices collected. *)
Fixpoint arrive (currentTime : Q) (ts : list Transfer) (state : State) : State :=
  match ts with
  | [] => state
  | transfer :: rest =>
      arrive currentTime rest
        (if isDue currentTime transfer then (completeTransfer state transfer).1
         else state)
  end.

Definition mark (currentTime : Q) (transfer : Transfer) : Transfer :=
  if isDue currentTime transfer then set_status "completed" transfer else transfer.

Fixpoint dueFrom (currentTime : Q) (i : nat) (ts : list Transfer) : list nat :=
  match ts with
  | [] => []
  | transfer :: rest =>
      if isDue currentTime transfer then i :: dueFrom currentTime (S i) rest
      else dueFrom currentTime (S i) rest
  end.

Definition probeTypeOf (actionData : TransferAction) : string :=
  match a_probe_type actionData with Some t => t | None => "probe" end.

(** The specification's reading of creation: a successful one-time transfer
    has already left the source stock when [createTransfer] returns. *)
Definition debitsAtCreation (calculateDeltaV calculateTransferTime : string -> string -> Q -> Q)
    (state : State) (actionData : TransferAction) (freshId : string) : Prop :=
  forall transfer state',
    engineCreateTransfer calculateDeltaV calculateTransferTime state actionData freshId
      = (Success transfer, state') ->
    held state' (a_from_zone actionData) (probeTypeOf actionData)
      == held state (a_from_zone actionData) (probeTypeOf actionData)
         - a_probe_count actionData.

(** The two writes of [completeTransfer] on the probe inventory. *)
Definition debit (pbz : gmap string (gmap string Q)) (zoneId probeType : string)
    (n : Q) : gmap string (gmap string Q) :=
  match pbz !! zoneId with
  | Some zoneProbes =>
      match zoneProbes !! probeType with
      | Some h =>
          if JS.eqb h 0 then pbz
          else <[zoneId := <[probeType := JS.Math_max 0 (h - n)]> zoneProbes]> pbz
      | None => pbz
      end
  | None => pbz
  end.

Definition credit (pbz : gmap string (gmap string Q)) (zoneId probeType : string)
    (n : Q) : gmap string (gmap string Q) :=
  <[zoneId := <[probeType := JS.orZero (JS.orEmpty (pbz !! zoneId) !! probeType) + n]>
                (JS.orEmpty (pbz !! zoneId))]> pbz.

Definition transferCount (t : Transfer) : Q := JS.orZero (probe_count t).
Definition transferType (t : Transfer) : string := JS.orString "probe" (probe_type t).

(** Two accepted five-probe transfers out of a zone that holds five probes,
    both due. *)
Definition twoDueTransfers : State :=
  set_time (Some 10)
    (engineCreateTransfer noCost tenDays
       (engineCreateTransfer noCost tenDays fiveAtEarth moveFive "t1").2
       moveFive "t2").2.

End TransferSystemV2.

(** ** [EnergyCalculator] of engine_v2 *)

Module EnergyCalculatorV2.

Import V2.

Definition BASE_PROBE_ENERGY : Q := 100000.

Record EnergyBalance := {
  production : Q;
  consumption : Q;
  probeConsumption : Q;
  structureConsumption : Q;
  net : Q;
  throttle : Q
}.

(** One [for (const building of list)] pass of [calculateEnergyProduction]. *)
Definition productionPass (zoneStructures : gmap string Q) (zoneId : string)
    (skills : Skills) (bs : list Building) (totalProduction : Q) : Q :=
  fold_left
    (fun totalProduction building =>
       let count := JS.orZero (zoneStructures !! b_id building) in
       if JS.eqb count 0 then totalProduction
       else
         let baseProduction := JS.orZero (energy_production_per_second building) in
         let zoneEfficiency := JS.orDefault 1 (orbital_efficiency building !! zoneId) in
         let effectiveProduction :=
           baseProduction * count * zoneEfficiency * energy_collection skills in
         totalProduction + effectiveProduction)
    bs totalProduction.

Definition calculateEnergyProduction (structuresByZone : gmap string (gmap string Q))
    (buildings : Buildings) (skills : Skills) : Q :=
  map_fold
    (fun zoneId zoneStructures totalProduction =>
       let totalProduction :=
         productionPass zoneStructures zoneId skills (energy buildings) totalProduction in
       productionPass zoneStructures zoneId skills (omni buildings) totalProduction)
    0 structuresByZone.

Definition calculateProbeEnergyConsumption (probesByZone : gmap string (gmap string Q))
    (probeAllocationsByZone : gmap string (gmap string Q)) (skills : Skills) : Q :=
  map_fold
    (fun zoneId zoneProbes totalConsumption =>
       let totalProbes := JS.sumValues zoneProbes in
       if JS.eqb totalProbes 0 then totalConsumption
       else
         let allocations := JS.orEmpty (probeAllocationsByZone !! zoneId) in
         let harvestAllocation := JS.orZero (allocations !! "harvest") in
         let constructAllocation := JS.orZero (allocations !! "construct") in
         let replicateAllocation := JS.orZero (allocations !! "replicate") in
         let dysonAllocation := JS.orZero (allocations !! "dyson") in
         let activeProbes :=
           totalProbes * (harvestAllocation + constructAllocation
                          + replicateAllocation + dysonAllocation) in
         let consumptionPerProbe := BASE_PROBE_ENERGY in
         let propulsionBonus := propulsion skills - 1 in
         let consumptionPerProbe :=
           consumptionPerProbe / (1 + propulsionBonus * (1#2)) in
         let productionBonus := V2.production skills - 1 in
         let consumptionPerProbe :=
           consumptionPerProbe / (1 + productionBonus * (3#10)) in
         totalConsumption + activeProbes * consumptionPerProbe)
    0 probesByZone.

Definition calculateStructureEnergyConsumption
    (structuresByZone : gmap string (gmap string Q)) (buildings : Buildings) : Q :=
  let allBuildings :=
    (energy buildings ++ mining buildings ++ factories buildings
     ++ transport buildings ++ recycling buildings ++ omni buildings)%list in
  map_fold
    (fun zoneId zoneStructures totalConsumption =>
       fold_left
         (fun totalConsumption building =>
            let count := JS.orZero (zoneStructures !! b_id building) in
            if JS.eqb count 0 then totalConsumption
            else
              let baseConsumption :=
                JS.orZero (energy_consumption_per_second building) in
              totalConsumption + baseConsumption * count)
         allBuildings totalConsumption)
    0 structuresByZone.

(** The throttle expression of this calculator, on the two totals. *)
Definition throttleOf (production totalConsumption : Q) : Q :=
  if JS.ltb 0 production
  then JS.Math_min 1 (production / JS.Math_max 1 totalConsumption)
  else 0.

Definition calculateEnergyBalance (state : State) (buildings : Buildings)
    (skills : Skills) (dysonEnergyProduction : Q) : EnergyBalance :=
  let structuresByZone := structures_by_zone state in
  let probesByZone := probes_by_zone state in
  let probeAllocationsByZone := probe_allocations_by_zone state in
  let production :=
    calculateEnergyProduction structuresByZone buildings skills
    + dysonEnergyProduction in
  let probeConsumption :=
    calculateProbeEnergyConsumption probesByZone probeAllocationsByZone skills in
  let structureConsumption :=
    calculateStructureEnergyConsumption structuresByZone buildings in
  let totalConsumption := probeConsumption + structureConsumption in
  let netEnergy := production - totalConsumption in
  let throttle := throttleOf production totalConsumption in
  {| production := production; consumption := totalConsumption;
     probeConsumption := probeConsumption;
     structureConsumption := structureConsumption;
     net := netEnergy; throttle := throttle |}.

(** One probe at earth with every allocation set to zero, no structures:
    nothing produces and nothing draws power. *)
Definition idleState : State :=
  {| time := Some 0; metal := Some 1000; slag := Some 0;
     skills := DysonSystem.unitSkills;
     probes_by_zone := {[ "earth" := {[ "probe" := 1 ]} ]};
     probe_allocations_by_zone :=
       {[ "earth" := {[ "harvest" := 0; "construct" := 0;
                        "replicate" := 0; "dyson" := 0 ]} ]};
     structures_by_zone := ∅; zones := [];
     dyson_sphere := None; active_transfers := [];
     rates := Some DysonSystem.exampleRates;
     construction_progress_probes := None |}.

End EnergyCalculatorV2.

(** ** The world state of [engine/] *)

Module V1.

(** Skills are looked up by name; [computer] is an object with a [total]. *)
Record Skills := {
  skill : gmap string Q;
  computer_total : option Q
}.

Record Zone := {
  stored_metal : option Q;
  probe_mass : option Q;
  structure_mass : option Q;
  slag_mass : option Q;
  mass_remaining : option Q;
  depleted : bool
}.

Definition freshZone : Zone :=
  {| stored_metal := Some 0; probe_mass := Some 0; structure_mass := Some 0;
     slag_mass := Some 0; mass_remaining := Some 0; depleted := false |}.

(** A batch under way in a continuous transfer. *)
Record Batch := {
  count : option Q;
  mass_kg : option Q;
  batch_departure_time : Q;
  batch_arrival_time : Q;
  batch_resource_type : string
}.

Record Transfer := {
  t_id : string;
  from_zone : string;
  to_zone : string;
  resource_type : option string;
  type : string;
  delta_v_cost : Q;
  transfer_time : Q;
  status : string;
  paused : bool;
  probe_type : option string;
  probe_count : option Q;
  metal_kg : option Q;
  rate_percentage : option Q;
  metal_rate_percentage : option Q;
  in_transit : option (list Batch);
  departure_time : option Q;
  arrival_time : option Q;
  last_send_time : option Q
}.

Record UpgradeFactors := {
  structure_energy_performance : option Q;
  structure_building_cost : option Q;
  structure_building_performance : option Q
}.

Record TechUpgradeFactors := {
  energy_generation : option Q;
  probe_replicate : option Q
}.

Record State := {
  time : option Q;
  skills : option Skills;
  probes_by_zone : gmap string (gmap string Q);
  probe_allocations_by_zone : gmap string (gmap string Q);
  structures_by_zone : gmap string (gmap string Q);
  zones : gmap string Zone;
  active_transfers : list Transfer;
  base_energy_production : option Q;
  upgrade_factors : UpgradeFactors;
  tech_upgrade_factors : TechUpgradeFactors;
  derived_probe_production_rate : gmap string Q
}.

Definition noSkills : Skills := {| skill := ∅; computer_total := None |}.

Record Building := {
  power_output_mw : option Q;
  energy_production_per_second : option Q;
  energy_consumption_per_second : option Q;
  energy_cost_multiplier : option Q;
  orbital_efficiency : gmap string Q
}.

(** [Object.entries(allBuildings)] *)
Definition Buildings := list (string * Building).

End V1.

(** ** [EnergyCalculator] of [engine/] *)

Module EnergyCalculator.

Import V1.

Definition BASE_ENERGY_COST_MINING : Q := 500000.
Definition BASE_ENERGY_COST_RECYCLE_SLAG : Q := 300000.
Definition BASE_STRUCTURE_ENERGY_COST : Q := 250000.
Definition BASE_ENERGY_PRODUCTION_PROBE : Q := 100000.

Record EnergyBalance := {
  production : Q;
  consumption : Q;
  probeProduction : Q;
  probeConsumption : Q;
  structureConsumption : Q;
  baseProduction : Q;
  net : Q;
  throttle : Q
}.

Inductive Activity := mining | recycle_slag | otherActivity.

Section Calculator.

(** [calculateUpgradeFactorFromCoefficients(category, skills)] is a
    geometric mean raised to a power (see [CompositeSkills]) and
    [Math.pow(count, 2.1)] is a real power; both enter the balance only as
    factors of the totals, and are parameters here. *)
Variable calculateUpgradeFactorFromCoefficients : string -> Skills -> Q.
Variable Math_pow : Q -> Q -> Q.

Definition getEffectiveEnergyCost (baseCost : Q) (skills : Skills)
    (activityType : Activity) : Q :=
  let effectiveCost := baseCost in
  let consumptionReductionFactor :=
    calculateUpgradeFactorFromCoefficients "probe_energy_consumption" skills in
  let effectiveCost := effectiveCost / consumptionReductionFactor in
  match activityType with
  | mining =>
      effectiveCost / JS.orDefault 1 (skill skills !! "production")
  | recycle_slag =>
      let effectiveCost := effectiveCost / JS.orDefault 1 (skill skills !! "recycling") in
      effectiveCost / JS.orDefault 1 (skill skills !! "materials")
  | otherActivity => effectiveCost
  end.

Definition calculateProbeEnergyProduction (probesByZone : gmap string (gmap string Q))
    (skills : Skills) : Q :=
  let productionUpgradeFactor :=
    calculateUpgradeFactorFromCoefficients "probe_energy_production" skills in
  map_fold
    (fun zoneId zoneProbes totalProduction =>
       let totalProbes := JS.orZero (zoneProbes !! "probe") in
       if JS.ltb 0 totalProbes then
         let probeProduction :=
           totalProbes * BASE_ENERGY_PRODUCTION_PROBE * productionUpgradeFactor in
         totalProduction + probeProduction
       else totalProduction)
    0 probesByZone.

Definition calculateStructureEnergyProduction
    (structuresByZone : gmap string (gmap string Q)) (buildings : Buildings)
    (state : State) : Q :=
  let allBuildings := buildings in
  match allBuildings with
  | [] => 0
  | _ =>
    map_fold
      (fun zoneId zoneStructures totalProduction =>
         fold_left
           (fun totalProduction '(buildingId, building) =>
              let count := JS.orZero (zoneStructures !! buildingId) in
              if JS.eqb count 0 then totalProduction
              else if negb (JS.eqb (JS.orZero (power_output_mw building)) 0) then
                let basePowerMW := JS.orZero (power_output_mw building) in
                let basePowerW := basePowerMW * 1000000 in
                let perfFactor :=
                  JS.orDefault 1 (structure_energy_performance (upgrade_factors state)) in
                let zoneEfficiency :=
                  JS.orDefault 1 (orbital_efficiency building !! zoneId) in
                let geometricFactor := Math_pow count (21#10) in
                totalProduction
                + basePowerW * geometricFactor * zoneEfficiency * perfFactor
              else if negb (JS.eqb (JS.orZero (energy_production_per_second building)) 0) then
                let baseProduction := JS.orZero (energy_production_per_second building) in
                let upgradeFactor :=
                  JS.orDefault 1 (energy_generation (tech_upgrade_factors state)) in
                let zoneEfficiency :=
                  JS.orDefault 1 (orbital_efficiency building !! zoneId) in
                let geometricFactor := Math_pow count (21#10) in
                totalProduction
                + baseProduction * geometricFactor * zoneEfficiency * upgradeFactor
              else totalProduction)
           allBuildings totalProduction)
      0 structuresByZone
  end.

Definition calculateProbeEnergyConsumption (probesByZone : gmap string (gmap string Q))
    (probeAllocationsByZone : gmap string (gmap string Q)) (skills : Skills) : Q :=
  let miningCost := getEffectiveEnergyCost BASE_ENERGY_COST_MINING skills mining in
  let recycleSlagCost :=
    getEffectiveEnergyCost BASE_ENERGY_COST_RECYCLE_SLAG skills recycle_slag in
  map_fold
    (fun zoneId zoneProbes totalConsumption =>
       let totalProbes := JS.orZero (zoneProbes !! "probe") in
       if JS.eqb totalProbes 0 then totalConsumption
       else
         let allocations := JS.orEmpty (probeAllocationsByZone !! zoneId) in
         let harvestAllocation := JS.orZero (allocations !! "harvest") in
         let recycleAllocation := JS.orZero (allocations !! "recycle") in
         let miningProbes := totalProbes * harvestAllocation in
         let recycleSlagProbes := totalProbes * recycleAllocation in
         let zoneConsumption := 0 in
         let zoneConsumption := zoneConsumption + miningProbes * miningCost in
         let zoneConsumption := zoneConsumption + recycleSlagProbes * recycleSlagCost in
         totalConsumption + zoneConsumption)
    0 probesByZone.

Definition calculateStructureEnergyConsumption
    (structuresByZone : gmap string (gmap string Q)) (buildings : Buildings)
    (state : State) : Q :=
  let allBuildings := buildings in
  map_fold
    (fun zoneId zoneStructures totalConsumption =>
       fold_left
         (fun totalConsumption '(buildingId, building) =>
            let count := JS.orZero (zoneStructures !! buildingId) in
            if JS.eqb count 0 then totalConsumption
            else
              match energy_cost_multiplier building with
              | Some multiplier =>
                  if JS.eqb multiplier 0 then totalConsumption
                  else
                    let baseCost := BASE_STRUCTURE_ENERGY_COST * multiplier in
                    let costFactor :=
                      JS.orDefault 1 (structure_building_cost (upgrade_factors state)) in
                    let effectiveCost := baseCost / costFactor in
                    let effectiveCost :=
                      match String.eqb buildingId "mass_driver", skills state with
                      | true, Some sk =>
                          let transportSkill :=
                            JS.orDefault 1 (skill sk !! "energy_transport") in
                          effectiveCost / transportSkill
                      | _, _ => effectiveCost
                      end in
                    totalConsumption + effectiveCost * count
              | None =>
                  let baseConsumption :=
                    JS.orZero (energy_consumption_per_second building) in
                  if JS.ltb 0 baseConsumption
                  then totalConsumption + baseConsumption * count
                  else totalConsumption
              end)
         allBuildings totalConsumption)
    0 structuresByZone.

Definition calculateEnergyBalance (state : State) (buildings : Buildings)
    (skills : Skills) (dysonEnergyProduction : Q) : EnergyBalance :=
  let structuresByZone := structures_by_zone state in
  let probesByZone := probes_by_zone state in
  let probeAllocationsByZone := probe_allocations_by_zone state in
  let baseProduction := JS.orZero (base_energy_production state) in
  let probeProduction := calculateProbeEnergyProduction probesByZone skills in
  let structureProduction :=
    calculateStructureEnergyProduction structuresByZone buildings state in
  let production :=
    baseProduction + probeProduction + structureProduction + dysonEnergyProduction in
  let probeConsumption :=
    calculateProbeEnergyConsumption probesByZone probeAllocationsByZone skills in
  let structureConsumption :=
    calculateStructureEnergyConsumption structuresByZone buildings state in
  let totalConsumption := probeConsumption + structureConsumption in
  let netEnergy := production - totalConsumption in
  let throttle :=
    if JS.ltb 0 totalConsumption
    then (if JS.ltb 0 production
          then JS.Math_min 1 (production / totalConsumption)
          else 0)
    else 1 in
  {| production := production; consumption := totalConsumption;
     probeProduction := probeProduction; probeConsumption := probeConsumption;
     structureConsumption := structureConsumption;
     baseProduction := baseProduction; net := netEnergy; throttle := throttle |}.

End Calculator.

End EnergyCalculator.

(** ** [StructureSystem] (engine_v2): structure inventory *)

Module StructureSystem.

Import V2.

Definition set_structures_by_zone (v : gmap string (gmap string Q)) (s : State) : State :=
  {| time := time s; metal := metal s; slag := slag s; skills := skills s;
     probes_by_zone := probes_by_zone s;
     probe_allocations_by_zone := probe_allocations_by_zone s;
     structures_by_zone := v; zones := zones s;
     dyson_sphere := dyson_sphere s; active_transfers := active_transfers s;
     rates := rates s;
     construction_progress_probes := construction_progress_probes s |}.

(** [addStructure(state, zoneId, structureId, count = 1)] *)
Definition addStructure (state : State) (zoneId structureId : string)
    (count : option Q) : State :=
  let count := match count with Some c => c | None => 1 end in
  let newState := state in
  let structuresByZone := structures_by_zone newState in
  let zoneStructures := JS.orEmpty (structuresByZone !! zoneId) in
  let current := JS.orZero (zoneStructures !! structureId) in
  let structuresByZone :=
    <[zoneId := <[structureId := current + count]> zoneStructures]> structuresByZone in
  set_structures_by_zone structuresByZone newState.

(** [removeStructure(state, zoneId, structureId, count = 1)] *)
Definition removeStructure (state : State) (zoneId structureId : string)
    (count : option Q) : State :=
  let count := match count with Some c => c | None => 1 end in
  let newState := state in
  let structuresByZone := structures_by_zone newState in
  match structuresByZone !! zoneId with
  | None => newState
  | Some zoneStructures =>
      match zoneStructures !! structureId with
      | None => newState
      | Some built =>
          if JS.eqb built 0 then newState
          else
            let structuresByZone :=
              <[zoneId := <[structureId := JS.Math_max 0 (built - count)]> zoneStructures]>
                structuresByZone in
            set_structures_by_zone structuresByZone newState
      end
  end.

(** Observation: how many structures of a kind a zone has. *)
Definition built (s : State) (zoneId structureId : string) : Q :=
  JS.orZero (JS.orEmpty (structures_by_zone s !! zoneId) !! structureId).

(** The default [count = 1] of the inventory methods. *)
Definition orOne (count : option Q) : Q :=
  match count with Some c => c | None => 1 end.

End StructureSystem.

(** ** [GameEngine] actions of engine_v2 *)

Module EngineV2.

Import OrbitalMechanics V2 TransferSystemV2.

(** What [purchaseStructure] reads of a building definition. *)
Record Purchasable := {
  p_id : string;
  base_cost_metal : option Q
}.

(** [this.buildings]: category name to list of definitions, in key order;
    [None] is [null] (data not loaded). *)
Definition Catalogue := option (list (string * list Purchasable)).

(** [findBuilding(buildingId)] *)
Definition findBuilding (buildings : Catalogue) (buildingId : string)
  : option Purchasable :=
  match buildings with
  | None => None
  | Some categories =>
      (fix search (cs : list (string * list Purchasable)) : option Purchasable :=
         match cs with
         | [] => None
         | (category, items) :: rest =>
             match List.find (fun b => String.eqb (p_id b) buildingId) items with
             | Some building => Some building
             | None => search rest
             end
         end) categories
  end.

Record StructurePurchase := {
  sp_zone_id : string;
  sp_structure_id : string;
  sp_count : option Q
}.

Record ProbePurchase := {
  pp_zone_id : string;
  pp_probe_type : option string;
  pp_count : option Q
}.

Inductive PurchaseResult :=
| Purchased
| Rejected (error : string).

(** [purchaseStructure(actionData)].  The outer [None] is a state without a
    [metal] number, on which the source would store [NaN]. *)
Definition purchaseStructure (buildings : Catalogue) (state : State)
    (actionData : StructurePurchase) : option (PurchaseResult * State) :=
  let zone_id := sp_zone_id actionData in
  let structure_id := sp_structure_id actionData in
  let count := match sp_count actionData with Some c => c | None => 1 end in
  match findBuilding buildings structure_id with
  | None => Some (Rejected "Building not found", state)
  | Some building =>
      let cost := JS.orZero (base_cost_metal building) in
      let totalCost := cost * count in
      match metal state with
      | None => None
      | Some available =>
          if JS.ltb available totalCost then
            Some (Rejected "Insufficient metal", state)
          else
            let state := set_metal (Some (available - totalCost)) state in
            let state := StructureSystem.addStructure state zone_id structure_id (Some count) in
            Some (Purchased, state)
      end
  end.



Definition set_probe_allocations_by_zone (v : gmap string (gmap string Q)) (s : State) : State :=
  {| time := time s; metal := metal s; slag := slag s; skills := skills s;
     probes_by_zone := probes_by_zone s;
     probe_allocations_by_zone := v;
     structures_by_zone := structures_by_zone s; zones := zones s;
     dyson_sphere := dyson_sphere s; active_transfers := active_transfers s;
     rates := rates s;
     construction_progress_probes := construction_progress_probes s |}.

(** [Math.max(0, Math.min(1, x))] *)
Definition clampFraction (x : Q) : Q := JS.Math_max 0 (JS.Math_min 1 x).

(** [allocateProbes(actionData)]: the loop [for (const key in allocations)]
    writes one clamped entry per key. *)
Definition allocateProbes (state : State) (zone_id : string)
    (allocations : gmap string Q) : State :=
  let zoneAllocations := JS.orEmpty (probe_allocations_by_zone state !! zone_id) in
  let zoneAllocations :=
    map_fold (fun key value acc => <[key := clampFraction value]> acc)
      zoneAllocations allocations in
  set_probe_allocations_by_zone
    (<[zone_id := zoneAllocations]> (probe_allocations_by_zone state)) state.

(** *** Initialisation *)

(** [zones[zoneId]] on the zone table. *)
Fixpoint zoneEntry (zs : list (string * ZoneState)) (zoneId : string)
  : option ZoneState :=
  match zs with
  | [] => None
  | (k, z) :: rest => if String.eqb k zoneId then Some z else zoneEntry rest zoneId
  end.

(** [initializeZones()]: one fresh record for every registry zone the state
    does not have yet. *)
Definition initializeZones (orbitalZones : Registry) (state : State) : State :=
  match orbitalZones with
  | None => state
  | Some descriptors =>
      let zones :=
        fold_left
          (fun zones zone =>
             let zoneId := z_id zone in
             match zoneEntry zones zoneId with
             | Some _ => zones
             | None =>
                 (zones ++ [ (zoneId,
                     {| metal_remaining := Some (JS.orZero (metal_stores_kg zone));
                        mass_remaining := Some (JS.orZero (total_mass_kg zone));
                        slag_produced := Some 0;
                        depleted := false |}) ])%list
             end)
          descriptors (zones state) in
      set_zones zones state
  end.

Definition dysonDefaultAllocation : gmap string Q :=
  {[ "harvest" := 0; "construct" := 0; "replicate" := 0; "dyson" := 1 ]}.

Definition defaultAllocation : gmap string Q :=
  {[ "harvest" := 1#2; "construct" := 3#10; "replicate" := 2#10; "dyson" := 0 ]}.

Record EngineConfig := {
  default_zone : option string;
  initial_probes : option Q
}.

(** [initializeProbes()] *)
Definition initializeProbes (orbitalZones : Registry) (config : EngineConfig)
    (state : State) : State :=
  let probesByZone := probes_by_zone state in
  let probeAllocationsByZone := probe_allocations_by_zone state in
  let defaultZoneId := JS.orString "earth" (default_zone config) in
  let initialProbes := JS.orDefault 1 (initial_probes config) in
  let probesByZone :=
    match probesByZone !! defaultZoneId with
    | None => <[defaultZoneId := {[ "probe" := initialProbes ]}]> probesByZone
    | Some zoneProbes =>
        if JS.eqb (JS.orZero (zoneProbes !! "probe")) 0
        then <[defaultZoneId := <["probe" := initialProbes]> zoneProbes]> probesByZone
        else probesByZone
    end in
  let probeAllocationsByZone :=
    fold_left
      (fun allocs zone =>
         let zoneId := z_id zone in
         match allocs !! zoneId with
         | Some _ => allocs
         | None =>
             if match is_dyson_zone zone with Some b => b | None => false end
             then <[zoneId := dysonDefaultAllocation]> allocs
             else <[zoneId := defaultAllocation]> allocs
         end)
      (match orbitalZones with Some zs => zs | None => [] end)
      probeAllocationsByZone in
  set_probe_allocations_by_zone probeAllocationsByZone
    (set_probes_by_zone probesByZone state).

(** *** The action dispatcher *)

Inductive Action :=
| purchase_structure (actionData : StructurePurchase)
| purchase_probe (actionData : ProbePurchase)
| allocate_probes (zone_id : string) (allocations : gmap string Q)
| create_transfer (actionData : TransferAction) (freshId : string)
| unknown_action (actionType : string).

Definition actionSucceeded (r : PurchaseResult) : bool :=
  match r with Purchased => true | Rejected _ => false end.



(** A catalogue with one mining station at 200 kg and one solar array. *)
Definition exampleCatalogue : Catalogue :=
  Some [ ("mining", [ {| p_id := "mining_station"; base_cost_metal := Some 200 |} ]);
         ("energy", [ {| p_id := "solar_array"; base_cost_metal := Some 300 |} ]) ].

Definition buyStation : StructurePurchase :=
  {| sp_zone_id := "earth"; sp_structure_id := "mining_station"; sp_count := Some 3 |}.

(** The allocation map of a zone, [{}] when the zone has none. *)
Definition allocationsOf (s : State) (zone_id : string) : gmap string Q :=
  JS.orEmpty (probe_allocations_by_zone s !! zone_id).

(** The record [initializeZones] creates for a descriptor, and one step of
    its loop. *)
Definition freshZoneOf (zone : ZoneDescriptor) : ZoneState :=
  {| metal_remaining := Some (JS.orZero (metal_stores_kg zone));
     mass_remaining := Some (JS.orZero (total_mass_kg zone));
     slag_produced := Some 0;
     depleted := false |}.

Definition zoneStep (zones : list (string * ZoneState)) (zone : ZoneDescriptor)
  : list (string * ZoneState) :=
  match zoneEntry zones (z_id zone) with
  | Some _ => zones
  | None => (zones ++ [ (z_id zone, freshZoneOf zone) ])%list
  end.

(** The allocation [initializeProbes] gives a zone that has none, and one
    step of its loop. *)
Definition defaultAllocationOf (zone : ZoneDescriptor) : gmap string Q :=
  if match is_dyson_zone zone with Some b => b | None => false end
  then dysonDefaultAllocation else defaultAllocation.

Definition allocationStep (allocs : gmap string (gmap string Q))
    (zone : ZoneDescriptor) : gmap string (gmap string Q) :=
  match allocs !! z_id zone with
  | Some _ => allocs
  | None =>
      if match is_dyson_zone zone with Some b => b | None => false end
      then <[z_id zone := dysonDefaultAllocation]> allocs
      else <[z_id zone := defaultAllocation]> allocs
  end.

Definition defaultZoneOf (config : EngineConfig) : string :=
  JS.orString "earth" (default_zone config).

Definition initialProbesOf (config : EngineConfig) : Q :=
  JS.orDefault 1 (initial_probes config).

Definition defaultConfig : EngineConfig :=
  {| default_zone := None; initial_probes := None |}.

(** The probe inventory after [initializeProbes]. *)
Definition seededProbes (config : EngineConfig)
    (probesByZone : gmap string (gmap string Q)) : gmap string (gmap string Q) :=
  match probesByZone !! defaultZoneOf config with
  | None => <[defaultZoneOf config := {[ "probe" := initialProbesOf config ]}]> probesByZone
  | Some zoneProbes =>
      if JS.eqb (JS.orZero (zoneProbes !! "probe")) 0
      then <[defaultZoneOf config := <["probe" := initialProbesOf config]> zoneProbes]>
             probesByZone
      else probesByZone
  end.

End EngineV2.

(** ** [DysonSystem.calculateDysonEnergyProduction] (engine_v2) *)

Module DysonPower.

Import V2 DysonSystem.

Definition DYSON_POWER_PER_KG : Q := 5000.

Record DysonProduction := {
  total : Q;
  economy : Q;
  compute : Q;
  intelligence : Q
}.

Definition calculateDysonEnergyProduction (state : State) (skills : Skills)
    (powerAllocation : Q) : DysonProduction :=
  let dysonSphere := dysonOf state in
  let mass := JS.orZero (mass dysonSphere) in
  let totalPower := mass * DYSON_POWER_PER_KG * energy_collection skills in
  let economyPower := totalPower * (1 - powerAllocation) in
  let computePower := totalPower * powerAllocation in
  let intelligenceProduction := computePower in
  {| total := totalPower; economy := economyPower; compute := computePower;
     intelligence := intelligenceProduction |}.

End DysonPower.

(** ** [RecyclingSystem] (engine_v2) *)

Module RecyclingSystem.

Import V2.

Section Recycling.

(** [CompositeSkillsCalculator.calculateProbeRecycleSpeed] and
    [calculateSalvageEfficiency]: the recycling system only multiplies by
    what they return. *)
Variable calculateProbeRecycleSpeed : Skills -> Q.
Variable calculateSalvageEfficiency : Skills -> Q.

(** The body of [for (const zoneId in zones)]; [metal] is [newState.metal]. *)
Fixpoint recyclingLoop (state : State) (deltaTime : Q) (skills : Skills)
    (zs : list (string * ZoneState)) (metal : option Q)
  : list (string * ZoneState) * option Q :=
  match zs with
  | [] => ([], metal)
  | (zoneId, zone) :: rest =>
      let zoneProbes := JS.orEmpty (probes_by_zone state !! zoneId) in
      let totalProbes := JS.sumValues zoneProbes in
      if JS.eqb totalProbes 0 then
        let '(rest', metal') := recyclingLoop state deltaTime skills rest metal in
        ((zoneId, zone) :: rest', metal')
      else
        let allocations := JS.orEmpty (probe_allocations_by_zone state !! zoneId) in
        let recycleAllocation := JS.orZero (allocations !! "recycle") in
        if JS.eqb recycleAllocation 0 then
          let '(rest', metal') := recyclingLoop state deltaTime skills rest metal in
          ((zoneId, zone) :: rest', metal')
        else
          let recyclingProbes := totalProbes * recycleAllocation in
          let recycleSpeed := calculateProbeRecycleSpeed skills in
          let totalRecycleRate := recycleSpeed * recyclingProbes in
          let slagAvailable := JS.orZero (slag_produced zone) in
          let slagRecycled := JS.Math_min (totalRecycleRate * deltaTime) slagAvailable in
          if JS.leb slagRecycled 0 then
            let '(rest', metal') := recyclingLoop state deltaTime skills rest metal in
            ((zoneId, zone) :: rest', metal')
          else
            let salvageEfficiency := calculateSalvageEfficiency skills in
            let metalProduced := slagRecycled * salvageEfficiency in
            let slagRemaining := slagRecycled - metalProduced in
            let zone' :=
              {| metal_remaining := Some (JS.orZero (metal_remaining zone) + metalProduced);
                 mass_remaining := mass_remaining zone;
                 slag_produced :=
                   Some (JS.Math_max 0 (slagAvailable - slagRecycled + slagRemaining));
                 depleted := depleted zone |} in
            let metal := Some (JS.orZero metal + metalProduced) in
            let '(rest', metal') := recyclingLoop state deltaTime skills rest metal in
            ((zoneId, zone') :: rest', metal')
  end.

Definition processRecycling (state : State) (deltaTime : Q) (skills : Skills) : State :=
  let newState := state in
  let '(zones', metal') :=
    recyclingLoop newState deltaTime skills (zones newState) (metal newState) in
  set_zones zones' (set_metal metal' newState).



End Recycling.

(** Two probes at earth, all recycling, on 300 kg of slag. *)
Definition slagState : State :=
  {| time := Some 0; metal := Some 0; slag := Some 300;
     skills := DysonSystem.unitSkills;
     probes_by_zone := {[ "earth" := {[ "probe" := 2 ]} ]};
     probe_allocations_by_zone := {[ "earth" := {[ "recycle" := 1 ]} ]};
     structures_by_zone := ∅;
     zones := [ ("earth", {| metal_remaining := Some 10; mass_remaining := Some 4000;
                             slag_produced := Some 300; depleted := false |}) ];
     dyson_sphere := None; active_transfers := []; rates := Some DysonSystem.exampleRates;
     construction_progress_probes := None |}.

Definition fiftyPerProbe : Skills -> Q := fun _ => 50.
Definition threeQuarters : Skills -> Q := fun _ => 3#4.

End RecyclingSystem.

(** ** The transfer system of [engine/]: one-time and continuous transfers *)

Module TransferSystem.

Import OrbitalMechanics V1.

Definition set_transfer_time (v : Q) (t : Transfer) : Transfer :=
  {| t_id := t_id t; from_zone := from_zone t; to_zone := to_zone t; resource_type :=
     resource_type t; type := type t; delta_v_cost := delta_v_cost t; transfer_time := v;
     status := status t; paused := paused t; probe_type := probe_type t; probe_count :=
     probe_count t; metal_kg := metal_kg t; rate_percentage := rate_percentage t;
     metal_rate_percentage := metal_rate_percentage t; in_transit := in_transit t;
     departure_time := departure_time t; arrival_time := arrival_time t; last_send_time
     := last_send_time t |}.

Definition set_in_transit (v : option (list Batch)) (t : Transfer) : Transfer :=
  {| t_id := t_id t; from_zone := from_zone t; to_zone := to_zone t; resource_type :=
     resource_type t; type := type t; delta_v_cost := delta_v_cost t; transfer_time :=
     transfer_time t; status := status t; paused := paused t; probe_type := probe_type t;
     probe_count := probe_count t; metal_kg := metal_kg t; rate_percentage :=
     rate_percentage t; metal_rate_percentage := metal_rate_percentage t; in_transit :=
     v; departure_time := departure_time t; arrival_time := arrival_time t;
     last_send_time := last_send_time t |}.

Definition set_arrival_time (v : option Q) (t : Transfer) : Transfer :=
  {| t_id := t_id t; from_zone := from_zone t; to_zone := to_zone t; resource_type :=
     resource_type t; type := type t; delta_v_cost := delta_v_cost t; transfer_time :=
     transfer_time t; status := status t; paused := paused t; probe_type := probe_type t;
     probe_count := probe_count t; metal_kg := metal_kg t; rate_percentage :=
     rate_percentage t; metal_rate_percentage := metal_rate_percentage t; in_transit :=
     in_transit t; departure_time := departure_time t; arrival_time := v; last_send_time
     := last_send_time t |}.

Definition set_last_send_time (v : option Q) (t : Transfer) : Transfer :=
  {| t_id := t_id t; from_zone := from_zone t; to_zone := to_zone t; resource_type :=
     resource_type t; type := type t; delta_v_cost := delta_v_cost t; transfer_time :=
     transfer_time t; status := status t; paused := paused t; probe_type := probe_type t;
     probe_count := probe_count t; metal_kg := metal_kg t; rate_percentage :=
     rate_percentage t; metal_rate_percentage := metal_rate_percentage t; in_transit :=
     in_transit t; departure_time := departure_time t; arrival_time := arrival_time t;
     last_send_time := v |}.

Definition set_status (v : string) (t : Transfer) : Transfer :=
  {| t_id := t_id t; from_zone := from_zone t; to_zone := to_zone t; resource_type :=
     resource_type t; type := type t; delta_v_cost := delta_v_cost t; transfer_time :=
     transfer_time t; status := v; paused := paused t; probe_type := probe_type t;
     probe_count := probe_count t; metal_kg := metal_kg t; rate_percentage :=
     rate_percentage t; metal_rate_percentage := metal_rate_percentage t; in_transit :=
     in_transit t; departure_time := departure_time t; arrival_time := arrival_time t;
     last_send_time := last_send_time t |}.

Definition set_paused (v : bool) (t : Transfer) : Transfer :=
  {| t_id := t_id t; from_zone := from_zone t; to_zone := to_zone t; resource_type :=
     resource_type t; type := type t; delta_v_cost := delta_v_cost t; transfer_time :=
     transfer_time t; status := status t; paused := v; probe_type := probe_type t;
     probe_count := probe_count t; metal_kg := metal_kg t; rate_percentage :=
     rate_percentage t; metal_rate_percentage := metal_rate_percentage t; in_transit :=
     in_transit t; departure_time := departure_time t; arrival_time := arrival_time t;
     last_send_time := last_send_time t |}.

Definition set_rate_percentage (v : option Q) (t : Transfer) : Transfer :=
  {| t_id := t_id t; from_zone := from_zone t; to_zone := to_zone t; resource_type :=
     resource_type t; type := type t; delta_v_cost := delta_v_cost t; transfer_time :=
     transfer_time t; status := status t; paused := paused t; probe_type := probe_type t;
     probe_count := probe_count t; metal_kg := metal_kg t; rate_percentage := v;
     metal_rate_percentage := metal_rate_percentage t; in_transit := in_transit t;
     departure_time := departure_time t; arrival_time := arrival_time t; last_send_time
     := last_send_time t |}.

Definition set_probes_by_zone (v : gmap string (gmap string Q)) (s : State) : State :=
  {| time := time s; skills := skills s; probes_by_zone := v;
     probe_allocations_by_zone := probe_allocations_by_zone s; structures_by_zone :=
     structures_by_zone s; zones := zones s; active_transfers := active_transfers s;
     base_energy_production := base_energy_production s; upgrade_factors :=
     upgrade_factors s; tech_upgrade_factors := tech_upgrade_factors s;
     derived_probe_production_rate := derived_probe_production_rate s |}.

Definition set_zones (v : gmap string Zone) (s : State) : State :=
  {| time := time s; skills := skills s; probes_by_zone := probes_by_zone s;
     probe_allocations_by_zone := probe_allocations_by_zone s; structures_by_zone :=
     structures_by_zone s; zones := v; active_transfers := active_transfers s;
     base_energy_production := base_energy_production s; upgrade_factors :=
     upgrade_factors s; tech_upgrade_factors := tech_upgrade_factors s;
     derived_probe_production_rate := derived_probe_production_rate s |}.

Definition set_active_transfers (v : list Transfer) (s : State) : State :=
  {| time := time s; skills := skills s; probes_by_zone := probes_by_zone s;
     probe_allocations_by_zone := probe_allocations_by_zone s; structures_by_zone :=
     structures_by_zone s; zones := zones s; active_transfers := v;
     base_energy_production := base_energy_production s; upgrade_factors :=
     upgrade_factors s; tech_upgrade_factors := tech_upgrade_factors s;
     derived_probe_production_rate := derived_probe_production_rate s |}.

Definition set_stored_metal (v : option Q) (z : Zone) : Zone :=
  {| stored_metal := v; probe_mass := probe_mass z; structure_mass := structure_mass
     z; slag_mass := slag_mass z; mass_remaining := mass_remaining z; depleted :=
     depleted z |}.

Definition set_probe_mass (v : option Q) (z : Zone) : Zone :=
  {| stored_metal := stored_metal z; probe_mass := v; structure_mass := structure_mass
     z; slag_mass := slag_mass z; mass_remaining := mass_remaining z; depleted :=
     depleted z |}.

Definition PROBE_MASS : Q := 100.
Definition MIN_PROBE_BATCH : Q := 1.
Definition MIN_METAL_BATCH_KG : Q := 100.

(** The instance field [continuousAccumulators]: a [Map] from the id of a
    continuous transfer to what it has accrued and not sent yet.  It is not
    part of the game state. *)
Definition Accumulators := gmap string Q.

(** [(state.structures_by_zone[zoneId] || {})['mass_driver'] || 0] *)
Definition massDriverCount (state : State) (zoneId : string) : Q :=
  JS.orZero (JS.orEmpty (structures_by_zone state !! zoneId) !! "mass_driver").

Definition hasMassDriver (state : State) (zoneId : string) : bool :=
  JS.ltb 0 (massDriverCount state zoneId).

Definition calculateMassDriverSpeedMultiplier (massDriverCount : Q) : Q :=
  if JS.eqb massDriverCount 0 then 1 else 1 # 2.

Definition isDysonDestination (toZoneId : string) : bool :=
  String.eqb toZoneId "dyson_sphere" || String.eqb toZoneId "dyson".

(** [state.skills || {}] *)
Definition skillsOf (state : State) : Skills :=
  match skills state with Some s => s | None => noSkills end.

(** [if (!zones[zoneId]) zones[zoneId] = { stored_metal: 0, ... }] *)
Definition zoneOrFresh (zones : gmap string Zone) (zoneId : string) : Zone :=
  match zones !! zoneId with Some zone => zone | None => freshZone end.

(** [(zones[zoneId] || {}).stored_metal || 0] *)
Definition storedMetalOf (zones : gmap string Zone) (zoneId : string) : Q :=
  JS.orZero (match zones !! zoneId with Some zone => stored_metal zone | None => None end).

Definition isContinuous (transfer : Transfer) : bool :=
  String.eqb (type transfer) "continuous".

(** [transfer.resource_type || 'probe'] *)
Definition resourceOf (transfer : Transfer) : string :=
  JS.orString "probe" (resource_type transfer).

(** [transfer.in_transit && transfer.in_transit.length > 0] *)
Definition batchesOf (transfer : Transfer) : list Batch :=
  match in_transit transfer with Some batches => batches | None => [] end.

(** [getZoneProbeProductionRate(state, zoneId)]: the cached per-zone rate
    when the engine has stored one, else the rate of the replicating
    probes. *)
Definition getZoneProbeProductionRate (state : State) (zoneId : string) : Q :=
  match derived_probe_production_rate state !! zoneId with
  | Some probe_production_rate => probe_production_rate
  | None =>
      let allocations := JS.orEmpty (probe_allocations_by_zone state !! zoneId) in
      let replicateAllocation := JS.orZero (allocations !! "replicate") in
      let zoneProbes := JS.orEmpty (probes_by_zone state !! zoneId) in
      let totalProbes := JS.sumValues zoneProbes in
      if JS.leb totalProbes 0 || JS.leb replicateAllocation 0 then 0
      else
        let replicatingProbes := totalProbes * replicateAllocation in
        let PROBE_BUILD_RATE := 100 in
        let buildingRateKgPerDay := replicatingProbes * PROBE_BUILD_RATE in
        let probeReplicateFactor :=
          JS.orDefault 1 (probe_replicate (tech_upgrade_factors state)) in
        let effectiveRateKgPerDay := buildingRateKgPerDay * probeReplicateFactor in
        effectiveRateKgPerDay / PROBE_MASS
  end.

(** [calculateUsedMetalCapacity]: one step of the loop over the active
    transfers.  [excludeTransferId && transfer.id === excludeTransferId]
    never excludes on an empty id. *)
Definition excludes (excludeTransferId : option string) (transfer : Transfer) : bool :=
  match excludeTransferId with
  | Some e => negb (String.eqb e "") && String.eqb (t_id transfer) e
  | None => false
  end.

Definition isMetal (resourceType : option string) : bool :=
  match resourceType with Some r => String.eqb r "metal" | None => false end.

Definition usedStep (storedMetal : Q) (zoneId : string)
    (excludeTransferId : option string) (totalRate : Q) (transfer : Transfer) : Q :=
  if excludes excludeTransferId transfer then totalRate
  else if negb (String.eqb (from_zone transfer) zoneId) then totalRate
  else if negb (isMetal (resource_type transfer)) then totalRate
  else if paused transfer then totalRate
  else if isContinuous transfer then
    let ratePercentage := JS.orZero (metal_rate_percentage transfer) in
    let actualRateKgPerDay := storedMetal * (ratePercentage / 100) in
    totalRate + actualRateKgPerDay
  else totalRate.

Definition calculateUsedMetalCapacity (state : State) (zoneId : string)
    (excludeTransferId : option string) : Q :=
  let storedMetal := storedMetalOf (zones state) zoneId in
  fold_left (usedStep storedMetal zoneId excludeTransferId) (active_transfers state) 0.

(** A batch of probes, and a batch of metal, as pushed on [in_transit]. *)
Definition probeBatch (batchCount currentTime arrivalTime : Q) : Batch :=
  {| count := Some batchCount; mass_kg := None;
     batch_departure_time := currentTime; batch_arrival_time := arrivalTime;
     batch_resource_type := "probe" |}.

Definition metalBatch (batchMass currentTime arrivalTime : Q) : Batch :=
  {| count := None; mass_kg := Some batchMass;
     batch_departure_time := currentTime; batch_arrival_time := arrivalTime;
     batch_resource_type := "metal" |}.

(** [if (!transfer.in_transit) transfer.in_transit = [];
     transfer.in_transit.push(batch); transfer.arrival_time = arrivalTime] *)
Definition pushBatch (batch : Batch) (arrivalTime : Q) (transfer : Transfer) : Transfer :=
  set_arrival_time (Some arrivalTime)
    (set_in_transit (Some (batchesOf transfer ++ [batch])%list) transfer).

(** The local variables of the sending loop for probes, with the zone's
    probe dictionary and the transfer it mutates. *)
Record ProbeSend := {
  ps_accumulated : Q;
  ps_available : Q;
  ps_totalProbesSent : Q;
  ps_zoneProbes : gmap string Q;
  ps_transfer : Transfer
}.

(** [while (accumulated >= MIN_PROBE_BATCH && available >= MIN_PROBE_BATCH)].
    Inside the loop [zoneProbes[probeType]] is defined: [available] was read
    from it and is at least 1. *)
Fixpoint sendProbes (fuel : nat) (currentTime baseTransferTime : Q)
    (probeType : string) (s : ProbeSend) : ProbeSend :=
  match fuel with
  | O => s
  | S fuel =>
      if JS.leb MIN_PROBE_BATCH (ps_accumulated s)
         && JS.leb MIN_PROBE_BATCH (ps_available s) then
        let batchCount :=
          JS.Math_floor (JS.Math_min (ps_accumulated s) (ps_available s)) in
        if JS.leb MIN_PROBE_BATCH batchCount then
          let held := match ps_zoneProbes s !! probeType with
                      | Some n => n | None => 0 end in
          let remaining := JS.Math_max 0 (held - batchCount) in
          let arrivalTime := currentTime + baseTransferTime in
          sendProbes fuel currentTime baseTransferTime probeType
            {| ps_accumulated := ps_accumulated s - batchCount;
               ps_available := remaining;
               ps_totalProbesSent := ps_totalProbesSent s + batchCount;
               ps_zoneProbes := <[probeType := remaining]> (ps_zoneProbes s);
               ps_transfer :=
                 pushBatch (probeBatch batchCount currentTime arrivalTime)
                           arrivalTime (ps_transfer s) |}
        else s
      else s
  end.

Record MetalSend := {
  ms_accumulated : Q;
  ms_available : Q;
  ms_zones : gmap string Zone;
  ms_transfer : Transfer
}.

(** [while (accumulated >= MIN_METAL_BATCH_KG && available >= MIN_METAL_BATCH_KG)] *)
Fixpoint sendMetal (fuel : nat) (currentTime baseTransferTime : Q)
    (fromZoneId : string) (s : MetalSend) : MetalSend :=
  match fuel with
  | O => s
  | S fuel =>
      if JS.leb MIN_METAL_BATCH_KG (ms_accumulated s)
         && JS.leb MIN_METAL_BATCH_KG (ms_available s) then
        let batchMass :=
          JS.Math_floor (JS.Math_min (ms_accumulated s) (ms_available s)) in
        if JS.leb MIN_METAL_BATCH_KG batchMass then
          let zone := zoneOrFresh (ms_zones s) fromZoneId in
          let remaining := JS.Math_max 0 (JS.orZero (stored_metal zone) - batchMass) in
          let arrivalTime := currentTime + baseTransferTime in
          sendMetal fuel currentTime baseTransferTime fromZoneId
            {| ms_accumulated := ms_accumulated s - batchMass;
               ms_available := remaining;
               ms_zones :=
                 <[fromZoneId := set_stored_metal (Some remaining) zone]> (ms_zones s);
               ms_transfer :=
                 pushBatch (metalBatch batchMass currentTime arrivalTime)
                           arrivalTime (ms_transfer s) |}
        else s
      else s
  end.

(** [arrivedBatches.reduce((sum, batch) => sum + (batch.count || 0), 0)] and
    its counterpart for metal. *)
Definition sumCounts (batches : list Batch) : Q :=
  fold_left (fun sum batch => sum + JS.orZero (count batch)) batches 0.

Definition sumMasses (batches : list Batch) : Q :=
  fold_left (fun sum batch => sum + JS.orZero (mass_kg batch)) batches 0.

Definition hasArrived (currentTime : Q) (batch : Batch) : bool :=
  JS.leb (batch_arrival_time batch) currentTime.

(** [if (!probesByZone[zoneId]) probesByZone[zoneId] = {};
     if (!probesByZone[zoneId][probeType]) probesByZone[zoneId][probeType] = 0] *)
Definition initProbes (probesByZone : gmap string (gmap string Q))
    (zoneId probeType : string) : gmap string (gmap string Q) :=
  let zoneProbes := JS.orEmpty (probesByZone !! zoneId) in
  let current := JS.orZero (zoneProbes !! probeType) in
  <[zoneId := <[probeType := current]> zoneProbes]> probesByZone.

(** The same two initialisations followed by
    [probesByZone[zoneId][probeType] += added]. *)
Definition creditProbes (probesByZone : gmap string (gmap string Q))
    (zoneId probeType : string) (added : Q) : gmap string (gmap string Q) :=
  let zoneProbes := JS.orEmpty (probesByZone !! zoneId) in
  let current := JS.orZero (zoneProbes !! probeType) in
  <[zoneId := <[probeType := current + added]> zoneProbes]> probesByZone.

(** [processContinuousArrivals(state, transfer, currentTime)]: the batches
    are walked from the last index down, so [arrivedBatches] holds them in
    reverse order. *)
Definition processContinuousArrivals (state : State) (transfer : Transfer)
    (currentTime : Q) : State * Transfer :=
  match batchesOf transfer with
  | [] => (state, transfer)
  | batches =>
      let transferResourceType := resourceOf transfer in
      let toZoneId := to_zone transfer in
      let arrivedBatches := rev (List.filter (hasArrived currentTime) batches) in
      match arrivedBatches with
      | [] => (state, transfer)
      | _ =>
          let transfer :=
            set_in_transit
              (Some (List.filter (fun batch => negb (hasArrived currentTime batch))
                                 batches)) transfer in
          if String.eqb transferResourceType "probe" then
            let probesByZone := probes_by_zone state in
            let probeType := JS.orString "probe" (probe_type transfer) in
            let totalArrived := sumCounts arrivedBatches in
            let probesByZone :=
              if JS.ltb 0 totalArrived
              then creditProbes probesByZone toZoneId probeType totalArrived
              else initProbes probesByZone toZoneId probeType in
            let zones := zones state in
            let zone := zoneOrFresh zones toZoneId in
            let zones :=
              <[toZoneId :=
                  set_probe_mass
                    (Some (JS.orZero (probe_mass zone) + totalArrived * PROBE_MASS))
                    zone]> zones in
            (set_probes_by_zone probesByZone (set_zones zones state), transfer)
          else if String.eqb transferResourceType "metal" then
            let totalArrived := sumMasses arrivedBatches in
            let zones := zones state in
            let zone := zoneOrFresh zones toZoneId in
            let zones :=
              <[toZoneId :=
                  set_stored_metal
                    (Some (JS.orZero (stored_metal zone) + totalArrived)) zone]> zones in
            (set_zones zones state, transfer)
          else (state, transfer)
      end
  end.

(** [completeOneTimeTransfer(state, transfer)].  A probe transfer of no
    probes returns before the status is set. *)
Definition completeOneTimeTransfer (state : State) (transfer : Transfer)
  : State * Transfer :=
  let resourceType := resourceOf transfer in
  let toZoneId := to_zone transfer in
  if String.eqb resourceType "probe" then
    let probeType := JS.orString "probe" (probe_type transfer) in
    let probeCount := JS.orZero (probe_count transfer) in
    if JS.leb probeCount 0 then (state, transfer)
    else
      let probesByZone :=
        creditProbes (probes_by_zone state) toZoneId probeType probeCount in
      let zones := zones state in
      let zone := zoneOrFresh zones toZoneId in
      let zones :=
        <[toZoneId :=
            set_probe_mass
              (Some (JS.orZero (probe_mass zone) + probeCount * PROBE_MASS)) zone]>
          zones in
      (set_zones zones (set_probes_by_zone probesByZone state),
       set_status "completed" transfer)
  else if String.eqb resourceType "metal" then
    let metalKg := JS.orZero (metal_kg transfer) in
    let zones := zones state in
    let zone := zoneOrFresh zones toZoneId in
    let zones :=
      <[toZoneId :=
          set_stored_metal (Some (JS.orZero (stored_metal zone) + metalKg)) zone]>
        zones in
    (set_zones zones state, set_status "completed" transfer)
  else (state, set_status "completed" transfer).

(** [activeTransfers.findIndex(t => t.id === transferId)] *)
Fixpoint findIndex (transferId : string) (activeTransfers : list Transfer) : option nat :=
  match activeTransfers with
  | [] => None
  | t :: rest =>
      if String.eqb (t_id t) transferId then Some 0%nat
      else match findIndex transferId rest with
           | Some i => Some (S i)
           | None => None
           end
  end.

(** What [deleteTransfer] and [calculateTransitProbes] add for one batch: a
    batch without a resource type counts as probes. *)
Definition addProbeBatch (sum : Q) (batch : Batch) : Q :=
  if String.eqb (batch_resource_type batch) "probe"
     || String.eqb (batch_resource_type batch) ""
  then sum + JS.orZero (count batch) else sum.

Definition addMetalBatch (sum : Q) (batch : Batch) : Q :=
  if String.eqb (batch_resource_type batch) "metal"
  then sum + JS.orZero (mass_kg batch) else sum.

Definition returnedProbes (batches : list Batch) : Q :=
  fold_left addProbeBatch batches 0.

Definition returnedMetal (batches : list Batch) : Q :=
  fold_left addMetalBatch batches 0.

(** [deleteTransfer(state, transferId)]: cargo under way in a continuous
    transfer goes back to the source zone. *)
Definition deleteTransfer (acc : Accumulators) (state : State) (transferId : string)
  : bool * Accumulators * State :=
  let activeTransfers := active_transfers state in
  match findIndex transferId activeTransfers with
  | None => (false, acc, state)
  | Some index =>
      match activeTransfers !! index with
      | None => (false, acc, state)
      | Some transfer =>
          let state :=
            if isContinuous transfer
               && negb (Nat.eqb (length (batchesOf transfer)) 0) then
              let resourceType := resourceOf transfer in
              if String.eqb resourceType "probe" then
                let fromZoneId := from_zone transfer in
                let probeType := JS.orString "probe" (probe_type transfer) in
                let totalInTransit := returnedProbes (batchesOf transfer) in
                set_probes_by_zone
                  (creditProbes (probes_by_zone state) fromZoneId probeType
                                totalInTransit) state
              else if String.eqb resourceType "metal" then
                let fromZoneId := from_zone transfer in
                let totalInTransit := returnedMetal (batchesOf transfer) in
                let zones := zones state in
                let zone := zoneOrFresh zones fromZoneId in
                set_zones
                  (<[fromZoneId :=
                       set_stored_metal
                         (Some (JS.orZero (stored_metal zone) + totalInTransit)) zone]>
                     zones) state
              else state
            else state in
          let acc := if isContinuous transfer then delete transferId acc else acc in
          (true, acc,
           set_active_transfers (delete index (active_transfers state)) state)
      end
  end.

(** [pauseTransfer(state, transferId, paused)] *)
Definition pauseTransfer (state : State) (transferId : string) (pause : bool)
  : bool * State :=
  let activeTransfers := active_transfers state in
  match findIndex transferId activeTransfers with
  | None => (false, state)
  | Some index =>
      match activeTransfers !! index with
      | None => (false, state)
      | Some transfer =>
          let transfer :=
            if isContinuous transfer then set_paused pause transfer
            else set_status (if pause then "paused" else "traveling") transfer in
          (true, set_active_transfers (<[index := transfer]> activeTransfers) state)
      end
  end.

(** [updateTransferRate(state, transferId, ratePercentage)] *)
Definition updateTransferRate (state : State) (transferId : string)
    (ratePercentage : Q) : bool * State :=
  let activeTransfers := active_transfers state in
  match findIndex transferId activeTransfers with
  | None => (false, state)
  | Some index =>
      match activeTransfers !! index with
      | None => (false, state)
      | Some transfer =>
          if negb (isContinuous transfer) then (false, state)
          else
            let transfer :=
              set_rate_percentage
                (Some (JS.Math_max 0 (JS.Math_min 100 ratePercentage))) transfer in
            (true, set_active_transfers (<[index := transfer]> activeTransfers) state)
      end
  end.

(** [calculateTransitProbes(state)] *)
Definition transitStep (totalTransit : Q) (transfer : Transfer) : Q :=
  if negb (String.eqb (resourceOf transfer) "probe") then totalTransit
  else if isContinuous transfer then fold_left addProbeBatch (batchesOf transfer) totalTransit
  else if String.eqb (status transfer) "traveling"
       then totalTransit + JS.orZero (probe_count transfer)
  else totalTransit.

Definition calculateTransitProbes (state : State) : Q :=
  fold_left transitStep (active_transfers state) 0.

Definition addTransfer (state : State) (transfer : Transfer) : State :=
  let newState := state in
  let activeTransfers := active_transfers newState in
  set_active_transfers (activeTransfers ++ [transfer])%list newState.

(** Every batch takes at least one unit off [accumulated], so the loop body
    runs at most [floor accumulated] times. *)
Definition loopBound (accumulated : Q) : nat := S (Z.to_nat (Qfloor accumulated)).

(** *** Observations used in the statements about the transfer system *)

(** The probes of one type held in a zone, and a zone's stored metal and
    probe mass. *)
Definition heldAt (state : State) (zoneId probeType : string) : Q :=
  JS.orZero (JS.orEmpty (probes_by_zone state !! zoneId) !! probeType).

Definition storedAt (state : State) (zoneId : string) : Q :=
  storedMetalOf (zones state) zoneId.

Definition probeMassAt (state : State) (zoneId : string) : Q :=
  JS.orZero (match zones state !! zoneId with
             | Some zone => probe_mass zone | None => None end).

(** The transfers that take up launch capacity of a zone: continuous metal
    transfers leaving it that are not paused and not excluded. *)
Definition usesCapacity (zoneId : string) (excludeTransferId : option string)
    (transfer : Transfer) : bool :=
  negb (excludes excludeTransferId transfer)
  && String.eqb (from_zone transfer) zoneId
  && isMetal (resource_type transfer)
  && negb (paused transfer)
  && isContinuous transfer.

Fixpoint rateSum (transfers : list Transfer) : Q :=
  match transfers with
  | [] => 0
  | t :: rest => JS.orZero (metal_rate_percentage t) + rateSum rest
  end.

(** The batch a tick sends: nothing until both what has accrued and the
    stock reach the minimum batch, then the whole units of the smaller. *)
Definition batchOf (minimum accrued available : Q) : Q :=
  if JS.leb minimum accrued && JS.leb minimum available
  then JS.Math_floor (JS.Math_min accrued available) else 0.

(** Ten probes at earth, built at 4 probes a day, half of them streamed to
    mars; 600 t of metal in store behind one mass driver, 1 % of it a day
    streamed to the Dyson sphere. *)
Definition probeStream : Transfer :=
  {| t_id := "stream-1"; from_zone := "earth"; to_zone := "mars";
     resource_type := Some "probe"; type := "continuous"; delta_v_cost := 0;
     transfer_time := 100; status := "traveling"; paused := false;
     probe_type := Some "probe"; probe_count := None; metal_kg := None;
     rate_percentage := Some 50; metal_rate_percentage := None;
     in_transit := Some []; departure_time := Some 0; arrival_time := Some 100;
     last_send_time := Some 0 |}.

Definition metalStream : Transfer :=
  {| t_id := "stream-2"; from_zone := "earth"; to_zone := "dyson_sphere";
     resource_type := Some "metal"; type := "continuous"; delta_v_cost := 0;
     transfer_time := 150; status := "traveling"; paused := false;
     probe_type := None; probe_count := None; metal_kg := None;
     rate_percentage := None; metal_rate_percentage := Some 1;
     in_transit := Some []; departure_time := Some 0; arrival_time := Some 150;
     last_send_time := Some 0 |}.

Definition streamState : State :=
  {| time := Some 0; skills := None;
     probes_by_zone := {[ "earth" := {[ "probe" := 10 ]} ]};
     probe_allocations_by_zone := ∅;
     structures_by_zone := {[ "earth" := {[ "mass_driver" := 1 ]} ]};
     zones := {[ "earth" := {| stored_metal := Some 600000; probe_mass := Some 1000;
                               structure_mass := Some 0; slag_mass := Some 0;
                               mass_remaining := Some 0; depleted := false |} ]};
     active_transfers := [probeStream; metalStream];
     base_energy_production := None;
     upgrade_factors := {| structure_energy_performance := None;
                           structure_building_cost := None;
                           structure_building_performance := None |};
     tech_upgrade_factors := {| energy_generation := None; probe_replicate := None |};
     derived_probe_production_rate := {[ "earth" := 4 ]} |}.

Definition hundredDays : string -> string -> Skills -> Q := fun _ _ _ => 100.
Definition unitFactor : string -> Skills -> Q := fun _ _ => 1.

(** Two known zones, and the state of [streamState] with the mass driver
    taken away. *)
Definition innerZones : Registry :=
  Some [ {| z_id := "earth"; total_mass_kg := Some 4000; metal_stores_kg := Some 1000;
            mining_rate_multiplier := Some 1; is_dyson_zone := Some false |};
         {| z_id := "mars"; total_mass_kg := Some 4000; metal_stores_kg := Some 1000;
            mining_rate_multiplier := Some 1; is_dyson_zone := Some false |} ].

Definition noDriverState : State :=
  {| time := time streamState; skills := skills streamState;
     probes_by_zone := probes_by_zone streamState;
     probe_allocations_by_zone := probe_allocations_by_zone streamState;
     structures_by_zone := {[ "earth" := {[ "mass_driver" := 0 ]} ]};
     zones := zones streamState;
     active_transfers := [];
     base_energy_production := base_energy_production streamState;
     upgrade_factors := upgrade_factors streamState;
     tech_upgrade_factors := tech_upgrade_factors streamState;
     derived_probe_production_rate := derived_probe_production_rate streamState |}.

(** [constructor(orbitalMechanics)]: of the fields it sets, the methods
    above read [continuousAccumulators], which starts as [new Map()].  An
    engine built around a deserialized world state holds a transfer system
    made by this constructor. *)
Definition constructor : Accumulators := ∅.

(** The world state a tick left, with the clock at [t]. *)
Definition snapshotAt (t : Q) (s : State) : State :=
  {| time := Some t; skills := skills s;
     probes_by_zone := probes_by_zone s;
     probe_allocations_by_zone := probe_allocations_by_zone s;
     structures_by_zone := structures_by_zone s;
     zones := zones s;
     active_transfers := active_transfers s;
     base_energy_production := base_energy_production s;
     upgrade_factors := upgrade_factors s;
     tech_upgrade_factors := tech_upgrade_factors s;
     derived_probe_production_rate := derived_probe_production_rate s |}.

Section System.

(** [OrbitalMechanics.calculateDeltaV] and [calculateTransferTime] are
    Hohmann-transfer formulas over square roots, and
    [calculateUpgradeFactorFromCoefficients] is a power of a geometric mean;
    the transfer system only multiplies and stores their results, so they
    are parameters here, taken where they are finite. *)
Variable orbitalZones : Registry.
Variable calculateDeltaV : string -> string -> Skills -> Q.
Variable calculateTransferTime : string -> string -> Skills -> Q.
Variable calculateUpgradeFactorFromCoefficients : string -> Skills -> Q.

(** [buildingsData] stands for
    [buildingsData.mass_driver.metal_launch_capacity_kg_per_day], absent
    when no building data is passed. *)
Definition calculateMetalTransferCapacity (state : State) (zoneId : string)
    (buildingsData : option Q) : Q :=
  let massDriverCount := massDriverCount state zoneId in
  if JS.eqb massDriverCount 0 then 0
  else
    let baseCapacityPerDriver := JS.orDefault 100000000000000 buildingsData in
    let totalCapacity := baseCapacityPerDriver * massDriverCount in
    let transportUpgrade :=
      JS.orDefault 1 (structure_building_performance (upgrade_factors state)) in
    let capacityUpgradeFactor :=
      calculateUpgradeFactorFromCoefficients "mass_driver_capacity" (skillsOf state) in
    totalCapacity * transportUpgrade * capacityUpgradeFactor.

Definition getAvailableMetalCapacity (state : State) (zoneId : string)
    (buildingsData : option Q) (excludeTransferId : option string) : Q :=
  let totalCapacity := calculateMetalTransferCapacity state zoneId buildingsData in
  let usedCapacity := calculateUsedMetalCapacity state zoneId excludeTransferId in
  JS.Math_max 0 (totalCapacity - usedCapacity).

(** [processContinuousTransfer(state, transfer, deltaTime, currentTime)]
    mutates the state, the transfer and the accumulators. *)
Definition processContinuousTransfer (acc : Accumulators) (state : State)
    (transfer : Transfer) (deltaTime currentTime : Q)
  : Accumulators * State * Transfer :=
  let fromZoneId := from_zone transfer in
  let transferResourceType := resourceOf transfer in
  let skills := skillsOf state in
  let baseTransferTime :=
    calculateTransferTime (from_zone transfer) (to_zone transfer) skills in
  let massDriverCount := massDriverCount state fromZoneId in
  let baseTransferTime :=
    if JS.ltb 0 massDriverCount
    then baseTransferTime * calculateMassDriverSpeedMultiplier massDriverCount
    else baseTransferTime in
  let toZoneId := to_zone transfer in
  let baseTransferTime :=
    if isDysonDestination toZoneId && String.eqb transferResourceType "metal"
    then baseTransferTime * 3 else baseTransferTime in
  let transfer := set_transfer_time baseTransferTime transfer in
  if String.eqb transferResourceType "probe" then
    let probeType := JS.orString "probe" (probe_type transfer) in
    let ratePercentage := JS.orZero (rate_percentage transfer) in
    if JS.leb ratePercentage 0 then (acc, state, transfer)
    else
      let zoneProductionRate := getZoneProbeProductionRate state fromZoneId in
      if JS.leb zoneProductionRate 0 then (acc, state, transfer)
      else
        let sendRate := zoneProductionRate * ratePercentage / 100 in
        let probesByZone := probes_by_zone state in
        let zoneProbes := JS.orEmpty (probesByZone !! fromZoneId) in
        let available := JS.orZero (zoneProbes !! probeType) in
        let transferId := t_id transfer in
        let accumulated := JS.orZero (acc !! transferId) + sendRate * deltaTime in
        let sent :=
          sendProbes (loopBound accumulated) currentTime baseTransferTime probeType
            {| ps_accumulated := accumulated; ps_available := available;
               ps_totalProbesSent := 0; ps_zoneProbes := zoneProbes;
               ps_transfer := transfer |} in
        let acc := <[transferId := ps_accumulated sent]> acc in
        let zones :=
          if JS.ltb 0 (ps_totalProbesSent sent) then
            let zone := zoneOrFresh (zones state) fromZoneId in
            <[fromZoneId :=
                set_probe_mass
                  (Some (JS.Math_max 0 (JS.orZero (probe_mass zone)
                                        - ps_totalProbesSent sent * PROBE_MASS)))
                  zone]> (zones state)
          else zones state in
        (* [zoneProbes] is the zone's own dictionary when the zone has one *)
        let probesByZone :=
          match probesByZone !! fromZoneId with
          | Some _ => <[fromZoneId := ps_zoneProbes sent]> probesByZone
          | None => probesByZone
          end in
        (acc,
         set_probes_by_zone probesByZone (set_zones zones state),
         set_last_send_time (Some currentTime) (ps_transfer sent))
  else if String.eqb transferResourceType "metal" then
    let metalRatePercentage := JS.orZero (metal_rate_percentage transfer) in
    if JS.leb metalRatePercentage 0 then (acc, state, transfer)
    else
      let zones := zones state in
      let available := storedMetalOf zones fromZoneId in
      let metalRateKgPerDay := available * (metalRatePercentage / 100) in
      if JS.leb metalRateKgPerDay 0 then (acc, state, transfer)
      else
        let totalCapacity := calculateMetalTransferCapacity state fromZoneId None in
        let usedByOthers :=
          calculateUsedMetalCapacity state fromZoneId (Some (t_id transfer)) in
        let availableCapacity := JS.Math_max 0 (totalCapacity - usedByOthers) in
        let sendRate := JS.Math_min metalRateKgPerDay availableCapacity in
        let transferId := t_id transfer in
        let accumulated := JS.orZero (acc !! transferId) + sendRate * deltaTime in
        let sent :=
          sendMetal (loopBound accumulated) currentTime baseTransferTime fromZoneId
            {| ms_accumulated := accumulated; ms_available := available;
               ms_zones := zones; ms_transfer := transfer |} in
        let acc := <[transferId := ms_accumulated sent]> acc in
        (acc,
         set_zones (ms_zones sent) state,
         set_last_send_time (Some currentTime) (ms_transfer sent))
  else (acc, state, set_last_send_time (Some currentTime) transfer).

Inductive TransferError :=
| ZoneNotFound (zoneId : string)
| MassDriverRequired
| NoCapacityAvailable
| InvalidTransferTime (transferTime : Q)
| InvalidTransferTimeAfterMultiplier (transferTime : Q)
| InvalidArrivalTime.

(** [{ success, transfer, error }] *)
Inductive CreateResult :=
| Success (transfer : Transfer)
| Failure (error : TransferError).

(** [createTransfer(state, fromZoneId, toZoneId, resourceType, probeType,
    resourceCount, skills, type, ratePercentage)].  [transferId] is what
    [generateTransferId()] returns (a time stamp and a random suffix).  The
    state is only read; the accumulators are the one thing written. *)
Definition createTransfer (acc : Accumulators) (state : State)
    (fromZoneId toZoneId resourceType probeType : string) (resourceCount : Q)
    (skills : option Skills) (type : string) (ratePercentage : Q)
    (transferId : string) : CreateResult * Accumulators :=
  let currentTime := JS.orZero (time state) in
  let fromZone := getZone orbitalZones fromZoneId in
  let toZone := getZone orbitalZones toZoneId in
  match fromZone, toZone with
  | None, _ => (Failure (ZoneNotFound fromZoneId), acc)
  | Some _, None => (Failure (ZoneNotFound toZoneId), acc)
  | Some _, Some _ =>
  if String.eqb resourceType "metal" && negb (hasMassDriver state fromZoneId)
  then (Failure MassDriverRequired, acc)
  else
  let checksCapacity :=
    String.eqb resourceType "metal" && String.eqb type "continuous"
    && JS.ltb 0 ratePercentage in
  let availableCapacity := getAvailableMetalCapacity state fromZoneId None None in
  if checksCapacity && JS.leb availableCapacity 0
  then (Failure NoCapacityAvailable, acc)
  else
  let ratePercentage :=
    if checksCapacity && JS.ltb availableCapacity ratePercentage
    then availableCapacity else ratePercentage in
  let currentSkills := match skills with Some s => s | None => skillsOf state end in
  let deltaV := calculateDeltaV fromZoneId toZoneId currentSkills in
  let transferTime := calculateTransferTime fromZoneId toZoneId currentSkills in
  if JS.leb transferTime 0 then (Failure (InvalidTransferTime transferTime), acc)
  else
  let massDriverCount := massDriverCount state fromZoneId in
  let transferTime :=
    if JS.ltb 0 massDriverCount
    then transferTime * calculateMassDriverSpeedMultiplier massDriverCount
    else transferTime in
  if JS.ltb 0 massDriverCount && JS.leb transferTime 0
  then (Failure (InvalidTransferTimeAfterMultiplier transferTime), acc)
  else
  let transferTime :=
    if isDysonDestination toZoneId && String.eqb resourceType "metal"
    then transferTime * 3 else transferTime in
  let isProbe := String.eqb resourceType "probe" in
  let isMetal := String.eqb resourceType "metal" in
  if String.eqb type "one-time" then
    let transfer :=
      {| t_id := transferId; from_zone := fromZoneId; to_zone := toZoneId;
         resource_type := Some resourceType; type := type; delta_v_cost := deltaV;
         transfer_time := transferTime; status := "traveling"; paused := false;
         probe_type := if isProbe then Some probeType else None;
         probe_count := if isProbe then Some resourceCount else None;
         metal_kg := if isProbe then None
                     else if isMetal then Some resourceCount else None;
         rate_percentage := None; metal_rate_percentage := None;
         in_transit := None;
         departure_time := Some currentTime;
         arrival_time := Some (currentTime + transferTime);
         last_send_time := None |} in
    if JS.leb transferTime 0 then (Failure (InvalidTransferTime transferTime), acc)
    else if JS.eqb (currentTime + transferTime) 0 then (Failure InvalidArrivalTime, acc)
    else (Success transfer, acc)
  else
    let transfer :=
      {| t_id := transferId; from_zone := fromZoneId; to_zone := toZoneId;
         resource_type := Some resourceType; type := type; delta_v_cost := deltaV;
         transfer_time := transferTime; status := "traveling"; paused := false;
         probe_type := if isProbe then Some probeType else None;
         probe_count := None; metal_kg := None;
         rate_percentage := if isMetal then None else Some ratePercentage;
         metal_rate_percentage := if isMetal then Some ratePercentage else None;
         in_transit := Some [];
         departure_time := Some currentTime;
         arrival_time := Some (currentTime + transferTime);
         last_send_time := Some currentTime |} in
    let acc := <[transferId := 0]> acc in
    if JS.eqb (currentTime + transferTime) 0 then (Failure InvalidArrivalTime, acc)
    else (Success transfer, acc)
  end.

(** The travel time that [processContinuousTransfer] recomputes on every
    tick and stores in [transfer.transfer_time]. *)
Definition travelTime (state : State) (transfer : Transfer) : Q :=
  let baseTransferTime :=
    calculateTransferTime (from_zone transfer) (to_zone transfer) (skillsOf state) in
  let massDriverCount := massDriverCount state (from_zone transfer) in
  let baseTransferTime :=
    if JS.ltb 0 massDriverCount
    then baseTransferTime * calculateMassDriverSpeedMultiplier massDriverCount
    else baseTransferTime in
  if isDysonDestination (to_zone transfer) && String.eqb (resourceOf transfer) "metal"
  then baseTransferTime * 3 else baseTransferTime.

(** The time a new transfer is given: the Hohmann time, halved by a mass
    driver at the source and tripled for metal bound for the Dyson sphere. *)
Definition scheduledTime (state : State) (fromZoneId toZoneId resourceType : string)
    (skills : Skills) : Q :=
  calculateTransferTime fromZoneId toZoneId skills
  * (if hasMassDriver state fromZoneId then 1 # 2 else 1)
  * (if isDysonDestination toZoneId && String.eqb resourceType "metal" then 3 else 1).

(** One-time transfers whose arrival [processTransfers] completes.
    [transfer.arrival_time <= currentTime] is false on a missing arrival
    time. *)
Definition isDue (currentTime : Q) (transfer : Transfer) : bool :=
  (match arrival_time transfer with
   | Some arrival => JS.leb arrival currentTime
   | None => false
   end) && String.eqb (status transfer) "traveling".

(** The first loop of [processTransfers], from index [i], over the array
    that [newState.active_transfers] holds: each transfer is processed in
    place, and the state that the callees read already carries what the
    earlier iterations wrote. *)
Fixpoint transferLoop (n i : nat) (deltaTime currentTime : Q)
    (acc : Accumulators) (newState : State) (completedTransfers : list nat)
  : Accumulators * State * list nat :=
  match n with
  | O => (acc, newState, completedTransfers)
  | S n =>
      match active_transfers newState !! i with
      | None => (acc, newState, completedTransfers)
      | Some transfer =>
          if isContinuous transfer then
            let '(acc, newState, transfer) :=
              if negb (paused transfer)
              then processContinuousTransfer acc newState transfer deltaTime currentTime
              else (acc, newState, transfer) in
            let '(newState, transfer) :=
              processContinuousArrivals newState transfer currentTime in
            let newState :=
              set_active_transfers (<[i := transfer]> (active_transfers newState))
                                   newState in
            transferLoop n (S i) deltaTime currentTime acc newState completedTransfers
          else if String.eqb (status transfer) "paused" then
            transferLoop n (S i) deltaTime currentTime acc newState completedTransfers
          else if isDue currentTime transfer then
            let '(newState, transfer) := completeOneTimeTransfer newState transfer in
            let newState :=
              set_active_transfers (<[i := transfer]> (active_transfers newState))
                                   newState in
            transferLoop n (S i) deltaTime currentTime acc newState
                         (completedTransfers ++ [i])%list
          else
            transferLoop n (S i) deltaTime currentTime acc newState completedTransfers
      end
  end.

(** The second loop: [activeTransfers.splice(completedTransfers[i], 1)] for
    [i] from the last index down. *)
Definition removeCompleted (completedTransfers : list nat)
    (activeTransfers : list Transfer) : list Transfer :=
  fold_left (fun l i => delete i l) (rev completedTransfers) activeTransfers.

Definition processTransfers (acc : Accumulators) (state : State) (deltaTime : Q)
  : Accumulators * State :=
  let newState := state in
  let activeTransfers := active_transfers newState in
  let currentTime := JS.orZero (time newState) in
  let '(acc, newState, completedTransfers) :=
    transferLoop (length activeTransfers) 0 deltaTime currentTime acc newState [] in
  let activeTransfers := removeCompleted completedTransfers (active_transfers newState) in
  (acc, set_active_transfers activeTransfers newState).

End System.

(** *** Observations on a whole tick of [processTransfers] *)

(** A one-time transfer that this tick completes and removes. *)
Definition completesNow (currentTime : Q) (transfer : Transfer) : bool :=
  negb (isContinuous transfer)
  && negb (String.eqb (status transfer) "paused")
  && isDue currentTime transfer.

(** The indices, from [i] on, of the transfers that complete. *)
Fixpoint completingFrom (currentTime : Q) (i : nat) (transfers : list Transfer) : list nat :=
  match transfers with
  | [] => []
  | t :: rest =>
      if completesNow currentTime t
      then i :: completingFrom currentTime (S i) rest
      else completingFrom currentTime (S i) rest
  end.

(** What the callees of the loop leave alone. *)
Definition sameFrame (state state' : State) : Prop :=
  active_transfers state' = active_transfers state /\
  time state' = time state /\
  skills state' = skills state /\
  structures_by_zone state' = structures_by_zone state.

(** A processed transfer against the transfer it was: same id, same type,
    and a one-time transfer that does not complete is untouched. *)
Definition processedFrom (now : Q) (t0 t : Transfer) : Prop :=
  t_id t = t_id t0 /\ V1.type t = V1.type t0 /\
  (isContinuous t0 = false -> completesNow now t0 = false -> t = t0).

End TransferSystem.

(** ** The composite skill calculator, over the reals *)

Module CompositeSkills.

Import Reals.
Local Open Scope R_scope.

(** [x || d] on a real number. *)
Definition orDefault (d : R) (o : option R) : R :=
  match o with
  | Some x => if Req_dec_T x 0 then d else x
  | None => d
  end.

(** [skills.computer] is an object with a [total]; every other skill is a
    number looked up by name. *)
Record Skills := {
  skill : gmap string R;
  computer_total : option R
}.

(** [Object.entries(coefficients)], in insertion order. *)
Definition Coefficients := list (string * R).

(** [economicRules]: the coefficient tables by category and
    [alpha_factors.probe_performance]. *)
Record EconomicRules := {
  skill_coefficients : option (gmap string Coefficients);
  alpha_probe_performance : option R
}.

(** The [switch] of [buildSkillValues]. *)
Definition skillValueOf (skills : Skills) (skillName : string) : R :=
  if String.eqb skillName "robotic" then
    match skill skills !! "robotic" with
    | Some x => if Req_dec_T x 0
                then orDefault 1 (skill skills !! "manipulation") else x
    | None => orDefault 1 (skill skills !! "manipulation")
    end
  else if String.eqb skillName "computer" then
    orDefault 1 (computer_total skills)
  else if String.eqb skillName "solar_pv" then
    match skill skills !! "solar_pv" with
    | Some x => if Req_dec_T x 0
                then orDefault 1 (skill skills !! "energy_collection") else x
    | None => orDefault 1 (skill skills !! "energy_collection")
    end
  else orDefault 1 (skill skills !! skillName).

Fixpoint skillValuesLoop (entries : Coefficients) (skills : Skills) (values : list R)
  : list R :=
  match entries with
  | [] => values
  | (skillName, coefficient) :: rest =>
      if String.eqb skillName "description" then skillValuesLoop rest skills values
      else skillValuesLoop rest skills
             (values ++ [coefficient * skillValueOf skills skillName])%list
  end.

Definition buildSkillValues (coefficients : option Coefficients) (skills : Skills)
  : list R :=
  match coefficients with
  | None => [1]
  | Some entries =>
      let values := skillValuesLoop entries skills [] in
      if Nat.ltb 0 (length values) then values else [1]
  end.

(** [v => v > 0] *)
Definition isPositive (v : R) : bool := if Rlt_dec 0 v then true else false.

(** [Math.pow], [Math.log] and [Math.exp] on the arguments they get here: the
    base of the power and the argument of the logarithm are positive. *)
Definition Math_pow (x y : R) : R := Rpower x y.
Definition Math_log (x : R) : R := ln x.
Definition Math_exp (x : R) : R := exp x.

Definition calculateTechTreeUpgradeFactor (skillValues : list R) (alpha : R) : R :=
  if Nat.eqb (length skillValues) 0 then 1
  else
    let validValues := List.filter isPositive skillValues in
    if Nat.eqb (length validValues) 0 then 1
    else
      let product := fold_left (fun prod val => prod * val) validValues 1 in
      let geometricMean := Math_pow product (1 / INR (length validValues)) in
      let logG := Math_log geometricMean in
      let factor := Math_exp (alpha * logG) in
      factor.

(** [EnergyCalculator.calculateTechTreeUpgradeFactor] of
    energy_calculator.js, a second copy of the method. *)
Module OfEnergyCalculator.

Definition calculateTechTreeUpgradeFactor (skillValues : list R) (alpha : R) : R :=
  if Nat.eqb (length skillValues) 0 then 1
  else
    let validValues := List.filter isPositive skillValues in
    if Nat.eqb (length validValues) 0 then 1
    else
      let product := fold_left (fun prod val => prod * val) validValues 1 in
      let geometricMean := Math_pow product (1 / INR (length validValues)) in
      let logG := Math_log geometricMean in
      let factor := Math_exp (alpha * logG) in
      factor.

End OfEnergyCalculator.

Definition calculateUpgradeFactorFromCoefficients (economicRules : option EconomicRules)
    (category : string) (skills : Skills) (alpha : option R) : R :=
  match economicRules with
  | None => 1
  | Some rules =>
      match skill_coefficients rules with
      | None => 1
      | Some tables =>
          match tables !! category with
          | None => 1
          | Some coefficients =>
              let skillValues := buildSkillValues (Some coefficients) skills in
              let alphaFactor :=
                match alpha with
                | Some a => a
                | None => orDefault (3 / 4) (alpha_probe_performance rules)
                end in
              calculateTechTreeUpgradeFactor skillValues alphaFactor
          end
      end
  end.

Definition calculateSalvageEfficiency (economicRules : option EconomicRules)
    (skills : Skills) : R :=
  let baseRecyclingEfficiency := 3 / 4 in
  let upgradeFactor :=
    calculateUpgradeFactorFromCoefficients economicRules "salvage_efficiency" skills None in
  Rmin 1 (baseRecyclingEfficiency * upgradeFactor).

Definition calculateTransferEfficiency (economicRules : option EconomicRules)
    (skills : Skills) : R :=
  let upgradeFactor :=
    calculateUpgradeFactorFromCoefficients economicRules "delta_v_reduction" skills None in
  1 / upgradeFactor.

(** The product of a list of values, and a rule book with one table. *)
Definition productOf (values : list R) : R :=
  fold_left (fun prod val => prod * val) values 1.

(** The geometric mean of a list of positive values. *)
Definition geometricMean (values : list R) : R :=
  Rpower (productOf values) (1 / INR (length values)).

(** The specification's reading of the salvage fraction: it stays below
    100% whatever the skills. *)
Definition neverReachesOne (economicRules : option EconomicRules) (skills : Skills)
  : Prop :=
  calculateSalvageEfficiency economicRules skills < 1.

Definition rulesWith (category : string) (coefficients : Coefficients) (alpha : R)
  : EconomicRules :=
  {| skill_coefficients := Some {[ category := coefficients ]};
     alpha_probe_performance := Some alpha |}.

Definition skillsWith (skillName : string) (value : R) : Skills :=
  {| skill := {[ skillName := value ]}; computer_total := None |}.

End CompositeSkills.

(** * Part II: properties *)

(** ** Facts about the JavaScript idioms *)

Module JSFacts.
Import JS.

Lemma ltb_lt a b : ltb a b = true <-> a < b.
Proof.
  unfold ltb. rewrite negb_true_iff, <- not_true_iff_false, Qle_bool_iff.
  split; [apply Qnot_le_lt | apply Qlt_not_le].
Qed.

Lemma ltb_ge a b : ltb a b = false <-> b <= a.
Proof. unfold ltb. rewrite negb_false_iff. apply Qle_bool_iff. Qed.

Lemma leb_le a b : leb a b = true <-> a <= b.
Proof. apply Qle_bool_iff. Qed.

Lemma leb_gt a b : leb a b = false <-> b < a.
Proof.
  unfold leb. rewrite <- not_true_iff_false, Qle_bool_iff.
  split; [apply Qnot_le_lt | apply Qlt_not_le].
Qed.

Lemma eqb_eq a b : eqb a b = true <-> a == b.
Proof. apply Qeq_bool_iff. Qed.

Lemma orZero_Some x : orZero (Some x) == x.
Proof.
  unfold orZero, orDefault. destruct (Qeq_bool x 0) eqn:E; [|reflexivity].
  apply Qeq_bool_iff in E. symmetry. exact E.
Qed.

Lemma orZero_nonneg o :
  (forall x, o = Some x -> 0 <= x) -> 0 <= orZero o.
Proof.
  intros H. destruct o as [x|]; [|apply Qle_refl].
  rewrite orZero_Some. apply H. reflexivity.
Qed.

Lemma min_le_l a b : Math_min a b <= a.
Proof. apply Q.le_min_l. Qed.

Lemma min_le_r a b : Math_min a b <= b.
Proof. apply Q.le_min_r. Qed.

Lemma min_glb a b c : c <= a -> c <= b -> c <= Math_min a b.
Proof. apply Q.min_glb. Qed.

Lemma max_le_l a b : a <= Math_max a b.
Proof. apply Q.le_max_l. Qed.

Lemma max_le_r a b : b <= Math_max a b.
Proof. apply Q.le_max_r. Qed.

Lemma max_zero_of_nonneg x : 0 <= x -> Math_max 0 x == x.
Proof. apply Q.max_r. Qed.

Lemma max_zero_of_nonpos x : x <= 0 -> Math_max 0 x == 0.
Proof. apply Q.max_l. Qed.

Lemma floor_le x : Math_floor x <= x.
Proof. apply Qfloor_le. Qed.

Lemma lt_floor_succ x : x < Math_floor x + 1.
Proof.
  unfold Math_floor. pose proof (Qlt_floor x) as H.
  rewrite inject_Z_plus in H. exact H.
Qed.

Lemma floor_isInteger x : isInteger (Math_floor x).
Proof. unfold isInteger, Math_floor. rewrite Qfloor_Z. reflexivity. Qed.

Lemma isInteger_inject z : isInteger (inject_Z z).
Proof. unfold isInteger. rewrite Qfloor_Z. reflexivity. Qed.


Lemma orZero_Some_truthy b : eqb b 0 = false -> orZero (Some b) = b.
Proof.
  intros E. unfold orZero, orDefault. unfold eqb in E. rewrite E. reflexivity.
Qed.

Lemma orZero_Some_falsy b : eqb b 0 = true -> orZero (Some b) = 0.
Proof.
  intros E. unfold orZero, orDefault. unfold eqb in E. rewrite E. reflexivity.
Qed.

Lemma max_nonneg x : 0 <= Math_max 0 x.
Proof. apply Q.le_max_l. Qed.

End JSFacts.

(** ** Binary64 rounding *)

Module Binary64Facts.
Import Binary64.

Lemma pow2_pos e : 0 < pow2 e.
Proof. apply Qpower_0_lt. reflexivity. Qed.

Lemma pow2_add a b : pow2 (a + b) == pow2 a * pow2 b.
Proof. apply Qpower_plus. discriminate. Qed.

Lemma pow2_S e : pow2 (e + 1) == 2 * pow2 e.
Proof. rewrite pow2_add. unfold pow2 at 2. simpl. ring. Qed.

Lemma pow2_le a b : (a <= b)%Z -> pow2 a <= pow2 b.
Proof. intros H. apply Qpower_le_compat_l; [exact H|discriminate]. Qed.

Lemma pow2_lt a b : (a < b)%Z -> pow2 a < pow2 b.
Proof. intros H. apply Qpower_lt_compat_l; [exact H|reflexivity]. Qed.

Lemma pow2_lt_inv a b : pow2 a < pow2 b -> (a < b)%Z.
Proof. intros H. apply (Qpower_lt_compat_l_inv 2); [exact H|reflexivity]. Qed.

Lemma pow2_Z k : (0 <= k)%Z -> inject_Z (2 ^ k) == pow2 k.
Proof. intros H. apply Zpower_Qpower. exact H. Qed.

Lemma ilog2_spec x : 0 < x -> pow2 (ilog2 x) <= x /\ x < pow2 (ilog2 x + 1).
Proof.
  intros Hx. unfold ilog2.
  destruct x as [n d]. simpl Qnum. simpl Qden.
  assert (Hn : (0 < n)%Z).
  { unfold Qlt in Hx. simpl in Hx. lia. }
  pose proof (Z.log2_spec n Hn) as [Hn1 Hn2].
  pose proof (Z.log2_spec (Zpos d) (Pos2Z.is_pos d)) as [Hd1 Hd2].
  pose proof (Z.log2_nonneg n) as Hln. pose proof (Z.log2_nonneg (Zpos d)) as Hld.
  set (ln := Z.log2 n) in *. set (ld := Z.log2 (Zpos d)) in *.
  assert (Hx' : n # d == inject_Z n / inject_Z (Zpos d)) by apply Qmake_Qdiv.
  assert (Hdpos : 0 < inject_Z (Zpos d)) by reflexivity.
  (* bounds on numerator and denominator as rationals *)
  assert (Qn1 : pow2 ln <= inject_Z n).
  { rewrite <- pow2_Z by exact Hln. rewrite <- Zle_Qle. exact Hn1. }
  assert (Qn2 : inject_Z n < pow2 (ln + 1)).
  { rewrite <- pow2_Z by lia. rewrite <- Zlt_Qlt. replace (ln + 1)%Z with (Z.succ ln) by lia. exact Hn2. }
  assert (Qd1 : pow2 ld <= inject_Z (Zpos d)).
  { rewrite <- pow2_Z by exact Hld. rewrite <- Zle_Qle. exact Hd1. }
  assert (Qd2 : inject_Z (Zpos d) < pow2 (ld + 1)).
  { rewrite <- pow2_Z by lia. rewrite <- Zlt_Qlt. replace (ld + 1)%Z with (Z.succ ld) by lia. exact Hd2. }
  assert (Hupper : n # d < pow2 (ln - ld + 1)).
  { rewrite Hx'. apply Qlt_shift_div_r; [exact Hdpos|].
    assert (E : pow2 (ln + 1) == pow2 (ln - ld + 1) * pow2 ld).
    { rewrite <- pow2_add. replace (ln - ld + 1 + ld)%Z with (ln + 1)%Z by lia. reflexivity. }
    pose proof (pow2_pos (ln - ld + 1)) as P1.
    assert (pow2 (ln - ld + 1) * pow2 ld <= pow2 (ln - ld + 1) * inject_Z (Z.pos d)).
    { apply Qmult_le_l; assumption. }
    lra. }
  assert (Hlower : pow2 (ln - ld - 1) < n # d).
  { rewrite Hx'. apply Qlt_shift_div_l; [exact Hdpos|].
    assert (E : pow2 ln == pow2 (ln - ld - 1) * pow2 (ld + 1)).
    { rewrite <- pow2_add. replace (ln - ld - 1 + (ld + 1))%Z with ln by lia. reflexivity. }
    pose proof (pow2_pos (ln - ld - 1)) as P1.
    assert (pow2 (ln - ld - 1) * inject_Z (Z.pos d) < pow2 (ln - ld - 1) * pow2 (ld + 1)).
    { apply Qmult_lt_l; assumption. }
    lra. }
  destruct (Qle_bool (pow2 (ln - ld)) (n # d)) eqn:E.
  - apply Qle_bool_iff in E. split; assumption.
  - assert (Hlt : n # d < pow2 (ln - ld)).
    { apply Qnot_le_lt. intros H. apply Qle_bool_iff in H. congruence. }
    replace (ln - ld - 1 + 1)%Z with (ln - ld)%Z by lia.
    split; [apply Qlt_le_weak; exact Hlower | exact Hlt].
Qed.

Lemma ilog2_unique x e : pow2 e <= x -> x < pow2 (e + 1) -> ilog2 x = e.
Proof.
  intros H1 H2.
  assert (Hx : 0 < x) by (pose proof (pow2_pos e); lra).
  destruct (ilog2_spec x Hx) as [H3 H4].
  assert (A : (ilog2 x < e + 1)%Z) by (apply pow2_lt_inv; lra).
  assert (B : (e < ilog2 x + 1)%Z) by (apply pow2_lt_inv; lra).
  lia.
Qed.

(** *** Nearest integer, ties to even *)

Lemma inject_Z_pred z : inject_Z (z - 1) == inject_Z z - 1.
Proof. unfold Z.sub. rewrite inject_Z_plus, inject_Z_opp. reflexivity. Qed.

Lemma inject_Z_succ z : inject_Z (z + 1) == inject_Z z + 1.
Proof. rewrite inject_Z_plus. reflexivity. Qed.

Lemma Qfloor_bounds x : inject_Z (Qfloor x) <= x /\ x < inject_Z (Qfloor x) + 1.
Proof.
  split; [apply Qfloor_le|].
  pose proof (Qlt_floor x) as H. rewrite inject_Z_plus in H. exact H.
Qed.

Lemma Qfloor_unique x z : inject_Z z <= x -> x < inject_Z z + 1 -> Qfloor x = z.
Proof.
  intros H1 H2. destruct (Qfloor_bounds x) as [H3 H4].
  assert (A : (Qfloor x < z + 1)%Z).
  { rewrite Zlt_Qlt, inject_Z_plus. change (inject_Z 1) with 1. lra. }
  assert (B : (z < Qfloor x + 1)%Z).
  { rewrite Zlt_Qlt, inject_Z_plus. change (inject_Z 1) with 1. lra. }
  lia.
Qed.

Lemma Qfloor_proper x y : x == y -> Qfloor x = Qfloor y.
Proof.
  intros E. apply Qfloor_unique; destruct (Qfloor_bounds y); lra.
Qed.

Lemma rne_proper x y : x == y -> rne x = rne y.
Proof.
  intros E. unfold rne. rewrite (Qfloor_proper x y E).
  assert (C : Qcompare (x - inject_Z (Qfloor y)) (1#2)
              = Qcompare (y - inject_Z (Qfloor y)) (1#2)).
  { apply Qcompare_comp; [|reflexivity]. rewrite E. reflexivity. }
  rewrite C. reflexivity.
Qed.

Lemma rne_floor x : (Qfloor x <= rne x <= Qfloor x + 1)%Z.
Proof.
  unfold rne. destruct (Qcompare _ _); [destruct (Z.even _)| |]; lia.
Qed.

Lemma rne_Z z : rne (inject_Z z) = z.
Proof.
  unfold rne. rewrite Qfloor_Z.
  assert (C : Qcompare (inject_Z z - inject_Z z) (1#2) = Lt).
  { apply (proj1 (Qlt_alt _ _)). lra. }
  rewrite C. reflexivity.
Qed.

Lemma rne_mono x y : x <= y -> (rne x <= rne y)%Z.
Proof.
  intros H. pose proof (Qfloor_resp_le x y H) as Hf.
  destruct (Z.eq_dec (Qfloor x) (Qfloor y)) as [E|N].
  - unfold rne. rewrite E.
    destruct (Qcompare_spec (x - inject_Z (Qfloor y)) (1#2)) as [A|A|A];
    destruct (Qcompare_spec (y - inject_Z (Qfloor y)) (1#2)) as [B|B|B];
    try destruct (Z.even (Qfloor y)); try lia; exfalso; lra.
  - pose proof (rne_floor x). pose proof (rne_floor y). lia.
Qed.

Definition near (x : Q) (z : Z) : Prop :=
  (- (1#2) < x - inject_Z z /\ x - inject_Z z < 1#2) \/
  ((x - inject_Z z == 1#2 \/ inject_Z z - x == 1#2) /\ Z.even z = true).

Lemma rne_unique x z : near x z -> rne x = z.
Proof.
  intros [[H1 H2]|[[H|H] He]]; unfold rne.
  - assert (Hc : (Qfloor x = z \/ Qfloor x = z - 1)%Z).
    { destruct (Qfloor_bounds x) as [F1 F2].
      assert (A : (Qfloor x < z + 1)%Z).
      { rewrite Zlt_Qlt, inject_Z_plus. change (inject_Z 1) with 1. lra. }
      assert (B : (z < Qfloor x + 2)%Z).
      { rewrite Zlt_Qlt, inject_Z_plus. change (inject_Z 2) with 2. lra. }
      lia. }
    destruct Hc as [-> | ->].
    + assert (C : Qcompare (x - inject_Z z) (1#2) = Lt) by (apply (proj1 (Qlt_alt _ _)); exact H2).
      rewrite C. reflexivity.
    + assert (C : Qcompare (x - inject_Z (z - 1)) (1#2) = Gt).
      { apply (proj1 (Qgt_alt _ _)). rewrite inject_Z_pred. lra. }
      rewrite C. lia.
  - assert (F : Qfloor x = z).
    { apply Qfloor_unique; lra. }
    rewrite F.
    assert (C : Qcompare (x - inject_Z z) (1#2) = Eq) by (apply (proj1 (Qeq_alt _ _)); exact H).
    rewrite C, He. reflexivity.
  - assert (F : Qfloor x = (z - 1)%Z).
    { apply Qfloor_unique; rewrite inject_Z_pred; lra. }
    rewrite F.
    assert (C : Qcompare (x - inject_Z (z - 1)) (1#2) = Eq).
    { apply (proj1 (Qeq_alt _ _)). rewrite inject_Z_pred. lra. }
    rewrite C.
    assert (O : Z.even (z - 1) = false).
    { rewrite Z.even_sub, He. reflexivity. }
    rewrite O. lia.
Qed.

Lemma rne_near x : near x (rne x).
Proof.
  unfold rne. destruct (Qfloor_bounds x) as [F1 F2].
  destruct (Qcompare_spec (x - inject_Z (Qfloor x)) (1#2)) as [A|A|A].
  - destruct (Z.even (Qfloor x)) eqn:E.
    + right. split; [left; exact A|exact E].
    + right. split.
      * right. rewrite inject_Z_plus. change (inject_Z 1) with 1. lra.
      * rewrite Z.even_add, E. reflexivity.
  - left. lra.
  - left. rewrite inject_Z_plus. change (inject_Z 1) with 1. lra.
Qed.

Lemma rne_opp x : rne (- x) = (- rne x)%Z.
Proof.
  apply rne_unique. destruct (rne_near x) as [[H1 H2]|[[H|H] He]].
  - left. rewrite inject_Z_opp. lra.
  - right. split; [right; rewrite inject_Z_opp; lra|].
    rewrite Z.even_opp. exact He.
  - right. split; [left; rewrite inject_Z_opp; lra|].
    rewrite Z.even_opp. exact He.
Qed.

Lemma rne_error x : - (1#2) <= x - inject_Z (rne x) /\ x - inject_Z (rne x) <= 1#2.
Proof.
  destruct (rne_near x) as [[H1 H2]|[[H|H] _]]; lra.
Qed.

(** *** Rounding to 53 bits *)

Lemma ilog2_proper x y : 0 < x -> x == y -> ilog2 x = ilog2 y.
Proof.
  intros Hx E. symmetry. destruct (ilog2_spec x Hx) as [H1 H2].
  apply ilog2_unique; lra.
Qed.

Lemma Qabs_pos_lt x : ~ x == 0 -> 0 < Qabs x.
Proof.
  intros N. apply Qabs_case; intros H.
  - destruct (Qlt_le_dec 0 x) as [L|L]; [exact L|]. exfalso. apply N. lra.
  - destruct (Qlt_le_dec x 0) as [L|L]; [lra|]. exfalso. apply N. lra.
Qed.

Lemma ulp_proper x y : ~ x == 0 -> x == y -> ulp x = ulp y.
Proof.
  intros N E. unfold ulp. f_equal. f_equal.
  apply ilog2_proper; [apply Qabs_pos_lt; exact N|]. rewrite E. reflexivity.
Qed.

Lemma ulp_pos x : 0 < ulp x.
Proof. apply pow2_pos. Qed.

Lemma ulp_opp x : ~ x == 0 -> ulp (- x) = ulp x.
Proof.
  intros N. unfold ulp. f_equal. f_equal.
  apply ilog2_proper; [|apply Qabs_opp].
  apply Qabs_pos_lt. intros H. apply N. lra.
Qed.

Lemma round_nz x : ~ x == 0 -> round x == inject_Z (rne (x / ulp x)) * ulp x.
Proof.
  intros N. unfold round. destruct (Qeq_bool x 0) eqn:E.
  - apply Qeq_bool_iff in E. contradiction.
  - apply Qred_correct.
Qed.

Lemma round_z x : x == 0 -> round x == 0.
Proof.
  intros H. unfold round. apply Qeq_bool_iff in H. rewrite H. reflexivity.
Qed.

Lemma div_proper x y u : x == y -> x / u == y / u.
Proof. intros E. rewrite E. reflexivity. Qed.

Lemma round_proper x y : x == y -> round x == round y.
Proof.
  intros E. destruct (Qeq_dec x 0) as [Z|N].
  - rewrite (round_z x Z). rewrite (round_z y); [reflexivity|]. rewrite <- E. exact Z.
  - assert (N' : ~ y == 0) by (intros H; apply N; rewrite E; exact H).
    rewrite (round_nz x N), (round_nz y N').
    rewrite (ulp_proper x y N E).
    rewrite (rne_proper (x / ulp y) (y / ulp y) (div_proper x y _ E)).
    reflexivity.
Qed.

#[export] Instance round_wd : Proper (Qeq ==> Qeq) round.
Proof. intros x y E. apply round_proper. exact E. Qed.

Lemma round_opp x : round (- x) == - round x.
Proof.
  destruct (Qeq_dec x 0) as [Z|N].
  - rewrite (round_z x Z). rewrite (round_z (- x)); lra.
  - assert (N' : ~ - x == 0) by (intros H; apply N; lra).
    rewrite (round_nz x N), (round_nz (- x) N'). rewrite (ulp_opp x N).
    assert (E : - x / ulp x == - (x / ulp x)).
    { pose proof (ulp_pos x). field. lra. }
    rewrite (rne_proper _ _ E), rne_opp, inject_Z_opp. ring.
Qed.

(** The significand of a positive number lies between 2^52 and 2^53. *)
Lemma significand_bounds x :
  0 < x ->
  let u := pow2 (ilog2 x - 52) in
  pow2 52 * u == pow2 (ilog2 x) /\ pow2 53 * u == pow2 (ilog2 x + 1) /\
  pow2 52 <= x / u /\ x / u < pow2 53.
Proof.
  intros Hx u. destruct (ilog2_spec x Hx) as [H1 H2].
  assert (E1 : pow2 52 * u == pow2 (ilog2 x)).
  { unfold u. rewrite <- pow2_add. replace (52 + (ilog2 x - 52))%Z with (ilog2 x) by lia.
    reflexivity. }
  assert (E2 : pow2 53 * u == pow2 (ilog2 x + 1)).
  { unfold u. rewrite <- pow2_add.
    replace (53 + (ilog2 x - 52))%Z with (ilog2 x + 1)%Z by lia. reflexivity. }
  pose proof (pow2_pos (ilog2 x - 52)) as Hu. fold u in Hu.
  repeat split; try assumption.
  - apply Qle_shift_div_l; [exact Hu|]. lra.
  - apply Qlt_shift_div_r; [exact Hu|]. lra.
Qed.

Lemma rne_significand q : pow2 52 <= q -> q < pow2 53 ->
  (2 ^ 52 <= rne q <= 2 ^ 53)%Z.
Proof.
  intros H1 H2.
  assert (A : rne (inject_Z (2 ^ 52)) = (2 ^ 52)%Z) by apply rne_Z.
  assert (B : rne (inject_Z (2 ^ 53)) = (2 ^ 53)%Z) by apply rne_Z.
  assert (P52 : inject_Z (2 ^ 52) == pow2 52) by (apply pow2_Z; lia).
  assert (P53 : inject_Z (2 ^ 53) == pow2 53) by (apply pow2_Z; lia).
  split.
  - rewrite <- A. apply rne_mono. lra.
  - rewrite <- B. apply rne_mono. lra.
Qed.

Lemma round_pos x :
  0 < x -> round x == inject_Z (rne (x / pow2 (ilog2 x - 52))) * pow2 (ilog2 x - 52).
Proof.
  intros Hx. assert (N : ~ x == 0) by lra.
  rewrite (round_nz x N). unfold ulp.
  assert (E : ilog2 (Qabs x) = ilog2 x).
  { apply ilog2_proper; [apply Qabs_pos_lt; exact N|]. apply Qabs_pos. lra. }
  rewrite E. reflexivity.
Qed.

Lemma round_pos_bounds x :
  0 < x -> pow2 (ilog2 x) <= round x /\ round x <= pow2 (ilog2 x + 1).
Proof.
  intros Hx. rewrite (round_pos x Hx).
  destruct (significand_bounds x Hx) as (E1 & E2 & H1 & H2).
  set (u := pow2 (ilog2 x - 52)) in *.
  pose proof (rne_significand (x / u) H1 H2) as [M1 M2].
  assert (Hu : 0 < u) by apply pow2_pos.
  assert (P52 : inject_Z (2 ^ 52) == pow2 52) by (apply pow2_Z; lia).
  assert (P53 : inject_Z (2 ^ 53) == pow2 53) by (apply pow2_Z; lia).
  rewrite Zle_Qle in M1, M2.
  set (m := inject_Z (rne (x / u))) in *.
  split.
  - rewrite <- E1. apply Qmult_le_compat_r; lra.
  - rewrite <- E2. apply Qmult_le_compat_r; lra.
Qed.

Lemma ilog2_mono x y : 0 < x -> x <= y -> (ilog2 x <= ilog2 y)%Z.
Proof.
  intros Hx H. destruct (ilog2_spec x Hx) as [A _].
  destruct (ilog2_spec y) as [_ B]; [lra|].
  assert (L : (ilog2 x < ilog2 y + 1)%Z) by (apply pow2_lt_inv; lra). lia.
Qed.

Lemma round_mono_pos x y : 0 < x -> x <= y -> round x <= round y.
Proof.
  intros Hx H. assert (Hy : 0 < y) by lra.
  pose proof (ilog2_mono x y Hx H) as L.
  destruct (Z.eq_dec (ilog2 x) (ilog2 y)) as [E|N].
  - rewrite (round_pos x Hx), (round_pos y Hy), E.
    set (u := pow2 (ilog2 y - 52)). assert (Hu : 0 < u) by apply pow2_pos.
    apply Qmult_le_compat_r; [|lra]. rewrite <- Zle_Qle. apply rne_mono.
    apply Qmult_le_compat_r; [exact H|]. apply Qlt_le_weak, Qinv_lt_0_compat. exact Hu.
  - destruct (round_pos_bounds x Hx) as [_ A]. destruct (round_pos_bounds y Hy) as [B _].
    assert (P : pow2 (ilog2 x + 1) <= pow2 (ilog2 y)) by (apply pow2_le; lia).
    lra.
Qed.

Lemma round_nonneg x : 0 <= x -> 0 <= round x.
Proof.
  intros H. destruct (Qeq_dec x 0) as [Z|N].
  - rewrite (round_z x Z). lra.
  - assert (Hx : 0 < x).
    { destruct (Qlt_le_dec 0 x) as [L|L]; [exact L|]. exfalso. apply N. lra. }
    destruct (round_pos_bounds x Hx) as [A _]. pose proof (pow2_pos (ilog2 x)). lra.
Qed.

Lemma round_mono x y : x <= y -> round x <= round y.
Proof.
  intros H.
  destruct (Qlt_le_dec 0 x) as [Hx|Hx].
  - apply round_mono_pos; assumption.
  - destruct (Qlt_le_dec y 0) as [Hy|Hy].
    + assert (A : round (- y) <= round (- x)) by (apply round_mono_pos; lra).
      rewrite !round_opp in A. lra.
    + assert (A : 0 <= round (- x)) by (apply round_nonneg; lra).
      rewrite round_opp in A. pose proof (round_nonneg y Hy). lra.
Qed.

(** *** Scaling by a power of two *)

Lemma ilog2_scale x k : 0 < x -> ilog2 (x * pow2 k) = (ilog2 x + k)%Z.
Proof.
  intros Hx. destruct (ilog2_spec x Hx) as [H1 H2].
  pose proof (pow2_pos k) as Hk.
  apply ilog2_unique.
  - rewrite pow2_add. apply Qmult_le_compat_r; lra.
  - replace (ilog2 x + k + 1)%Z with (ilog2 x + 1 + k)%Z by lia.
    rewrite pow2_add. apply Qmult_lt_compat_r; lra.
Qed.

Lemma round_scale_pos x k : 0 < x -> round (x * pow2 k) == round x * pow2 k.
Proof.
  intros Hx. pose proof (pow2_pos k) as Hk.
  assert (Hxk : 0 < x * pow2 k) by (apply Qmult_lt_0_compat; assumption).
  rewrite (round_pos x Hx), (round_pos _ Hxk), (ilog2_scale x k Hx).
  replace (ilog2 x + k - 52)%Z with (ilog2 x - 52 + k)%Z by lia.
  set (e := (ilog2 x - 52)%Z).
  assert (E : x * pow2 k / pow2 (e + k) == x / pow2 e).
  { rewrite pow2_add. pose proof (pow2_pos e). field. lra. }
  rewrite (rne_proper _ _ E), pow2_add. ring.
Qed.

Lemma round_scale x k : round (x * pow2 k) == round x * pow2 k.
Proof.
  destruct (Qlt_le_dec 0 x) as [Hx|Hx]; [apply round_scale_pos; exact Hx|].
  destruct (Qeq_dec x 0) as [Z|N].
  - rewrite (round_z x Z). rewrite round_z; [lra|]. rewrite Z. lra.
  - assert (Hn : 0 < - x).
    { destruct (Qlt_le_dec x 0) as [L|L]; [lra|]. exfalso. apply N. lra. }
    pose proof (round_scale_pos (- x) k Hn) as A.
    assert (E : - x * pow2 k == - (x * pow2 k)) by ring.
    rewrite (round_proper _ _ E), !round_opp in A. lra.
Qed.

Lemma round_half x : round (x / 2) == round x / 2.
Proof.
  assert (E : x / 2 == x * pow2 (-1)) by (unfold pow2; simpl; field).
  rewrite (round_proper _ _ E), round_scale. unfold pow2. simpl. field.
Qed.

Lemma round_double x : round (x * 2) == round x * 2.
Proof.
  assert (E : x * 2 == x * pow2 1) by (unfold pow2; simpl; ring).
  rewrite (round_proper _ _ E), round_scale. unfold pow2. simpl. ring.
Qed.

(** *** Representable numbers *)

Lemma round_significand m k :
  (2 ^ 52 <= m < 2 ^ 53)%Z -> round (inject_Z m * pow2 k) == inject_Z m * pow2 k.
Proof.
  intros [M1 M2].
  assert (P52 : inject_Z (2 ^ 52) == pow2 52) by (apply pow2_Z; lia).
  assert (P53 : inject_Z (2 ^ 53) == pow2 53) by (apply pow2_Z; lia).
  assert (Hm : 0 < inject_Z m).
  { rewrite Zle_Qle in M1. pose proof (pow2_pos 52). lra. }
  assert (L : ilog2 (inject_Z m) = 52%Z).
  { apply ilog2_unique.
    - rewrite Zle_Qle in M1. lra.
    - rewrite Zlt_Qlt in M2. change (52 + 1)%Z with 53%Z. lra. }
  rewrite round_scale. apply Qmult_comp; [|reflexivity].
  rewrite (round_pos _ Hm), L. change (52 - 52)%Z with 0%Z.
  assert (E : inject_Z m / pow2 0 == inject_Z m) by (unfold pow2; simpl; field).
  rewrite (rne_proper _ _ E), rne_Z. unfold pow2. simpl. ring.
Qed.

Lemma round_pow2 k : round (pow2 k) == pow2 k.
Proof.
  assert (E : pow2 k == inject_Z (2 ^ 52) * pow2 (k - 52)).
  { rewrite (pow2_Z 52) by lia. rewrite <- pow2_add.
    replace (52 + (k - 52))%Z with k by lia. reflexivity. }
  rewrite (round_proper _ _ E) at 1. rewrite round_significand by lia.
  symmetry. exact E.
Qed.

Lemma round_idem x : round (round x) == round x.
Proof.
  assert (P : forall y, 0 < y -> round (round y) == round y).
  { intros y Hy. destruct (significand_bounds y Hy) as (E1 & E2 & H1 & H2).
    pose proof (rne_significand _ H1 H2) as [M1 M2].
    pose proof (round_pos y Hy) as R.
    set (m := rne (y / pow2 (ilog2 y - 52))) in *.
    destruct (Z.eq_dec m (2 ^ 53)%Z) as [E|N].
    - assert (R' : round y == pow2 (ilog2 y + 1)).
      { rewrite R, E, (pow2_Z 53) by lia. exact E2. }
      rewrite (round_proper _ _ R'), R'. apply round_pow2.
    - rewrite (round_proper _ _ R), R. apply round_significand. lia. }
  destruct (Qlt_le_dec 0 x) as [Hx|Hx]; [apply P; exact Hx|].
  destruct (Qeq_dec x 0) as [Z|N].
  - rewrite (round_proper _ _ (round_z x Z)). rewrite (round_z x Z). apply round_z. reflexivity.
  - assert (Hn : 0 < - x).
    { destruct (Qlt_le_dec x 0) as [L|L]; [lra|]. exfalso. apply N. lra. }
    pose proof (P (- x) Hn) as A.
    rewrite (round_proper _ _ (round_opp x)), !round_opp in A. lra.
Qed.

Lemma representable_round x : representable (round x).
Proof. apply round_idem. Qed.

Lemma representable_half x : representable x -> representable (x / 2).
Proof. unfold representable. intros H. rewrite round_half, H. reflexivity. Qed.

Lemma representable_mono_l x y : representable x -> x <= y -> x <= round y.
Proof.
  unfold representable. intros R H. pose proof (round_mono x y H). lra.
Qed.

Lemma representable_mono_r x y : representable y -> x <= y -> round x <= y.
Proof.
  unfold representable. intros R H. pose proof (round_mono x y H). lra.
Qed.

(** relative error of one rounding: half a unit in the last place *)
Lemma round_error_pos x :
  0 < x -> - (pow2 (-53) * x) <= round x - x /\ round x - x <= pow2 (-53) * x.
Proof.
  intros Hx. rewrite (round_pos x Hx).
  destruct (significand_bounds x Hx) as (E1 & E2 & H1 & H2).
  destruct (ilog2_spec x Hx) as [L1 L2].
  set (u := pow2 (ilog2 x - 52)) in *.
  assert (Hu : 0 < u) by apply pow2_pos.
  destruct (rne_error (x / u)) as [A B].
  set (m := inject_Z (rne (x / u))) in *.
  assert (Ex : x == x / u * u) by (field; lra).
  assert (Eu : u == pow2 (-52) * pow2 (ilog2 x)).
  { unfold u. rewrite <- pow2_add. replace (-52 + ilog2 x)%Z with (ilog2 x - 52)%Z by lia.
    reflexivity. }
  assert (Eh : pow2 (-53) * 2 == pow2 (-52)) by (unfold pow2; simpl; reflexivity).
  assert (Hb : u <= 2 * (pow2 (-53) * x)).
  { rewrite Eu, <- Eh. pose proof (pow2_pos (-53)) as P.
    assert (pow2 (-53) * pow2 (ilog2 x) <= pow2 (-53) * x) by (apply Qmult_le_l; assumption).
    lra. }
  assert (C1 : (m - x / u) * u <= (1#2) * u).
  { apply Qmult_le_compat_r; lra. }
  assert (C2 : - (1#2) * u <= (m - x / u) * u).
  { apply Qmult_le_compat_r; lra. }
  assert (D : m * u - x == (m - x / u) * u).
  { rewrite Ex at 1. ring. }
  lra.
Qed.

Lemma round_error x : Qabs (round x - x) <= pow2 (-53) * Qabs x.
Proof.
  destruct (Qlt_le_dec 0 x) as [Hx|Hx].
  - destruct (round_error_pos x Hx) as [A B].
    rewrite (Qabs_pos x) by lra. apply Qabs_Qle_condition. split; lra.
  - destruct (Qeq_dec x 0) as [Z|N].
    + rewrite (round_z x Z), Z. vm_compute. discriminate.
    + assert (Hn : 0 < - x).
      { destruct (Qlt_le_dec x 0) as [L|L]; [lra|]. exfalso. apply N. lra. }
      destruct (round_error_pos (- x) Hn) as [A B].
      rewrite round_opp in A, B. rewrite (Qabs_neg x) by lra.
      apply Qabs_Qle_condition. split; lra.
Qed.

Lemma representable_0 : representable 0.
Proof. reflexivity. Qed.

Lemma representable_min a b :
  representable a -> representable b -> representable (JS.Math_min a b).
Proof.
  unfold representable, JS.Math_min. intros Ha Hb.
  destruct (Q.min_spec a b) as [[_ E]|[_ E]];
    rewrite (round_proper _ _ E), E; assumption.
Qed.

End Binary64Facts.

(** *** Agreement with the primitive floats *)

Module Binary64Conformance.
Import Binary64 PrimFloat.

(** The model agrees with the primitive binary64 operations on sums,
    differences, products and quotients that are inexact, on ties, and on
    the absorption of a small term. *)
Example round_agrees_with_binary64 :
  ofFloat (1e20 + 500)%float = Some (round (inject_Z (10 ^ 20) + 500)) /\
  ofFloat (1e20 + 8192)%float = Some (round (inject_Z (10 ^ 20) + 8192)) /\
  ofFloat (1e20 + 8193)%float = Some (round (inject_Z (10 ^ 20) + 8193)) /\
  ofFloat (1e6 - 1000)%float = Some (round (inject_Z (10 ^ 6) - 1000)) /\
  ofFloat (1 / 3)%float = Some (round (1 / 3)) /\
  ofFloat ((1 / 3) * (7 / 10))%float = Some (round (round (1 / 3) * round (7 / 10))) /\
  ofFloat (1 / 10 + 2 / 10)%float = Some (round (round (1 / 10) + round (2 / 10))) /\
  ofFloat (9007199254740992 + 1)%float = Some (round (inject_Z (2 ^ 53) + 1)) /\
  ofFloat (9007199254740992 + 3)%float = Some (round (inject_Z (2 ^ 53) + 3)) /\
  ofFloat (500 * 1e22)%float = Some (round (inject_Z (5 * 10 ^ 24))) /\
  ofFloat (1e20 / (500 * 1e22))%float
    = Some (round (inject_Z (10 ^ 20) / round (inject_Z (5 * 10 ^ 24)))).
Proof. vm_compute. repeat split. Qed.

End Binary64Conformance.

Module ProductionFacts.
Import V2 V2.ProductionCalculator.

Lemma calculateBuildingRate_nonneg n sk :
  0 <= robotic sk -> 0 <= production sk -> 0 <= calculateBuildingRate n sk.
Proof.
  intros Hr Hp. unfold calculateBuildingRate.
  destruct (JS.leb n 0) eqn:E; [apply Qle_refl|].
  apply JSFacts.leb_gt in E. unfold BASE_BUILDING_RATE.
  repeat apply Qmult_le_0_compat; auto; [discriminate | apply Qlt_le_weak, E].
Qed.

Lemma structureMiningPass_empty zoneId sk bs total :
  structureMiningPass ∅ zoneId sk bs total = total.
Proof.
  revert total. induction bs as [|b bs IH]; intros total; simpl; [reflexivity|].
  rewrite lookup_empty. change (JS.eqb (JS.orZero None) 0) with true. cbv iota.
  apply IH.
Qed.

(** The rate formulas never fail and vanish without workers: a
    non-positive probe count gives rate 0; a positive one gives
    [100 * probes * robotic * production], times the zone multiplier for
    mining, so the rate is proportional to the probe count; a zone without
    structures has structure mining rate 0. *)
Theorem production_rates_vanish_without_workers reg n zoneId sk :
  (n <= 0 -> calculateMiningRate reg n zoneId sk = 0 /\ calculateBuildingRate n sk = 0) /\
  (0 < n ->
     calculateBuildingRate n sk == 100 * n * robotic sk * production sk /\
     calculateMiningRate reg n zoneId sk
       == calculateBuildingRate n sk * OrbitalMechanics.getZoneMiningMultiplier reg zoneId /\
     forall k, 0 < k ->
       calculateBuildingRate (k * n) sk == k * calculateBuildingRate n sk /\
       calculateMiningRate reg (k * n) zoneId sk == k * calculateMiningRate reg n zoneId sk) /\
  (forall structuresByZone buildings,
     structuresByZone !! zoneId = None ->
     calculateStructureMiningRate structuresByZone zoneId buildings sk = 0).
Proof.
  split; [|split].
  - intros Hn. unfold calculateMiningRate, calculateBuildingRate.
    apply JSFacts.leb_le in Hn. rewrite Hn. split; reflexivity.
  - intros Hn.
    assert (Hb : forall m, 0 < m -> JS.leb m 0 = false)
      by (intros m Hm; apply JSFacts.leb_gt; exact Hm).
    unfold calculateMiningRate, calculateBuildingRate.
    rewrite (Hb n Hn). unfold BASE_MINING_RATE, BASE_BUILDING_RATE.
    split; [reflexivity|]. split; [reflexivity|].
    intros k Hk.
    assert (Hkn : 0 < k * n).
    { setoid_replace 0 with (k * 0) using relation Qeq by ring.
      apply Qmult_lt_l; assumption. }
    rewrite (Hb (k * n) Hkn). split; ring.
  - intros sbz b Hz. unfold calculateStructureMiningRate. rewrite Hz. simpl.
    rewrite !structureMiningPass_empty. reflexivity.
Qed.

End ProductionFacts.

(** ** Dyson construction *)

Module DysonFacts.
Import V2 Binary64 DysonSystem.
Import Binary64Facts.

Lemma roundedBuildingRate_nonneg n sk :
  0 <= robotic sk -> 0 <= production sk -> 0 <= calculateBuildingRate n sk.
Proof.
  intros Hr Hp. unfold calculateBuildingRate.
  destruct (JS.leb n 0) eqn:E; [lra|].
  apply JSFacts.leb_gt in E.
  apply round_nonneg, Qmult_le_0_compat; [|exact Hp].
  apply round_nonneg, Qmult_le_0_compat; [|exact Hr].
  apply round_nonneg, Qmult_le_0_compat; [discriminate|lra].
Qed.

Lemma throttledRate_nonneg st sk thr :
  0 <= thr -> 0 <= robotic sk -> 0 <= production sk -> 0 <= dyson_construction sk ->
  0 <= throttledRate st sk thr.
Proof.
  intros Ht Hr Hp Hd. unfold throttledRate.
  apply round_nonneg, Qmult_le_0_compat; [|exact Ht].
  apply round_nonneg, Qmult_le_0_compat; [|exact Hd].
  apply roundedBuildingRate_nonneg; assumption.
Qed.

(** The metal taken is a binary64 number between 0 and the pool. *)
Lemma metalTaken_bounds st rate dt :
  0 <= rate -> 0 <= dt -> 0 <= metalOf st -> representable (metalOf st) ->
  0 <= metalTaken st rate dt <= metalOf st /\ representable (metalTaken st rate dt).
Proof.
  intros Hr Hdt Hm Rm. unfold metalTaken. repeat split.
  - apply JSFacts.min_glb; [|exact Hm].
    apply round_nonneg, Qmult_le_0_compat; [|exact Hdt].
    apply round_nonneg, Qmult_le_0_compat; [exact Hr|discriminate].
  - apply JSFacts.min_le_r.
  - apply representable_min; [apply representable_round|exact Rm].
Qed.

Lemma half_twice x : METAL_TO_DYSON_RATIO * (x / METAL_TO_DYSON_RATIO) == x.
Proof. unfold METAL_TO_DYSON_RATIO. field. Qed.

(** Halving a binary64 number is exact. *)
Lemma half_exact x :
  representable x -> round (x / METAL_TO_DYSON_RATIO) == x / METAL_TO_DYSON_RATIO.
Proof. intros R. apply (representable_half x R). Qed.

(** The two branches of [processDysonConstruction], written with the
    observations above. *)
Lemma processDysonConstruction_idle st dt sk thr r :
  rates st = Some r -> JS.eqb (totalProbes st) 0 = true ->
  processDysonConstruction st dt sk thr
    = Some (set_rates (Some (set_rate_dyson_construction 0 r)) st).
Proof.
  intros Er Ez. unfold processDysonConstruction.
  change (sumValues (JS.orEmpty (probes_by_zone st !! "dyson_sphere")))
    with (totalProbes st).
  rewrite Ez, Er. reflexivity.
Qed.

Lemma processDysonConstruction_building st dt sk thr r :
  rates st = Some r -> JS.eqb (totalProbes st) 0 = false ->
  let rate := throttledRate st sk thr in
  let taken := metalTaken st rate dt in
  let newMass := round (dysonMass st + round (taken / METAL_TO_DYSON_RATIO)) in
  processDysonConstruction st dt sk thr
    = Some (set_dyson_sphere
              (Some {| mass := Some newMass;
                       target_mass := target_mass (dysonOf st);
                       progress :=
                         Some (JS.Math_min 1 (round (newMass / dysonTarget st))) |})
              (set_rates (Some (set_rate_dyson_construction rate r))
                 (set_metal (Some (round (metalOf st - taken))) st))).
Proof.
  intros Er Ez rate taken newMass. subst newMass taken rate.
  unfold processDysonConstruction.
  change (sumValues (JS.orEmpty (probes_by_zone st !! "dyson_sphere")))
    with (totalProbes st).
  rewrite Ez. cbn [rates set_metal]. rewrite Er.
  unfold throttledRate, metalTaken, dysonMass, dysonTarget, dysonOf, metalOf,
    dysonAllocation.
  cbv zeta. reflexivity.
Qed.

(** C9, as the code has it.  Under non-negative inputs and binary64 values
    in the metal pool and the sphere, one call of [processDysonConstruction]
    returns a state in which the mass has not decreased and the pool has not
    grown nor gone negative.  Without probes in the Dyson zone the sphere
    (its stored fraction included) and the pool are returned as they came.
    With probes, the metal taken is [min(needed, available)], the mass
    increment computed from it is exactly half of it, and the pool and the
    mass are stored as the binary64 roundings of [available - taken] and
    [mass + taken / 2], each within a relative error of 2^-53 of the exact
    value; the stored fraction is [min(1, mass / target_mass)] with the
    quotient rounded, hence at most 1. *)
Theorem dyson_construction_rounds_each_store st dt sk thr :
  0 <= dt -> 0 <= thr ->
  0 <= robotic sk -> 0 <= production sk -> 0 <= dyson_construction sk ->
  0 <= metalOf st -> representable (metalOf st) -> representable (dysonMass st) ->
  rates st <> None ->
  exists st',
    processDysonConstruction st dt sk thr = Some st' /\
    dysonMass st <= dysonMass st' /\
    0 <= metalOf st' <= metalOf st /\
    (totalProbes st == 0 ->
       dyson_sphere st' = dyson_sphere st /\ metal st' = metal st /\
       dysonRate st' = 0) /\
    (~ totalProbes st == 0 ->
       let taken := metalTaken st (throttledRate st sk thr) dt in
       let added := taken / METAL_TO_DYSON_RATIO in
       dysonRate st' = throttledRate st sk thr /\
       0 <= taken <= metalOf st /\
       METAL_TO_DYSON_RATIO * added == taken /\
       representable added /\
       metalOf st' == round (metalOf st - taken) /\
       dysonMass st' == round (dysonMass st + added) /\
       Qabs (metalOf st' - (metalOf st - taken))
         <= pow2 (-53) * Qabs (metalOf st - taken) /\
       Qabs (dysonMass st' - (dysonMass st + added))
         <= pow2 (-53) * Qabs (dysonMass st + added) /\
       dysonTarget st' = dysonTarget st /\
       exists p, progress (dysonOf st') = Some p /\
                 p == JS.Math_min 1 (round (dysonMass st' / dysonTarget st')) /\
                 p <= 1).
Proof.
  intros Hdt Hthr Hr Hp Hd Hm Rm RM Hrates.
  destruct (rates st) as [r|] eqn:Er; [clear Hrates | congruence].
  destruct (JS.eqb (totalProbes st) 0) eqn:Ez.
  - rewrite (processDysonConstruction_idle st dt sk thr r Er Ez).
    eexists. split; [reflexivity|].
    apply JSFacts.eqb_eq in Ez.
    split; [apply Qle_refl|].
    split; [split; [exact Hm|apply Qle_refl]|].
    split.
    + intros _. repeat split.
    + intros Hn. contradiction.
  - rewrite (processDysonConstruction_building st dt sk thr r Er Ez). cbv zeta.
    eexists. split; [reflexivity|].
    pose proof (throttledRate_nonneg st sk thr Hthr Hr Hp Hd) as Hrate.
    destruct (metalTaken_bounds st (throttledRate st sk thr) dt Hrate Hdt Hm Rm)
      as [[Ht0 Ht1] Rt].
    set (rate := throttledRate st sk thr) in *.
    set (taken := metalTaken st rate dt) in *.
    pose proof (half_exact taken Rt) as Hhalf.
    assert (Hadd0 : 0 <= taken / METAL_TO_DYSON_RATIO).
    { unfold METAL_TO_DYSON_RATIO. apply Qle_shift_div_l; [reflexivity|]. lra. }
    set (newMass := round (dysonMass st + round (taken / METAL_TO_DYSON_RATIO))).
    match goal with |- context [set_dyson_sphere ?d (set_rates ?r' ?s0)] =>
      set (D := d); set (R := r'); set (S0 := s0) end.
    assert (Hmass' : dysonMass (set_dyson_sphere D (set_rates R S0))
                     == round (dysonMass st + taken / METAL_TO_DYSON_RATIO)).
    { unfold dysonMass at 1. unfold dysonOf at 1. subst D.
      cbn [dyson_sphere set_dyson_sphere mass].
      rewrite JSFacts.orZero_Some. subst newMass. apply round_proper.
      rewrite Hhalf. reflexivity. }
    assert (Hmetal' : metalOf (set_dyson_sphere D (set_rates R S0))
                      == round (metalOf st - taken)).
    { unfold metalOf at 1. subst S0. cbn [metal set_dyson_sphere set_rates set_metal].
      apply JSFacts.orZero_Some. }
    assert (Htarget : dysonTarget (set_dyson_sphere D (set_rates R S0)) = dysonTarget st).
    { unfold dysonTarget, dysonOf. subst D. reflexivity. }
    split.
    { rewrite Hmass'. apply representable_mono_l; [exact RM|lra]. }
    split.
    { rewrite Hmetal'. split.
      - apply round_nonneg. lra.
      - apply representable_mono_r; [exact Rm|lra]. }
    split.
    { intros Hz. apply JSFacts.eqb_eq in Hz. congruence. }
    intros _.
    split; [reflexivity|].
    split; [split; assumption|].
    split; [apply half_twice|].
    split; [exact Hhalf|].
    split; [exact Hmetal'|].
    split; [exact Hmass'|].
    split; [rewrite Hmetal'; apply round_error|].
    split; [rewrite Hmass'; apply round_error|].
    split; [exact Htarget|].
    eexists. split; [subst D; reflexivity|]. split.
    + rewrite Htarget.
      assert (E : dysonMass (set_dyson_sphere D (set_rates R S0)) == newMass).
      { unfold dysonMass at 1. unfold dysonOf at 1. subst D.
        cbn [dyson_sphere set_dyson_sphere mass]. apply JSFacts.orZero_Some. }
      assert (E' : round (newMass / dysonTarget st)
                   == round (dysonMass (set_dyson_sphere D (set_rates R S0))
                             / dysonTarget st)).
      { apply round_proper. rewrite E. reflexivity. }
      unfold JS.Math_min. rewrite E'. reflexivity.
    + apply JSFacts.min_le_l.
Qed.

(** Witness for C9 on [heavySphere]: half a day at full throttle. *)
Lemma dyson_construction_witness :
  exists st',
    processDysonConstruction heavySphere (1#2) unitSkills 1 = Some st' /\
    dysonMass heavySphere <= dysonMass st' /\
    0 <= metalOf st' <= metalOf heavySphere /\
    (totalProbes heavySphere == 0 ->
       dyson_sphere st' = dyson_sphere heavySphere /\ metal st' = metal heavySphere /\
       dysonRate st' = 0) /\
    (~ totalProbes heavySphere == 0 ->
       let taken := metalTaken heavySphere (throttledRate heavySphere unitSkills 1) (1#2) in
       let added := taken / METAL_TO_DYSON_RATIO in
       dysonRate st' = throttledRate heavySphere unitSkills 1 /\
       0 <= taken <= metalOf heavySphere /\
       METAL_TO_DYSON_RATIO * added == taken /\
       representable added /\
       metalOf st' == round (metalOf heavySphere - taken) /\
       dysonMass st' == round (dysonMass heavySphere + added) /\
       Qabs (metalOf st' - (metalOf heavySphere - taken))
         <= pow2 (-53) * Qabs (metalOf heavySphere - taken) /\
       Qabs (dysonMass st' - (dysonMass heavySphere + added))
         <= pow2 (-53) * Qabs (dysonMass heavySphere + added) /\
       dysonTarget st' = dysonTarget heavySphere /\
       exists p, progress (dysonOf st') = Some p /\
                 p == JS.Math_min 1 (round (dysonMass st' / dysonTarget st')) /\
                 p <= 1).
Proof.
  apply (dyson_construction_rounds_each_store heavySphere (1#2) unitSkills 1);
    first [ vm_compute; discriminate | vm_compute; reflexivity ].
Defined.

(** The claim as the specification words it fails twice.  On [heavySphere]
    half a day of construction takes 1000 kg of metal out of the pool and
    the 500 kg it should add are absorbed by the rounding of the sum: the
    mass is the same 1e20 kg afterwards.  On [idleSphere] the call returns
    before the fraction is recomputed, and the stored 0 stays next to a mass
    of 60 kg of 100. *)
Lemma two_to_one_fails_at_large_mass :
  (exists st',
     processDysonConstruction heavySphere (1#2) unitSkills 1 = Some st' /\
     metalOf heavySphere - metalOf st' == 1000 /\
     dysonMass st' == dysonMass heavySphere /\
     ~ convertsTwoToOne heavySphere st') /\
  (exists st',
     processDysonConstruction idleSphere 1 unitSkills 1 = Some st' /\
     ~ progressClamped st' /\
     ~ convertsTwoToOne idleSphere st').
Proof.
  split.
  - eexists. split; [vm_compute; reflexivity|].
    split; [vm_compute; reflexivity|]. split; [vm_compute; reflexivity|].
    intros (_ & H & _). vm_compute in H. discriminate.
  - assert (N : forall st',
               processDysonConstruction idleSphere 1 unitSkills 1 = Some st' ->
               ~ progressClamped st').
    { intros st' E (p & Hp & Hq). vm_compute in E. injection E as <-.
      vm_compute in Hp. injection Hp as <-. vm_compute in Hq. discriminate. }
    eexists. split; [vm_compute; reflexivity|]. split.
    + apply N. vm_compute. reflexivity.
    + intros (_ & _ & _ & H). revert H. apply N. vm_compute. reflexivity.
Qed.

(** Far from the rounding threshold the conversion is exact, and the raw
    mass may pass the target while the stored fraction stays at 1:
    [exampleState] ends the day with 510 kg against a 100 kg target. *)
Example dyson_mass_may_exceed_target :
  exists st',
    processDysonConstruction exampleState 1 unitSkills 1 = Some st' /\
    dysonMass st' == 510 /\ dysonTarget st' == 100 /\
    progress (dysonOf st') = Some 1 /\ metalOf st' == 0 /\
    convertsTwoToOne exampleState st'.
Proof.
  eexists. split; [vm_compute; reflexivity|].
  repeat split; try (vm_compute; reflexivity); try (vm_compute; discriminate).
  eexists. split; vm_compute; reflexivity.
Qed.

(** Why the inputs are taken non-negative: with a negative [deltaTime] the
    metal "needed" is negative, [Math.min] passes it on, and the call takes
    mass off the sphere and puts metal into the pool. *)
Example negative_delta_time_unbuilds :
  exists st',
    processDysonConstruction exampleState (-1) unitSkills 1 = Some st' /\
    dysonMass exampleState == 10 /\ dysonMass st' == -990 /\
    metalOf exampleState == 1000 /\ metalOf st' == 3000.
Proof.
  eexists. split; [vm_compute; reflexivity|].
  repeat split; vm_compute; reflexivity.
Qed.

(** The increment that a sphere of 1e20 kg still registers: 8192 kg is half
    a unit in the last place and is rounded away (the tie goes to the even
    significand), 8193 kg moves the mass by a full unit of 16384 kg. *)
Example absorption_threshold :
  ulp (inject_Z (10 ^ 20)) == 16384 /\
  round (inject_Z (10 ^ 20) + 8192) == inject_Z (10 ^ 20) /\
  round (inject_Z (10 ^ 20) + 8193) == inject_Z (10 ^ 20) + 16384.
Proof. repeat split; vm_compute; reflexivity. Qed.

End DysonFacts.

(** ** Mining *)

Module MiningFacts.
Import Script MiningSystem.

(** [redeclared] finds a name exactly when the names are not pairwise
    distinct or one of them is already bound. *)
Lemma redeclared_None seen names :
  redeclared seen names = None <->
  NoDup names /\ (forall name, name ∈ names -> name ∉ seen).
Proof.
  revert seen. induction names as [|x rest IH]; intros seen; simpl.
  - split; [intros _|reflexivity]. split; [constructor|]. intros name H.
    apply elem_of_nil in H. destruct H.
  - destruct (bool_decide (x ∈ seen)) eqn:E.
    + apply bool_decide_eq_true in E. split; [discriminate|].
      intros [_ H]. exfalso. apply (H x); [left|exact E].
    + apply bool_decide_eq_false in E. rewrite IH. split.
      * intros [Hnd H]. split.
        -- constructor; [|exact Hnd]. intros Hin. apply (H x Hin). left.
        -- intros name Hin Hseen. apply elem_of_cons in Hin as [->|Hin];
             [exact (E Hseen)|]. apply (H name Hin). right. exact Hseen.
      * intros [Hnd H]. apply NoDup_cons in Hnd as [Hx Hnd]. split; [exact Hnd|].
        intros name Hin Hseen. apply elem_of_cons in Hseen as [->|Hseen];
          [exact (Hx Hin)|]. apply (H name); [right; exact Hin|exact Hseen].
Qed.

(** The name reported was declared before: it is bound already or occurs
    earlier in the list. *)
Lemma redeclared_Some seen names name :
  redeclared seen names = Some name ->
  name ∈ names /\
  (name ∈ seen \/
   exists before after, names = (before ++ name :: after)%list /\ name ∈ before).
Proof.
  revert seen. induction names as [|x rest IH]; intros seen; simpl; [discriminate|].
  destruct (bool_decide (x ∈ seen)) eqn:E.
  - apply bool_decide_eq_true in E. intros [= <-]. split; [left|]. left. exact E.
  - intros H. apply IH in H as [Hin H]. split; [right; exact Hin|].
    destruct H as [H|(before & after & -> & Hb)].
    + apply elem_of_cons in H as [->|H]; [|left; exact H].
      right. apply list_elem_of_split in Hin as (l1 & l2 & ->).
      exists (x :: l1), l2. split; [reflexivity|left].
    + right. exists (x :: before), after. split; [reflexivity|right; exact Hb].
Qed.

(** A method passes only if the names of its top scope are pairwise
    distinct. *)
Lemma methodError_None_NoDup method :
  methodError method = None -> NoDup (topLevelNames method).
Proof.
  unfold methodError, orElse.
  destruct (redeclared [] (topLevelNames method)) eqn:E; [discriminate|].
  intros _. apply redeclared_None in E. exact (proj1 E).
Qed.

(** A class is defined only if every method passes. *)
Lemma evaluate_Defines class globals :
  evaluate class = Defines globals ->
  globals = [c_name class] /\
  forall method, method ∈ c_methods class -> methodError method = None.
Proof.
  unfold evaluate, classError. destruct class as [name methods]. simpl.
  induction methods as [|m rest IH]; simpl.
  - intros [= <-]. split; [reflexivity|]. intros method H.
    apply elem_of_nil in H. destruct H.
  - unfold orElse at 1. destruct (methodError m) eqn:E; [discriminate|].
    intros H. apply IH in H as [-> H]. split; [reflexivity|].
    intros method Hin. apply elem_of_cons in Hin as [->|Hin]; [exact E|exact (H _ Hin)].
Qed.

(** C4: [processMining] never extracts anything.  Its body declares
    [const profiler] twice in the same scope (first and ninth statement), so
    the names of its top scope are not pairwise distinct and the method is
    refused with "Identifier 'profiler' has already been declared"; the
    script is a SyntaxError and the class [MiningSystem] is never defined.
    The second declaration is the only early error: with the ninth statement
    taken out the method passes and the script defines the class. *)
Theorem processMining_declares_profiler_twice :
  lexicallyDeclaredNames (m_body processMining)
    = ["profiler"; "cloneStart"; "newState"; "zones"; "probesByZone";
       "probeAllocationsByZone"; "structuresByZone"; "profiler"] /\
  m_body processMining !! 0%nat = Some (ConstDecl "profiler") /\
  m_body processMining !! 8%nat = Some (ConstDecl "profiler") /\
  ~ NoDup (topLevelNames processMining) /\
  methodError processMining = Some "profiler" /\
  evaluate script = SyntaxError "profiler" /\
  methodError constructor = None /\
  methodError (withoutStatement 8 processMining) = None /\
  evaluate {| c_name := "MiningSystem";
              c_methods := [constructor; withoutStatement 8 processMining] |}
    = Defines ["MiningSystem"].
Proof.
  repeat split; try (vm_compute; reflexivity).
  intros Hnd.
  assert (R : redeclared [] (topLevelNames processMining) = None).
  { apply redeclared_None. split; [exact Hnd|]. intros name _ H.
    apply elem_of_nil in H. destruct H. }
  vm_compute in R. discriminate.
Qed.

End MiningFacts.

(** ** Probe replication *)

Module ProbeFacts.
Import V2 ProbeSystem.





Lemma probeCount_orEmpty (pbz : gmap string (gmap string Q)) z p :
  probeCount pbz z p = JS.orEmpty (pbz !! z) !! p.
Proof. unfold probeCount. destruct (pbz !! z); reflexivity. Qed.



Example replication_scenario :
  let st' := processReplication replicationExample "earth" 250 1 in
  probesAt replicationExample "earth" == 1 /\
  probesAt st' "earth" == 3 /\ progressOf st' == 80.
Proof. vm_compute. repeat split. Qed.

(** *** Replication as driven by [processProbeOperations] *)




End ProbeFacts.

(** ** One-time transfers (engine_v2) *)

Module TransferV2Facts.
Import V2 TransferSystemV2.

Lemma completeTransfer_unfold st t :
  completeTransfer st t =
  (set_probes_by_zone
     (credit (debit (probes_by_zone st) (from_zone t) (transferType t) (transferCount t))
        (to_zone t) (transferType t) (transferCount t)) st,
   set_status "completed" t).
Proof. reflexivity. Qed.

Lemma probeCount_debit_other (pbz : gmap string (gmap string Q)) f pt n z p :
  z <> f \/ p <> pt ->
  probeCount (debit pbz f pt n) z p = probeCount pbz z p.
Proof.
  intros Hne. unfold debit.
  destruct (pbz !! f) as [zp|] eqn:Ef; [|reflexivity].
  destruct (zp !! pt) as [h|] eqn:Eh; [|reflexivity].
  destruct (JS.eqb h 0); [reflexivity|].
  unfold probeCount.
  destruct (decide (z = f)) as [->|Hz].
  - rewrite lookup_insert_eq, Ef.
    destruct Hne as [Hne|Hne]; [congruence|].
    apply lookup_insert_ne. congruence.
  - rewrite lookup_insert_ne by congruence. reflexivity.
Qed.

Lemma held_debit_same (pbz : gmap string (gmap string Q)) f pt n :
  0 <= n ->
  JS.orZero (probeCount (debit pbz f pt n) f pt)
  == JS.Math_max 0 (JS.orZero (probeCount pbz f pt) - n).
Proof.
  intros Hn. unfold debit, probeCount.
  assert (Hz : 0 == JS.Math_max 0 (0 - n)).
  { symmetry. apply JSFacts.max_zero_of_nonpos. lra. }
  destruct (pbz !! f) as [zp|] eqn:Ef; [|rewrite Ef; exact Hz].
  destruct (zp !! pt) as [h|] eqn:Eh; [|rewrite Ef, Eh; exact Hz].
  destruct (JS.eqb h 0) eqn:E0.
  - rewrite Ef, Eh. apply JSFacts.eqb_eq in E0.
    rewrite JSFacts.orZero_Some, E0. exact Hz.
  - rewrite !lookup_insert_eq. rewrite !JSFacts.orZero_Some. reflexivity.
Qed.

Lemma probeCount_credit_other (pbz : gmap string (gmap string Q)) d pt n z p :
  z <> d \/ p <> pt ->
  probeCount (credit pbz d pt n) z p = probeCount pbz z p.
Proof.
  intros Hne. unfold credit, probeCount at 1.
  destruct (decide (z = d)) as [->|Hz].
  - rewrite lookup_insert_eq.
    destruct Hne as [Hne|Hne]; [congruence|].
    rewrite lookup_insert_ne by congruence.
    symmetry. apply ProbeFacts.probeCount_orEmpty.
  - rewrite lookup_insert_ne by congruence. reflexivity.
Qed.

Lemma held_credit_same (pbz : gmap string (gmap string Q)) d pt n :
  JS.orZero (probeCount (credit pbz d pt n) d pt)
  == JS.orZero (probeCount pbz d pt) + n.
Proof.
  unfold credit, probeCount at 1. rewrite !lookup_insert_eq.
  rewrite JSFacts.orZero_Some, ProbeFacts.probeCount_orEmpty. reflexivity.
Qed.

(** The destination always gains the full count, on top of whatever the
    debit left there. *)
Lemma held_complete_dest st t :
  held (completeTransfer st t).1 (to_zone t) (transferType t)
  == JS.orZero (probeCount
        (debit (probes_by_zone st) (from_zone t) (transferType t) (transferCount t))
        (to_zone t) (transferType t))
     + transferCount t.
Proof. rewrite completeTransfer_unfold. unfold held. simpl. apply held_credit_same. Qed.


Lemma held_complete_source st t :
  from_zone t <> to_zone t -> 0 <= transferCount t ->
  held (completeTransfer st t).1 (from_zone t) (transferType t)
  == JS.Math_max 0 (held st (from_zone t) (transferType t) - transferCount t).
Proof.
  intros Hne Hn. rewrite completeTransfer_unfold. unfold held. simpl.
  rewrite probeCount_credit_other by auto.
  apply held_debit_same. exact Hn.
Qed.

Lemma held_complete_dest_distinct st t :
  from_zone t <> to_zone t ->
  held (completeTransfer st t).1 (to_zone t) (transferType t)
  == held st (to_zone t) (transferType t) + transferCount t.
Proof.
  intros Hne. rewrite held_complete_dest.
  rewrite probeCount_debit_other by auto. reflexivity.
Qed.




(** *** The scan and the removal of completed transfers *)

Lemma removeCompleted_shift c x l :
  removeCompleted (List.map S c) (x :: l) = x :: removeCompleted c l.
Proof.
  unfold removeCompleted. rewrite <- List.map_rev.
  generalize (rev c) as r. intros r. revert l.
  induction r as [|a r IH]; intros l; simpl; [reflexivity|]. apply IH.
Qed.

Lemma dueFrom_S now i ts : dueFrom now (S i) ts = List.map S (dueFrom now i ts).
Proof.
  revert i. induction ts as [|t ts IH]; intros i; simpl; [reflexivity|].
  destruct (isDue now t); simpl; rewrite IH; reflexivity.
Qed.

Lemma scanTransfers_spec now ts :
  forall i st,
    scanTransfers now i ts st
    = (arrive now ts st, List.map (mark now) ts, dueFrom now i ts).
Proof.
  induction ts as [|t ts IH]; intros i st; simpl; [reflexivity|].
  unfold mark, isDue.
  destruct (String.eqb (status t) "paused"); simpl.
  - rewrite IH. reflexivity.
  - destruct (JS.leb (arrival_time t) now && String.eqb (status t) "traveling");
      simpl; rewrite IH; reflexivity.
Qed.

Lemma removeCompleted_due now ts :
  removeCompleted (dueFrom now 0 ts) (List.map (mark now) ts)
  = List.filter (fun t => negb (isDue now t)) ts.
Proof.
  induction ts as [|t ts IH]; [reflexivity|].
  simpl. unfold mark at 1. rewrite dueFrom_S.
  destruct (isDue now t); simpl.
  - unfold removeCompleted. simpl. rewrite fold_left_app. simpl.
    fold (removeCompleted (List.map S (dueFrom now 0 ts))
            (set_status "completed" t :: List.map (mark now) ts)).
    rewrite removeCompleted_shift. simpl. exact IH.
  - rewrite removeCompleted_shift, IH. reflexivity.
Qed.

Lemma processTransfers_spec st dt :
  processTransfers st dt
  = set_active_transfers
      (List.filter (fun t => negb (isDue (JS.orZero (time st)) t)) (active_transfers st))
      (arrive (JS.orZero (time st)) (active_transfers st) st).
Proof.
  unfold processTransfers. rewrite scanTransfers_spec, removeCompleted_due.
  reflexivity.
Qed.



(** *** The probe population as a whole *)










(** Five probes become six: earth is emptied, mars receives six. *)
Example total_probes_can_increase :
  let st' := (completeTransfer fiveAtEarth sixToMars).1 in
  totalProbes fiveAtEarth == 5 /\ totalProbes st' == 6 /\
  held st' "earth" "probe" == 0 /\ held st' "mars" "probe" == 6.
Proof. vm_compute. repeat split. Qed.

(** *** Creation, arrival and removal *)

Lemma arrive_keeps_transfers now ts :
  forall st, active_transfers (arrive now ts st) = active_transfers st.
Proof.
  induction ts as [|t ts IH]; intros st; simpl; [reflexivity|].
  rewrite IH. destruct (isDue now t); reflexivity.
Qed.

(** What engine_v2 does with a one-time order: an order the source stock
    cannot cover is refused and the state is returned as it was; an accepted
    order only appends a travelling transfer to the active list and debits
    nothing;
    a tick removes exactly the due transfers from the list and applies
    [completeTransfer] for each, which (between distinct zones) debits the
    source, clamped at zero, and credits the destination in the same step. *)
Theorem one_time_transfer_moves_probes_at_arrival dv tt st a fid :
  let source := a_from_zone a in
  let pt := probeTypeOf a in
  let n := a_probe_count a in
  (held st source pt < n ->
     engineCreateTransfer dv tt st a fid = (Failure "Insufficient probes", st)) /\
  (n <= held st source pt ->
     exists t,
       engineCreateTransfer dv tt st a fid = (Success t, addTransfer st t) /\
       probes_by_zone (addTransfer st t) = probes_by_zone st /\
       active_transfers (addTransfer st t) = (active_transfers st ++ [t])%list /\
       from_zone t = source /\ to_zone t = a_to_zone a /\
       probe_type t = Some pt /\ probe_count t = Some n /\
       status t = "traveling" /\
       arrival_time t
         = JS.orZero (time st) + tt source (a_to_zone a) (propulsion (skills st))) /\
  (forall dt,
     let now := JS.orZero (time st) in
     active_transfers (processTransfers st dt)
       = List.filter (fun t => negb (isDue now t)) (active_transfers st) /\
     probes_by_zone (processTransfers st dt)
       = probes_by_zone (arrive now (active_transfers st) st)) /\
  (forall t, from_zone t <> to_zone t -> 0 <= transferCount t ->
     let st' := (completeTransfer st t).1 in
     held st' (to_zone t) (transferType t)
       == held st (to_zone t) (transferType t) + transferCount t /\
     held st' (from_zone t) (transferType t)
       == JS.Math_max 0 (held st (from_zone t) (transferType t) - transferCount t)).
Proof.
  intros source pt n. subst source pt n.
  assert (Hav : JS.orZero (JS.orEmpty (probes_by_zone st !! a_from_zone a) !! probeTypeOf a)
                = held st (a_from_zone a) (probeTypeOf a)).
  { unfold held. rewrite ProbeFacts.probeCount_orEmpty. reflexivity. }
  split; [|split; [|split]].
  - intros Hlt. unfold engineCreateTransfer. fold (probeTypeOf a). rewrite Hav.
    apply JSFacts.ltb_lt in Hlt. rewrite Hlt. reflexivity.
  - intros Hle. unfold engineCreateTransfer. fold (probeTypeOf a). rewrite Hav.
    apply JSFacts.ltb_ge in Hle. rewrite Hle.
    eexists. split; [reflexivity|]. repeat split.
  - intros dt now. subst now. rewrite processTransfers_spec. simpl. split; reflexivity.
  - intros t Hne Hn st'. subst st'. split.
    + apply held_complete_dest_distinct. exact Hne.
    + apply held_complete_source; assumption.
Qed.

(** The same on three of five probes ordered from earth to mars. *)
Lemma one_time_transfer_witness :
  let source := a_from_zone moveThree in
  let pt := probeTypeOf moveThree in
  let n := a_probe_count moveThree in
  (held fiveAtEarth source pt < n ->
     engineCreateTransfer noCost tenDays fiveAtEarth moveThree "t1"
       = (Failure "Insufficient probes", fiveAtEarth)) /\
  (n <= held fiveAtEarth source pt ->
     exists t,
       engineCreateTransfer noCost tenDays fiveAtEarth moveThree "t1"
         = (Success t, addTransfer fiveAtEarth t) /\
       probes_by_zone (addTransfer fiveAtEarth t) = probes_by_zone fiveAtEarth /\
       active_transfers (addTransfer fiveAtEarth t)
         = (active_transfers fiveAtEarth ++ [t])%list /\
       from_zone t = source /\ to_zone t = a_to_zone moveThree /\
       probe_type t = Some pt /\ probe_count t = Some n /\
       status t = "traveling" /\
       arrival_time t
         = JS.orZero (time fiveAtEarth)
           + tenDays source (a_to_zone moveThree) (propulsion (skills fiveAtEarth))) /\
  (forall dt,
     let now := JS.orZero (time fiveAtEarth) in
     active_transfers (processTransfers fiveAtEarth dt)
       = List.filter (fun t => negb (isDue now t)) (active_transfers fiveAtEarth) /\
     probes_by_zone (processTransfers fiveAtEarth dt)
       = probes_by_zone (arrive now (active_transfers fiveAtEarth) fiveAtEarth)) /\
  (forall t, from_zone t <> to_zone t -> 0 <= transferCount t ->
     let st' := (completeTransfer fiveAtEarth t).1 in
     held st' (to_zone t) (transferType t)
       == held fiveAtEarth (to_zone t) (transferType t) + transferCount t /\
     held st' (from_zone t) (transferType t)
       == JS.Math_max 0 (held fiveAtEarth (from_zone t) (transferType t) - transferCount t)).
Proof.
  exact (one_time_transfer_moves_probes_at_arrival noCost tenDays fiveAtEarth moveThree "t1").
Defined.

(** The claim as the specification words it fails: right after an accepted
    order of three probes, earth still holds all five. *)
Lemma creation_does_not_debit_source :
  ~ debitsAtCreation noCost tenDays fiveAtEarth moveThree "t1".
Proof.
  unfold debitsAtCreation. intros H.
  specialize (H _ _ eq_refl). vm_compute in H. discriminate.
Qed.

(** One order from creation to arrival: the probes leave earth only on the
    tick at day 10, when the transfer also leaves the active list. *)
Example one_time_transfer_scenario :
  let created := (engineCreateTransfer noCost tenDays fiveAtEarth moveThree "t1").2 in
  let early := processTransfers (set_time (Some 9) created) 1 in
  let arrived := processTransfers (set_time (Some 10) created) 1 in
  held created "earth" "probe" == 5 /\ length (active_transfers created) = 1%nat /\
  held early "earth" "probe" == 5 /\ held early "mars" "probe" == 0 /\
  length (active_transfers early) = 1%nat /\
  held arrived "earth" "probe" == 2 /\ held arrived "mars" "probe" == 3 /\
  active_transfers arrived = [].
Proof. vm_compute. repeat split. Qed.

(** An order is not a reservation: two orders of five probes against a
    stock of five are both accepted, and both deliver. *)
Example double_order_duplicates_probes :
  let arrived := processTransfers twoDueTransfers 1 in
  length (active_transfers twoDueTransfers) = 2%nat /\
  totalProbes twoDueTransfers == 5 /\
  held arrived "earth" "probe" == 0 /\ held arrived "mars" "probe" == 10 /\
  totalProbes arrived == 10 /\ active_transfers arrived = [].
Proof. vm_compute. repeat split. Qed.

(** C3 on engine_v2: the specification has the source debited when the
    transfer is created, and the arrival code of engine/ is documented on
    that footing ("Resources should already be removed from source at
    departure").  [engineCreateTransfer] only compares the stock with the
    order and appends the transfer.  On a stock of five probes an order of
    five is accepted and earth still holds five, so a second order of five is
    accepted as well; once both have arrived mars holds ten probes, twice
    what the system had. *)
Theorem creation_checks_stock_without_debit :
  let first := engineCreateTransfer noCost tenDays fiveAtEarth moveFive "t1" in
  let second := engineCreateTransfer noCost tenDays first.2 moveFive "t2" in
  let arrived := processTransfers (set_time (Some 10) second.2) 1 in
  totalProbes fiveAtEarth == 5 /\
  (exists t, first.1 = Success t /\ probe_count t = Some 5) /\
  held first.2 "earth" "probe" == 5 /\
  (exists t, second.1 = Success t /\ probe_count t = Some 5) /\
  held second.2 "earth" "probe" == 5 /\
  length (active_transfers second.2) = 2%nat /\
  held arrived "earth" "probe" == 0 /\ held arrived "mars" "probe" == 10 /\
  totalProbes arrived == 10 /\ active_transfers arrived = [].
Proof.
  cbv zeta. repeat split; try (vm_compute; reflexivity).
  all: eexists; split; vm_compute; reflexivity.
Qed.

(** *** Whole ticks of the transfer system *)

Lemma completeTransfer_fields st t :
  time (completeTransfer st t).1 = time st /\
  active_transfers (completeTransfer st t).1 = active_transfers st /\
  metal (completeTransfer st t).1 = metal st.
Proof. repeat split. Qed.

Lemma arrive_time now ts : forall st, time (arrive now ts st) = time st.
Proof.
  induction ts as [|t ts IH]; intros st; simpl; [reflexivity|].
  rewrite IH. destruct (isDue now t); reflexivity.
Qed.

Lemma arrive_none_due now ts :
  forall st, List.forallb (fun t => negb (isDue now t)) ts = true ->
             arrive now ts st = st.
Proof.
  induction ts as [|t ts IH]; intros st H; simpl in *; [reflexivity|].
  apply andb_prop in H as [H1 H2]. apply negb_true_iff in H1. rewrite H1.
  apply IH. exact H2.
Qed.

Lemma filter_all_pass {A} (f : A -> bool) l :
  List.forallb f (List.filter f l) = true.
Proof.
  induction l as [|x l IH]; simpl; [reflexivity|].
  destruct (f x) eqn:E; simpl; [rewrite E|]; exact IH.
Qed.

Lemma filter_fixed {A} (f : A -> bool) l :
  List.forallb f l = true -> List.filter f l = l.
Proof.
  induction l as [|x l IH]; simpl; [reflexivity|].
  intros H. apply andb_prop in H as [H1 H2]. rewrite H1, IH by exact H2. reflexivity.
Qed.

(** A tick of the transfer system drops exactly the due transfers: what
    stays was there before and is not due, a paused transfer always stays,
    and a second tick at the same clock reading changes nothing. *)
Theorem processTransfers_removes_due_once st dt dt' :
  let now := JS.orZero (time st) in
  let st' := processTransfers st dt in
  (forall t, List.In t (active_transfers st') <->
             List.In t (active_transfers st) /\ isDue now t = false) /\
  (forall t, List.In t (active_transfers st) -> status t = "paused" ->
             List.In t (active_transfers st')) /\
  time st' = time st /\
  processTransfers st' dt' = st'.
Proof.
  intros now st'. subst now st'. rewrite processTransfers_spec.
  set (now := JS.orZero (time st)). set (ts := active_transfers st).
  split; [|split; [|split]].
  - intros t. simpl. rewrite List.filter_In, negb_true_iff. reflexivity.
  - intros t Hin Hp. simpl. apply List.filter_In. split; [exact Hin|].
    unfold isDue. rewrite Hp. reflexivity.
  - simpl. apply arrive_time.
  - rewrite processTransfers_spec. simpl. rewrite arrive_time. fold now.
    rewrite (filter_fixed _ _ (filter_all_pass _ ts)).
    rewrite arrive_none_due by apply filter_all_pass.
    reflexivity.
Qed.




Lemma countsNonNegative_addTransfer st t :
  countsNonNegative st -> countsNonNegative (addTransfer st t).
Proof. intros H z p. exact (H z p). Qed.


End TransferV2Facts.

(** ** Energy balance and throttle *)

Module EnergyFacts.

Lemma ratio_pos p c : 0 < p -> 0 < c -> 0 < p / c.
Proof. intros Hp Hc. apply Qlt_shift_div_l; [exact Hc|]. lra. Qed.

Section Current.

Import V1 EnergyCalculator.

Variable calculateUpgradeFactorFromCoefficients : string -> Skills -> Q.
Variable Math_pow : Q -> Q -> Q.

(** The calculator of [engine/] follows the three cases of the
    specification, for every state, catalogue, skill set and Dyson supply,
    and whatever the upgrade factor and the power function return. *)
Lemma current_throttle_cases st b sk dyson :
  let e := calculateEnergyBalance calculateUpgradeFactorFromCoefficients Math_pow
             st b sk dyson in
  0 <= throttle e <= 1 /\
  (consumption e == 0 -> throttle e = 1) /\
  (production e == 0 -> 0 < consumption e -> throttle e = 0) /\
  (0 < production e -> 0 < consumption e ->
     throttle e = JS.Math_min 1 (production e / consumption e)).
Proof.
  intros e. subst e. unfold calculateEnergyBalance. simpl.
  set (p := _ + _ + _ + dyson).
  set (c := calculateProbeEnergyConsumption _ _ _ _ + _).
  destruct (JS.ltb 0 c) eqn:Ec.
  - apply JSFacts.ltb_lt in Ec.
    destruct (JS.ltb 0 p) eqn:Ep.
    + apply JSFacts.ltb_lt in Ep.
      pose proof (ratio_pos p c Ep Ec) as Hr.
      repeat split.
      * apply JSFacts.min_glb; lra.
      * apply JSFacts.min_le_l.
      * intros H. lra.
      * intros H. lra.
    + apply JSFacts.ltb_ge in Ep.
      repeat split; try lra; intros; lra.
  - apply JSFacts.ltb_ge in Ec.
    repeat split; try lra; intros; lra.
Qed.

End Current.

Section Legacy.

Import V2 EnergyCalculatorV2.

Lemma legacy_throttle_is_throttleOf st b sk dyson :
  let e := calculateEnergyBalance st b sk dyson in
  throttle e = throttleOf (production e) (consumption e).
Proof. reflexivity. Qed.

Lemma legacy_throttle_bounds p c : 0 <= throttleOf p c <= 1.
Proof.
  unfold throttleOf. destruct (JS.ltb 0 p) eqn:Ep; [|lra].
  apply JSFacts.ltb_lt in Ep.
  assert (Hm : 0 < JS.Math_max 1 c).
  { pose proof (JSFacts.max_le_l 1 c). lra. }
  pose proof (ratio_pos p _ Ep Hm). split.
  - apply JSFacts.min_glb; lra.
  - apply JSFacts.min_le_l.
Qed.

(** C1 on the engine_v2 calculator: with no production and no consumption
    the throttle comes out as 0, where the specification (and the
    calculator of [engine/]) gives 1. *)
Theorem legacy_throttle_zero_when_idle :
  let e := calculateEnergyBalance idleState MiningSystem.noBuildings
             DysonSystem.unitSkills 0 in
  production e == 0 /\ consumption e == 0 /\ throttle e == 0 /\ ~ throttle e == 1.
Proof. vm_compute. repeat split; discriminate. Qed.

(** Below one watt of consumption the guard [Math.max(1, _)] also changes
    the quotient. *)
Example legacy_throttle_small_consumption :
  throttleOf (1#4) (1#2) == 1#4 /\ JS.Math_min 1 ((1#4) / (1#2)) == 1#2.
Proof. vm_compute. split; reflexivity. Qed.

(** The engine_v2 calculator keeps the throttle in [0,1] for every state;
    it returns 0 whenever production is not positive, and agrees with
    [min(1, production / consumption)] once consumption is at least one
    watt. *)
Theorem legacy_throttle_bounded_and_agrees_above_one_watt st b sk dyson :
  let e := calculateEnergyBalance st b sk dyson in
  0 <= throttle e <= 1 /\
  (production e <= 0 -> throttle e = 0) /\
  (0 < production e -> 1 <= consumption e ->
     throttle e == JS.Math_min 1 (production e / consumption e)) /\
  net e = production e - consumption e /\
  consumption e = probeConsumption e + structureConsumption e.
Proof.
  intros e. subst e. unfold calculateEnergyBalance. simpl.
  set (p := calculateEnergyProduction _ _ _ + dyson).
  set (c := calculateProbeEnergyConsumption _ _ _ + _).
  split; [apply legacy_throttle_bounds|].
  split; [|split; [|split; reflexivity]].
  - intros Hp. unfold throttleOf. apply JSFacts.ltb_ge in Hp. rewrite Hp. reflexivity.
  - intros Hp Hc. unfold throttleOf. apply JSFacts.ltb_lt in Hp. rewrite Hp.
    assert (Hm : JS.Math_max 1 c == c) by (apply Q.max_r; exact Hc).
    unfold JS.Math_min.
    apply Q.min_compat; [reflexivity|].
    unfold Qdiv. rewrite Hm. reflexivity.
Qed.

End Legacy.

End EnergyFacts.

(** ** Structure inventory *)

Module StructureFacts.
Import V2 StructureSystem.

Lemma built_addStructure st z sid count :
  built (addStructure st z sid count) z sid == built st z sid + orOne count.
Proof.
  unfold built, addStructure. simpl. rewrite !lookup_insert_eq. simpl.
  rewrite lookup_insert_eq. apply JSFacts.orZero_Some.
Qed.

Lemma built_addStructure_other st z sid count z' sid' :
  z' <> z \/ sid' <> sid ->
  built (addStructure st z sid count) z' sid' = built st z' sid'.
Proof.
  intros H. unfold built, addStructure. simpl.
  destruct (decide (z' = z)) as [->|Hz].
  - rewrite lookup_insert_eq. simpl.
    destruct H as [H|H]; [congruence|].
    rewrite lookup_insert_ne by congruence. reflexivity.
  - rewrite lookup_insert_ne by congruence. reflexivity.
Qed.

Lemma built_removeStructure st z sid count :
  0 <= orOne count ->
  built (removeStructure st z sid count) z sid
  == JS.Math_max 0 (built st z sid - orOne count).
Proof.
  intros Hc. unfold built, removeStructure. fold (orOne count).
  assert (Hz : 0 == JS.Math_max 0 (0 - orOne count)).
  { symmetry. apply JSFacts.max_zero_of_nonpos. lra. }
  destruct (structures_by_zone st !! z) as [zs|] eqn:Ez; [|rewrite Ez; exact Hz].
  destruct (zs !! sid) as [b|] eqn:Eb; [|rewrite Ez; simpl; rewrite Eb; exact Hz].
  destruct (JS.eqb b 0) eqn:E0.
  - rewrite Ez. simpl. rewrite Eb. apply JSFacts.eqb_eq in E0.
    rewrite JSFacts.orZero_Some, E0. exact Hz.
  - simpl. rewrite !lookup_insert_eq. simpl. rewrite lookup_insert_eq, Eb.
    rewrite JSFacts.orZero_Some, (JSFacts.orZero_Some_truthy b E0). reflexivity.
Qed.

Lemma built_removeStructure_other st z sid count z' sid' :
  z' <> z \/ sid' <> sid ->
  built (removeStructure st z sid count) z' sid' = built st z' sid'.
Proof.
  intros H. unfold built, removeStructure.
  destruct (structures_by_zone st !! z) as [zs|] eqn:Ez; [|reflexivity].
  destruct (zs !! sid) as [b|] eqn:Eb; [|reflexivity].
  destruct (JS.eqb b 0); [reflexivity|]. simpl.
  destruct (decide (z' = z)) as [->|Hz].
  - rewrite lookup_insert_eq, Ez. simpl.
    destruct H as [H|H]; [congruence|].
    rewrite lookup_insert_ne by congruence. reflexivity.
  - rewrite lookup_insert_ne by congruence. reflexivity.
Qed.

(** Removing what was just added restores the count; a removal never
    leaves a negative count, takes at most [count], and changes no other
    entry; on a structure the zone does not have it returns the state
    unchanged. *)
Theorem removeStructure_undoes_addStructure st z sid count :
  0 <= orOne count -> 0 <= built st z sid ->
  built (removeStructure (addStructure st z sid count) z sid count) z sid
    == built st z sid /\
  0 <= built (removeStructure st z sid count) z sid <= built st z sid /\
  built st z sid - built (removeStructure st z sid count) z sid <= orOne count /\
  (built st z sid == 0 -> removeStructure st z sid count = st) /\
  (forall z' sid', z' <> z \/ sid' <> sid ->
     built (removeStructure st z sid count) z' sid' = built st z' sid').
Proof.
  intros Hc Hb.
  pose proof (built_removeStructure st z sid count Hc) as Hr.
  pose proof (built_removeStructure (addStructure st z sid count) z sid count Hc) as Hra.
  pose proof (built_addStructure st z sid count) as Ha.
  split; [|split; [|split; [|split]]].
  - rewrite Hra, Ha.
    setoid_replace (built st z sid + orOne count - orOne count) with (built st z sid)
      using relation Qeq by ring.
    apply JSFacts.max_zero_of_nonneg. exact Hb.
  - rewrite Hr. split; [apply JSFacts.max_le_l|].
    apply Q.max_lub; lra.
  - rewrite Hr.
    pose proof (JSFacts.max_le_r 0 (built st z sid - orOne count)). lra.
  - intros H0. unfold removeStructure. unfold built in H0.
    destruct (structures_by_zone st !! z) as [zs|] eqn:Ez; [|reflexivity].
    simpl in H0.
    destruct (zs !! sid) as [b|] eqn:Eb; [|reflexivity].
    rewrite JSFacts.orZero_Some in H0.
    apply JSFacts.eqb_eq in H0. rewrite H0. reflexivity.
  - intros z' sid' H. apply built_removeStructure_other. exact H.
Qed.

(** Witness: two stations added to and removed from a zone without any. *)
Lemma removeStructure_witness :
  built (removeStructure (addStructure TransferSystemV2.fiveAtEarth "earth" "mining_station" (Some 2))
           "earth" "mining_station" (Some 2)) "earth" "mining_station"
    == built TransferSystemV2.fiveAtEarth "earth" "mining_station" /\
  0 <= built (removeStructure TransferSystemV2.fiveAtEarth "earth" "mining_station" (Some 2))
         "earth" "mining_station"
    <= built TransferSystemV2.fiveAtEarth "earth" "mining_station" /\
  built TransferSystemV2.fiveAtEarth "earth" "mining_station"
    - built (removeStructure TransferSystemV2.fiveAtEarth "earth" "mining_station" (Some 2))
        "earth" "mining_station" <= orOne (Some 2) /\
  (built TransferSystemV2.fiveAtEarth "earth" "mining_station" == 0 ->
     removeStructure TransferSystemV2.fiveAtEarth "earth" "mining_station" (Some 2)
       = TransferSystemV2.fiveAtEarth) /\
  (forall z' sid', z' <> "earth" \/ sid' <> "mining_station" ->
     built (removeStructure TransferSystemV2.fiveAtEarth "earth" "mining_station" (Some 2)) z' sid'
       = built TransferSystemV2.fiveAtEarth z' sid').
Proof.
  apply (removeStructure_undoes_addStructure TransferSystemV2.fiveAtEarth
           "earth" "mining_station" (Some 2)); vm_compute; discriminate.
Defined.

End StructureFacts.

(** ** Purchases and allocations (engine_v2 actions) *)

Module EngineFacts.
Import OrbitalMechanics V2 StructureSystem TransferSystemV2 EngineV2.



(** *** The catalogue search *)

Lemma find_some_id items buildingId b :
  List.find (fun b => String.eqb (p_id b) buildingId) items = Some b ->
  p_id b = buildingId /\ List.In b items.
Proof.
  intros H. apply List.find_some in H as [Hin He].
  apply String.eqb_eq in He. split; assumption.
Qed.

Lemma find_none_id items buildingId :
  List.find (fun b => String.eqb (p_id b) buildingId) items = None ->
  forall b, List.In b items -> p_id b <> buildingId.
Proof.
  intros H b Hin He.
  pose proof (List.find_none _ _ H b Hin) as Hf. simpl in Hf.
  apply String.eqb_neq in Hf. contradiction.
Qed.

(** [findBuilding] answers with a definition of the requested id taken from
    one of the categories, and answers nothing only when the data is not
    loaded or no category holds that id. *)
Theorem findBuilding_sound_and_complete buildings buildingId :
  (forall b, findBuilding buildings buildingId = Some b ->
     p_id b = buildingId /\
     exists categories category items,
       buildings = Some categories /\
       List.In (category, items) categories /\ List.In b items) /\
  (findBuilding buildings buildingId = None <->
     forall categories, buildings = Some categories ->
       forall category items b,
         List.In (category, items) categories -> List.In b items ->
         p_id b <> buildingId).
Proof.
  destruct buildings as [categories|]; simpl.
  2:{ split; [discriminate|]. split; [discriminate | reflexivity]. }
  induction categories as [|[c items] rest IH].
  - split; [discriminate|]. split; [|reflexivity].
    intros _ cs Hcs. inversion Hcs; subst cs. intros ? ? ? [].
  - destruct IH as [IHs IHn].
    destruct (List.find (fun b => String.eqb (p_id b) buildingId) items) as [b0|] eqn:Ef.
    + split.
      * intros b Hb. inversion Hb; subst b0.
        destruct (find_some_id _ _ _ Ef) as [Hid Hin]. split; [exact Hid|].
        exists ((c, items) :: rest), c, items.
        split; [reflexivity|]. split; [left; reflexivity | exact Hin].
      * split; [discriminate|].
        intros H. exfalso.
        destruct (find_some_id _ _ _ Ef) as [Hid Hin].
        apply (H _ eq_refl c items b0); [left; reflexivity | exact Hin | exact Hid].
    + split.
      * intros b Hb. destruct (IHs b Hb) as (Hid & cs & c' & items' & Hcs & Hin & Hinb).
        split; [exact Hid|]. inversion Hcs; subst cs.
        exists ((c, items) :: rest), c', items'.
        split; [reflexivity|]. split; [right; exact Hin | exact Hinb].
      * rewrite IHn. split.
        -- intros H cs Hcs. inversion Hcs; subst cs.
           intros c' items' b [Heq|Hin] Hinb.
           ++ inversion Heq; subst c' items'. apply (find_none_id _ _ Ef). exact Hinb.
           ++ apply (H rest eq_refl c' items' b Hin Hinb).
        -- intros H cs Hcs. inversion Hcs; subst cs.
           intros c' items' b Hin Hinb.
           apply (H _ eq_refl c' items' b); [right; exact Hin | exact Hinb].
Qed.



Example purchaseStructure_scenario :
  exists st',
    purchaseStructure exampleCatalogue fiveAtEarth buyStation = Some (Purchased, st') /\
    DysonSystem.metalOf st' == 400 /\ built st' "earth" "mining_station" == 3.
Proof. eexists. split; [reflexivity|]. vm_compute. split; reflexivity. Qed.

(** *** Allocations *)

Lemma clampFraction_bounds x : 0 <= clampFraction x <= 1.
Proof.
  unfold clampFraction. split; [apply JSFacts.max_le_l|].
  apply Q.max_lub; [lra | apply JSFacts.min_le_l].
Qed.

Lemma clampFraction_id x : 0 <= x <= 1 -> clampFraction x == x.
Proof.
  intros [H0 H1]. unfold clampFraction, JS.Math_min, JS.Math_max.
  rewrite (Q.min_r 1 x) by exact H1. apply Q.max_r. exact H0.
Qed.

Lemma clamp_fold_lookup (base allocations : gmap string Q) key :
  map_fold (fun key value acc => <[key := clampFraction value]> acc) base allocations
    !! key
  = match allocations !! key with
    | Some v => Some (clampFraction v)
    | None => base !! key
    end.
Proof.
  revert key.
  apply (map_fold_weak_ind
           (fun r m => forall key,
              r !! key = match m !! key with
                         | Some v => Some (clampFraction v)
                         | None => base !! key
                         end)).
  - intros key. rewrite lookup_empty. reflexivity.
  - intros i x m r Hi IH key.
    destruct (decide (key = i)) as [->|Hne].
    + rewrite !lookup_insert_eq. reflexivity.
    + rewrite !lookup_insert_ne by congruence. apply IH.
Qed.

(** [allocateProbes] stores every requested fraction clamped into [0,1],
    keeps the zone's other activities and every other zone as they were,
    and stores a fraction that already lies in [0,1] unchanged. *)
Theorem allocateProbes_clamps_into_unit_interval st zone_id allocations :
  let st' := allocateProbes st zone_id allocations in
  (forall key v, allocations !! key = Some v ->
     allocationsOf st' zone_id !! key = Some (clampFraction v) /\
     0 <= clampFraction v <= 1 /\
     (0 <= v <= 1 -> clampFraction v == v)) /\
  (forall key, allocations !! key = None ->
     allocationsOf st' zone_id !! key = allocationsOf st zone_id !! key) /\
  (forall z, z <> zone_id ->
     probe_allocations_by_zone st' !! z = probe_allocations_by_zone st !! z) /\
  probes_by_zone st' = probes_by_zone st /\ metal st' = metal st.
Proof.
  intros st'. subst st'. unfold allocateProbes, allocationsOf. simpl.
  rewrite lookup_insert_eq. simpl.
  split; [|split; [|split; [|split]]].
  - intros key v Hv. rewrite clamp_fold_lookup, Hv.
    split; [reflexivity|]. split; [apply clampFraction_bounds|apply clampFraction_id].
  - intros key Hk. rewrite clamp_fold_lookup, Hk. reflexivity.
  - intros z Hz. apply lookup_insert_ne. congruence.
  - reflexivity.
  - reflexivity.
Qed.

(** *** Initialisation *)

Lemma zoneEntry_app zs zs' zoneId :
  zoneEntry (zs ++ zs')%list zoneId
  = match zoneEntry zs zoneId with
    | Some z => Some z
    | None => zoneEntry zs' zoneId
    end.
Proof.
  induction zs as [|[k z] zs IH]; simpl; [reflexivity|].
  destruct (String.eqb k zoneId); [reflexivity | exact IH].
Qed.

Lemma zoneStep_lookup zs d zoneId :
  zoneEntry (zoneStep zs d) zoneId
  = match zoneEntry zs zoneId with
    | Some z => Some z
    | None => if String.eqb (z_id d) zoneId then Some (freshZoneOf d) else None
    end.
Proof.
  unfold zoneStep.
  destruct (zoneEntry zs (z_id d)) as [z0|] eqn:E.
  - destruct (zoneEntry zs zoneId) eqn:E'; [reflexivity|].
    destruct (String.eqb (z_id d) zoneId) eqn:Eq; [|reflexivity].
    apply String.eqb_eq in Eq. congruence.
  - rewrite zoneEntry_app. simpl.
    destruct (zoneEntry zs zoneId); reflexivity.
Qed.

Lemma zoneFold_lookup ds : forall zs zoneId,
  zoneEntry (fold_left zoneStep ds zs) zoneId
  = match zoneEntry zs zoneId with
    | Some z => Some z
    | None => option_map freshZoneOf
                (List.find (fun z => String.eqb (z_id z) zoneId) ds)
    end.
Proof.
  induction ds as [|d ds IH]; intros zs zoneId; simpl.
  - destruct (zoneEntry zs zoneId); reflexivity.
  - rewrite IH, zoneStep_lookup.
    destruct (zoneEntry zs zoneId); [reflexivity|].
    destruct (String.eqb (z_id d) zoneId); reflexivity.
Qed.

Lemma zoneFold_fixed ds : forall zs,
  (forall d, List.In d ds -> zoneEntry zs (z_id d) <> None) ->
  fold_left zoneStep ds zs = zs.
Proof.
  induction ds as [|d ds IH]; intros zs H; simpl; [reflexivity|].
  assert (Hd : zoneStep zs d = zs).
  { unfold zoneStep. destruct (zoneEntry zs (z_id d)) eqn:E; [reflexivity|].
    exfalso. apply (H d); [left; reflexivity | exact E]. }
  rewrite Hd. apply IH. intros d' Hin. apply H. right. exact Hin.
Qed.

Lemma initializeZones_unfold reg st :
  initializeZones reg st
  = match reg with
    | None => st
    | Some ds => set_zones (fold_left zoneStep ds (zones st)) st
    end.
Proof. reflexivity. Qed.

(** [initializeZones] keeps every zone record the state already has, gives
    each zone of the registry that is missing a fresh record built from the
    descriptor [getZone] returns for it, and running it a second time
    changes nothing. *)
Theorem initializeZones_adds_missing_only reg st :
  let st' := initializeZones reg st in
  (forall zoneId z, zoneEntry (zones st) zoneId = Some z ->
     zoneEntry (zones st') zoneId = Some z) /\
  (forall zoneId, zoneEntry (zones st) zoneId = None ->
     zoneEntry (zones st') zoneId = option_map freshZoneOf (getZone reg zoneId)) /\
  initializeZones reg st' = st'.
Proof.
  intros st'. subst st'. rewrite initializeZones_unfold.
  destruct reg as [ds|]; simpl.
  2:{ split; [auto|]. split; [|reflexivity]. intros z H. rewrite H. reflexivity. }
  split; [|split].
  - intros zoneId z H. rewrite zoneFold_lookup, H. reflexivity.
  - intros zoneId H. rewrite zoneFold_lookup, H. reflexivity.
  - rewrite zoneFold_fixed; [destruct st; reflexivity|].
    intros d Hin. rewrite zoneFold_lookup.
    destruct (zoneEntry (zones st) (z_id d)); [discriminate|].
    destruct (List.find (fun z => String.eqb (z_id z) (z_id d)) ds) eqn:Ef;
      [discriminate|].
    exfalso. pose proof (List.find_none _ _ Ef d Hin) as Hn. simpl in Hn.
    rewrite String.eqb_refl in Hn. discriminate.
Qed.

Lemma allocationStep_lookup allocs d zoneId :
  allocationStep allocs d !! zoneId
  = match allocs !! zoneId with
    | Some a => Some a
    | None => if String.eqb (z_id d) zoneId then Some (defaultAllocationOf d) else None
    end.
Proof.
  assert (Hs : allocs !! z_id d = None ->
            allocationStep allocs d = <[z_id d := defaultAllocationOf d]> allocs).
  { intros E. unfold allocationStep, defaultAllocationOf. rewrite E.
    destruct (match is_dyson_zone d with Some b => b | None => false end); reflexivity. }
  destruct (allocs !! z_id d) as [a0|] eqn:E.
  - unfold allocationStep. rewrite E.
    destruct (allocs !! zoneId) eqn:E'; [reflexivity|].
    destruct (String.eqb (z_id d) zoneId) eqn:Eq; [|reflexivity].
    apply String.eqb_eq in Eq. congruence.
  - rewrite (Hs eq_refl). destruct (String.eqb (z_id d) zoneId) eqn:Eq.
    + apply String.eqb_eq in Eq. subst zoneId.
      rewrite lookup_insert_eq, E. reflexivity.
    + apply String.eqb_neq in Eq. rewrite lookup_insert_ne by exact Eq.
      destruct (allocs !! zoneId); reflexivity.
Qed.

Lemma allocationFold_lookup ds : forall allocs zoneId,
  fold_left allocationStep ds allocs !! zoneId
  = match allocs !! zoneId with
    | Some a => Some a
    | None => option_map defaultAllocationOf
                (List.find (fun z => String.eqb (z_id z) zoneId) ds)
    end.
Proof.
  induction ds as [|d ds IH]; intros allocs zoneId; simpl.
  - destruct (allocs !! zoneId); reflexivity.
  - rewrite IH, allocationStep_lookup.
    destruct (allocs !! zoneId); [reflexivity|].
    destruct (String.eqb (z_id d) zoneId); reflexivity.
Qed.

Lemma allocationFold_fixed ds : forall allocs,
  (forall d, List.In d ds -> allocs !! z_id d <> None) ->
  fold_left allocationStep ds allocs = allocs.
Proof.
  induction ds as [|d ds IH]; intros allocs H; simpl; [reflexivity|].
  assert (Hd : allocationStep allocs d = allocs).
  { unfold allocationStep. destruct (allocs !! z_id d) eqn:E; [reflexivity|].
    exfalso. apply (H d); [left; reflexivity | exact E]. }
  rewrite Hd. apply IH. intros d' Hin. apply H. right. exact Hin.
Qed.

Lemma initialProbesOf_truthy config : JS.eqb (initialProbesOf config) 0 = false.
Proof.
  unfold initialProbesOf, JS.orDefault, JS.eqb.
  destruct (initial_probes config) as [x|]; [|reflexivity].
  destruct (Qeq_bool x 0) eqn:E; [reflexivity | exact E].
Qed.

Lemma initializeProbes_unfold reg config st :
  initializeProbes reg config st
  = set_probe_allocations_by_zone
      (fold_left allocationStep (match reg with Some zs => zs | None => [] end)
         (probe_allocations_by_zone st))
      (set_probes_by_zone (seededProbes config (probes_by_zone st)) st).
Proof. reflexivity. Qed.

Lemma seededProbes_held config pbz :
  JS.orZero (probeCount (seededProbes config pbz) (defaultZoneOf config) "probe")
  = if JS.eqb (JS.orZero (probeCount pbz (defaultZoneOf config) "probe")) 0
    then initialProbesOf config
    else JS.orZero (probeCount pbz (defaultZoneOf config) "probe").
Proof.
  unfold seededProbes, probeCount.
  destruct (pbz !! defaultZoneOf config) as [zp|] eqn:E.
  - destruct (JS.eqb (JS.orZero (zp !! "probe")) 0) eqn:E0.
    + rewrite lookup_insert_eq, lookup_insert_eq.
      apply JSFacts.orZero_Some_truthy, initialProbesOf_truthy.
    + rewrite E. reflexivity.
  - rewrite lookup_insert_eq, lookup_singleton_eq.
    change (JS.eqb (JS.orZero None) 0) with true. cbv iota.
    apply JSFacts.orZero_Some_truthy, initialProbesOf_truthy.
Qed.

Lemma seededProbes_idempotent config pbz :
  seededProbes config (seededProbes config pbz) = seededProbes config pbz.
Proof.
  pose proof (seededProbes_held config pbz) as H.
  assert (Hnz : JS.eqb (JS.orZero (probeCount (seededProbes config pbz)
                          (defaultZoneOf config) "probe")) 0 = false).
  { rewrite H.
    destruct (JS.eqb (JS.orZero (probeCount pbz (defaultZoneOf config) "probe")) 0) eqn:E;
      [apply initialProbesOf_truthy | exact E]. }
  unfold seededProbes at 1. unfold probeCount in Hnz.
  destruct (seededProbes config pbz !! defaultZoneOf config) as [zp|] eqn:E.
  - rewrite Hnz. reflexivity.
  - discriminate Hnz.
Qed.

(** [initializeProbes] leaves existing allocations alone and gives every
    registry zone without one the default split (all on the sphere for the
    Dyson zone, 0.5/0.3/0.2 otherwise), each summing to 1; it seeds the
    default zone with the initial probes whenever that zone holds none,
    also when its count has dropped to 0, and leaves a non-zero count as
    it is; running it twice is the same as running it once. *)
Theorem initializeProbes_seeds_and_defaults reg config st :
  let st' := initializeProbes reg config st in
  let home := defaultZoneOf config in
  (forall zoneId a, probe_allocations_by_zone st !! zoneId = Some a ->
     probe_allocations_by_zone st' !! zoneId = Some a) /\
  (forall zoneId, probe_allocations_by_zone st !! zoneId = None ->
     probe_allocations_by_zone st' !! zoneId
       = option_map defaultAllocationOf (getZone reg zoneId)) /\
  (forall d, JS.sumValues (defaultAllocationOf d) == 1) /\
  (held st home "probe" == 0 -> held st' home "probe" = initialProbesOf config) /\
  (~ held st home "probe" == 0 -> probes_by_zone st' = probes_by_zone st) /\
  ~ held st' home "probe" == 0 /\
  initializeProbes reg config st' = st'.
Proof.
  intros st' home. subst st' home. rewrite initializeProbes_unfold.
  split; [|split; [|split; [|split; [|split; [|split]]]]].
  - intros zoneId a H. simpl. rewrite allocationFold_lookup, H. reflexivity.
  - intros zoneId H. simpl. rewrite allocationFold_lookup, H.
    destruct reg; reflexivity.
  - intros d. unfold defaultAllocationOf.
    destruct (match is_dyson_zone d with Some b => b | None => false end);
      vm_compute; reflexivity.
  - intros H0. unfold held. simpl. rewrite seededProbes_held.
    apply JSFacts.eqb_eq in H0. unfold held in H0. rewrite H0. reflexivity.
  - intros Hn. simpl. unfold seededProbes.
    unfold held, probeCount in Hn.
    destruct (probes_by_zone st !! defaultZoneOf config) as [zp|] eqn:E.
    + destruct (JS.eqb (JS.orZero (zp !! "probe")) 0) eqn:E0; [|reflexivity].
      apply JSFacts.eqb_eq in E0. contradiction.
    + exfalso. apply Hn. reflexivity.
  - unfold held. simpl. rewrite seededProbes_held.
    destruct (JS.eqb (JS.orZero (probeCount (probes_by_zone st) (defaultZoneOf config) "probe")) 0) eqn:E.
    + intros H. apply JSFacts.eqb_eq in H. rewrite initialProbesOf_truthy in H. discriminate.
    + intros H. apply JSFacts.eqb_eq in H. congruence.
  - rewrite initializeProbes_unfold. simpl.
    rewrite seededProbes_idempotent.
    rewrite allocationFold_fixed; [reflexivity|].
    intros d Hin. rewrite allocationFold_lookup.
    destruct (probe_allocations_by_zone st !! z_id d); [discriminate|].
    destruct reg as [ds|]; [|destruct Hin].
    destruct (List.find (fun z => String.eqb (z_id z) (z_id d)) ds) eqn:Ef;
      [discriminate|].
    exfalso. pose proof (List.find_none _ _ Ef d Hin) as Hf. simpl in Hf.
    rewrite String.eqb_refl in Hf. discriminate.
Qed.

End EngineFacts.

(** ** Slag recycling *)

Module RecyclingFacts.
Import V2 RecyclingSystem.

Section Recycling.

Variable calculateProbeRecycleSpeed : Skills -> Q.
Variable calculateSalvageEfficiency : Skills -> Q.


End Recycling.



(** Two probes at 50 kg/day each take 100 kg of slag; three quarters of it
    come back as metal, in the zone and in the global pool. *)
Example recycling_scenario :
  let st' := processRecycling fiftyPerProbe threeQuarters slagState 1
               DysonSystem.unitSkills in
  match zones st' with
  | [ (zoneId, zone') ] =>
      JS.orZero (slag_produced zone') == 225 /\ JS.orZero (metal_remaining zone') == 85
  | _ => False
  end /\ JS.orZero (metal st') == 75.
Proof. vm_compute. repeat split. Qed.

End RecyclingFacts.

(** ** Zone registry lookups *)

Module RegistryFacts.
Import OrbitalMechanics.

Lemma getZone_id reg zoneId z : getZone reg zoneId = Some z -> z_id z = zoneId.
Proof.
  destruct reg as [zs|]; simpl; [|discriminate].
  intros H. apply List.find_some in H as [_ H].
  apply String.eqb_eq in H. exact H.
Qed.

(** The zone getters answer safely on every input: an unknown zone (or a
    registry not yet loaded) has metallicity 0, mining multiplier 1 and is
    not the Dyson zone; a zone without mass has metallicity 0 rather than a
    division by zero; a multiplier of 0 is read as 1, so the multiplier is
    never 0; metal within the total mass gives a metallicity in [0,1];
    and a zone that is found carries the id asked for. *)
Theorem zone_getters_default_safely reg zoneId :
  (getZone reg zoneId = None ->
     getZoneMetallicity reg zoneId = 0 /\
     getZoneMiningMultiplier reg zoneId = 1 /\
     isDysonZone reg zoneId = false) /\
  (forall zone, getZone reg zoneId = Some zone ->
     z_id zone = zoneId /\
     (JS.orZero (total_mass_kg zone) == 0 -> getZoneMetallicity reg zoneId = 0) /\
     (0 <= JS.orZero (metal_stores_kg zone) <= JS.orZero (total_mass_kg zone) ->
        0 <= getZoneMetallicity reg zoneId <= 1)) /\
  ~ getZoneMiningMultiplier reg zoneId == 0.
Proof.
  split; [|split].
  - intros H. unfold getZoneMetallicity, getZoneMiningMultiplier, isDysonZone.
    rewrite H. repeat split.
  - intros zone H. split; [apply (getZone_id reg); exact H|].
    unfold getZoneMetallicity. rewrite H. split.
    + intros H0. apply JSFacts.eqb_eq in H0. rewrite H0. reflexivity.
    + intros [Hm Ht].
      destruct (JS.eqb (JS.orZero (total_mass_kg zone)) 0) eqn:E; [lra|].
      assert (Hpos : 0 < JS.orZero (total_mass_kg zone)).
      { destruct (Qlt_le_dec 0 (JS.orZero (total_mass_kg zone))) as [Hl|Hl]; [exact Hl|].
        assert (Hz : JS.orZero (total_mass_kg zone) == 0) by lra.
        apply JSFacts.eqb_eq in Hz. congruence. }
      split.
      * apply Qle_shift_div_l; [exact Hpos|]. lra.
      * apply Qle_shift_div_r; [exact Hpos|]. lra.
  - unfold getZoneMiningMultiplier.
    assert (Hd : forall o, ~ JS.orDefault 1 o == 0).
    { intros o. unfold JS.orDefault. destruct o as [x|]; [|discriminate].
      destruct (Qeq_bool x 0) eqn:E; [discriminate|].
      intros H. apply Qeq_bool_iff in H. congruence. }
    destruct (getZone reg zoneId); [apply Hd | discriminate].
Qed.

End RegistryFacts.

(** ** The transfer system of [engine/] *)

Module TransferFacts.
Import OrbitalMechanics V1 TransferSystem.

Lemma usedStep_cases storedMetal zoneId exclude totalRate transfer :
  usedStep storedMetal zoneId exclude totalRate transfer
  = if usesCapacity zoneId exclude transfer
    then totalRate + storedMetal * (JS.orZero (metal_rate_percentage transfer) / 100)
    else totalRate.
Proof.
  unfold usedStep, usesCapacity.
  destruct (excludes exclude transfer); [reflexivity|].
  destruct (String.eqb (from_zone transfer) zoneId); [|reflexivity].
  destruct (isMetal (resource_type transfer)); [|reflexivity].
  destruct (paused transfer); [reflexivity|].
  destruct (isContinuous transfer); reflexivity.
Qed.

Lemma used_fold storedMetal zoneId exclude transfers : forall start,
  fold_left (usedStep storedMetal zoneId exclude) transfers start
  == start + storedMetal
             * rateSum (List.filter (usesCapacity zoneId exclude) transfers) / 100.
Proof.
  induction transfers as [|t rest IH]; intros start; simpl.
  - unfold Qdiv. ring.
  - rewrite IH, usedStep_cases.
    destruct (usesCapacity zoneId exclude t); simpl; unfold Qdiv; ring.
Qed.

Lemma rateSum_nonneg transfers :
  (forall t, In t transfers -> 0 <= JS.orZero (metal_rate_percentage t)) ->
  0 <= rateSum transfers.
Proof.
  induction transfers as [|t rest IH]; intros H; simpl; [apply Qle_refl|].
  assert (H1 := H t (or_introl eq_refl)).
  assert (H2 : 0 <= rateSum rest) by (apply IH; intros u Hu; apply H; right; exact Hu).
  lra.
Qed.

Lemma excludes_none_weaker zoneId e t :
  usesCapacity zoneId (Some e) t = true -> usesCapacity zoneId None t = true.
Proof.
  unfold usesCapacity. simpl.
  destruct (negb (String.eqb e "") && String.eqb (t_id t) e); simpl; [discriminate|].
  auto.
Qed.

Lemma rateSum_filter_le zoneId e transfers :
  (forall t, In t transfers -> 0 <= JS.orZero (metal_rate_percentage t)) ->
  rateSum (List.filter (usesCapacity zoneId (Some e)) transfers)
  <= rateSum (List.filter (usesCapacity zoneId None) transfers).
Proof.
  induction transfers as [|t rest IH]; intros H; simpl; [apply Qle_refl|].
  assert (H1 := H t (or_introl eq_refl)).
  assert (H2 := IH (fun u Hu => H u (or_intror Hu))).
  destruct (usesCapacity zoneId (Some e) t) eqn:E1.
  - rewrite (excludes_none_weaker _ _ _ E1). simpl. lra.
  - destruct (usesCapacity zoneId None t); simpl; lra.
Qed.

Lemma floor_at_least_one x : 1 <= x -> 1 <= JS.Math_floor x.
Proof.
  intros H. unfold JS.Math_floor.
  change 1 with (inject_Z 1). rewrite <- Zle_Qle.
  rewrite <- (Qfloor_Z 1). apply Qfloor_resp_le. exact H.
Qed.

Lemma floor_ge_hundred x : 100 <= x -> 100 <= JS.Math_floor x.
Proof.
  intros H. unfold JS.Math_floor.
  change 100 with (inject_Z 100). rewrite <- Zle_Qle.
  rewrite <- (Qfloor_Z 100). apply Qfloor_resp_le. exact H.
Qed.

Lemma min_cases a b :
  (a <= b /\ JS.Math_min a b == a) \/ (b < a /\ JS.Math_min a b == b).
Proof.
  destruct (Qlt_le_dec b a) as [H|H].
  - right. split; [exact H|]. apply Q.min_r. lra.
  - left. split; [exact H|]. apply Q.min_l. exact H.
Qed.

Lemma floor_min_bounds a b :
  let n := JS.Math_floor (JS.Math_min a b) in
  n <= a /\ n <= b /\ (a - n < 1 \/ b - n < 1).
Proof.
  intros n. subst n.
  pose proof (JSFacts.floor_le (JS.Math_min a b)) as Hle.
  pose proof (JSFacts.lt_floor_succ (JS.Math_min a b)) as Hlt.
  pose proof (JSFacts.min_le_l a b) as Hl.
  pose proof (JSFacts.min_le_r a b) as Hr.
  destruct (min_cases a b) as [[H1 H2]|[H1 H2]];
    revert Hle Hlt Hl Hr H2;
    generalize (JS.Math_floor (JS.Math_min a b)); generalize (JS.Math_min a b);
    intros m n Hle Hlt Hl Hr H2; repeat split; lra.
Qed.

Lemma truthy_lookup (m : gmap string Q) k :
  ~ JS.orZero (m !! k) == 0 -> m !! k = Some (JS.orZero (m !! k)).
Proof.
  intros H. destruct (m !! k) as [x|] eqn:E.
  - f_equal. symmetry. apply JSFacts.orZero_Some_truthy.
    destruct (JS.eqb x 0) eqn:Eb; [|reflexivity].
    exfalso. apply H. rewrite (JSFacts.orZero_Some_falsy _ Eb). reflexivity.
  - exfalso. apply H. reflexivity.
Qed.

Lemma sendProbes_stop fuel now T ptype s :
  JS.leb MIN_PROBE_BATCH (ps_accumulated s) && JS.leb MIN_PROBE_BATCH (ps_available s) = false ->
  sendProbes fuel now T ptype s = s.
Proof. intros H. destruct fuel; simpl; [reflexivity|]. rewrite H. reflexivity. Qed.

Lemma sendProbes_once fuel now T ptype a zp t :
  let v := JS.orZero (zp !! ptype) in
  let n := JS.Math_floor (JS.Math_min a v) in
  1 <= a -> 1 <= v ->
  sendProbes (S fuel) now T ptype
    {| ps_accumulated := a; ps_available := v; ps_totalProbesSent := 0;
       ps_zoneProbes := zp; ps_transfer := t |}
  = {| ps_accumulated := a - n;
       ps_available := JS.Math_max 0 (v - n);
       ps_totalProbesSent := 0 + n;
       ps_zoneProbes := <[ptype := JS.Math_max 0 (v - n)]> zp;
       ps_transfer := pushBatch (probeBatch n now (now + T)) (now + T) t |}.
Proof.
  intros v n Ha Hv.
  assert (Hlk : zp !! ptype = Some v).
  { apply truthy_lookup. fold v. lra. }
  assert (Hmin : 1 <= JS.Math_min a v) by (apply JSFacts.min_glb; assumption).
  pose proof (floor_at_least_one _ Hmin) as Hn. fold n in Hn.
  simpl. unfold MIN_PROBE_BATCH.
  apply JSFacts.leb_le in Ha. apply JSFacts.leb_le in Hv.
  rewrite Ha, Hv. simpl. fold n.
  assert (Hnb : JS.leb 1 n = true) by (apply JSFacts.leb_le; exact Hn).
  rewrite Hnb, Hlk.
  apply sendProbes_stop. simpl. unfold MIN_PROBE_BATCH.
  apply JSFacts.leb_le in Ha. apply JSFacts.leb_le in Hv.
  destruct (floor_min_bounds a v) as (H1 & H2 & H3). fold n in H1, H2, H3.
  assert (Hmax : JS.Math_max 0 (v - n) == v - n)
    by (apply JSFacts.max_zero_of_nonneg; lra).
  apply andb_false_iff. destruct H3 as [H3|H3].
  - left. apply JSFacts.leb_gt. exact H3.
  - right. apply JSFacts.leb_gt. rewrite Hmax. exact H3.
Qed.

Lemma fold_counts_start (g : Batch -> Q) l : forall s,
  fold_left (fun sum batch => sum + g batch) l s
  == s + fold_left (fun sum batch => sum + g batch) l 0.
Proof.
  induction l as [|b l IH]; intros s; simpl; [ring|].
  rewrite IH, (IH (0 + g b)). ring.
Qed.

Lemma sumCounts_app l l' : sumCounts (l ++ l') == sumCounts l + sumCounts l'.
Proof.
  unfold sumCounts. rewrite fold_left_app.
  apply (fold_counts_start (fun b => JS.orZero (count b))).
Qed.

Lemma sumMasses_app l l' : sumMasses (l ++ l') == sumMasses l + sumMasses l'.
Proof.
  unfold sumMasses. rewrite fold_left_app.
  apply (fold_counts_start (fun b => JS.orZero (mass_kg b))).
Qed.

Lemma sumCounts_single b : sumCounts [b] == JS.orZero (count b).
Proof. unfold sumCounts. simpl. ring. Qed.

Lemma sumMasses_single b : sumMasses [b] == JS.orZero (mass_kg b).
Proof. unfold sumMasses. simpl. ring. Qed.

Lemma held_none_zero (pbz : gmap string (gmap string Q)) z p :
  pbz !! z = None -> JS.orZero (JS.orEmpty (pbz !! z) !! p) = 0.
Proof. intros H. rewrite H. reflexivity. Qed.

Lemma sendMetal_stop fuel now T from s :
  JS.leb MIN_METAL_BATCH_KG (ms_accumulated s)
  && JS.leb MIN_METAL_BATCH_KG (ms_available s) = false ->
  sendMetal fuel now T from s = s.
Proof. intros H. destruct fuel; simpl; [reflexivity|]. rewrite H. reflexivity. Qed.

Lemma stored_zoneOrFresh zones from :
  JS.orZero (stored_metal (zoneOrFresh zones from)) == storedMetalOf zones from.
Proof.
  unfold zoneOrFresh, storedMetalOf.
  destruct (zones !! from) as [zone|]; [reflexivity|].
  cbn [stored_metal freshZone]. rewrite JSFacts.orZero_Some. reflexivity.
Qed.

Lemma sendMetal_once fuel now T from a zones t :
  let v := storedMetalOf zones from in
  let n := JS.Math_floor (JS.Math_min a v) in
  let zone := zoneOrFresh zones from in
  let remaining := JS.Math_max 0 (JS.orZero (stored_metal zone) - n) in
  100 <= a -> 100 <= v ->
  sendMetal (S fuel) now T from
    {| ms_accumulated := a; ms_available := v; ms_zones := zones; ms_transfer := t |}
  = {| ms_accumulated := a - n;
       ms_available := remaining;
       ms_zones := <[from := set_stored_metal (Some remaining) zone]> zones;
       ms_transfer := pushBatch (metalBatch n now (now + T)) (now + T) t |}.
Proof.
  intros v n zone remaining Ha Hv.
  assert (Hmin : 100 <= JS.Math_min a v) by (apply JSFacts.min_glb; assumption).
  pose proof (floor_ge_hundred _ Hmin) as Hn. fold n in Hn.
  simpl. unfold MIN_METAL_BATCH_KG.
  apply JSFacts.leb_le in Ha. apply JSFacts.leb_le in Hv.
  rewrite Ha, Hv. simpl. fold n.
  assert (Hnb : JS.leb 100 n = true) by (apply JSFacts.leb_le; exact Hn).
  rewrite Hnb. fold zone. fold remaining.
  apply sendMetal_stop. simpl. unfold MIN_METAL_BATCH_KG.
  apply JSFacts.leb_le in Ha. apply JSFacts.leb_le in Hv.
  destruct (floor_min_bounds a v) as (H1 & H2 & H3). fold n in H1, H2, H3.
  pose proof (stored_zoneOrFresh zones from) as Hs. fold zone in Hs. fold v in Hs.
  assert (Hmax : remaining == v - n).
  { unfold remaining. rewrite JSFacts.max_zero_of_nonneg; lra. }
  apply andb_false_iff. destruct H3 as [H3|H3].
  - left. apply JSFacts.leb_gt. lra.
  - right. apply JSFacts.leb_gt. rewrite Hmax. lra.
Qed.

Lemma set_zones_id s : set_zones (zones s) s = s.
Proof. destruct s; reflexivity. Qed.

Lemma sumCounts_cons b l : sumCounts (b :: l) == JS.orZero (count b) + sumCounts l.
Proof. change (b :: l) with ([b] ++ l)%list. rewrite sumCounts_app, sumCounts_single. reflexivity. Qed.

Lemma sumMasses_cons b l : sumMasses (b :: l) == JS.orZero (mass_kg b) + sumMasses l.
Proof. change (b :: l) with ([b] ++ l)%list. rewrite sumMasses_app, sumMasses_single. reflexivity. Qed.

Lemma sumCounts_rev l : sumCounts (rev l) == sumCounts l.
Proof.
  induction l as [|b l IH]; [reflexivity|].
  simpl rev. rewrite sumCounts_app, sumCounts_single, sumCounts_cons, IH. ring.
Qed.

Lemma sumMasses_rev l : sumMasses (rev l) == sumMasses l.
Proof.
  induction l as [|b l IH]; [reflexivity|].
  simpl rev. rewrite sumMasses_app, sumMasses_single, sumMasses_cons, IH. ring.
Qed.

Lemma sumCounts_partition (f : Batch -> bool) l :
  sumCounts l == sumCounts (List.filter f l)
                 + sumCounts (List.filter (fun b => negb (f b)) l).
Proof.
  induction l as [|b l IH]; [reflexivity|].
  simpl. rewrite sumCounts_cons, IH.
  destruct (f b); simpl; rewrite sumCounts_cons; ring.
Qed.

Lemma sumMasses_partition (f : Batch -> bool) l :
  sumMasses l == sumMasses (List.filter f l)
                 + sumMasses (List.filter (fun b => negb (f b)) l).
Proof.
  induction l as [|b l IH]; [reflexivity|].
  simpl. rewrite sumMasses_cons, IH.
  destruct (f b); simpl; rewrite sumMasses_cons; ring.
Qed.

Lemma filter_none {A} (f : A -> bool) l :
  List.filter f l = [] -> List.filter (fun x => negb (f x)) l = l.
Proof.
  induction l as [|x l IH]; [reflexivity|].
  simpl. destruct (f x); [discriminate|]. intros H. simpl. f_equal. apply IH. exact H.
Qed.

Lemma filter_filter_neg {A} (f : A -> bool) l :
  List.filter f (List.filter (fun x => negb (f x)) l) = [].
Proof.
  induction l as [|x l IH]; [reflexivity|].
  simpl. destruct (f x) eqn:E; simpl; [exact IH|]. rewrite E. exact IH.
Qed.

Lemma set_in_transit_batches l t : batchesOf (set_in_transit (Some l) t) = l.
Proof. reflexivity. Qed.

Lemma arrivals_none state transfer currentTime :
  List.filter (hasArrived currentTime) (batchesOf transfer) = [] ->
  processContinuousArrivals state transfer currentTime = (state, transfer).
Proof.
  intros H. unfold processContinuousArrivals.
  destruct (batchesOf transfer) as [|b l]; [reflexivity|].
  rewrite H. reflexivity.
Qed.

Lemma arrivals_some state transfer currentTime :
  List.filter (hasArrived currentTime) (batchesOf transfer) <> [] ->
  processContinuousArrivals state transfer currentTime
  = let arrivedBatches := rev (List.filter (hasArrived currentTime) (batchesOf transfer)) in
    let transfer' :=
      set_in_transit
        (Some (List.filter (fun batch => negb (hasArrived currentTime batch))
                           (batchesOf transfer))) transfer in
    let toZoneId := to_zone transfer in
    if String.eqb (resourceOf transfer) "probe" then
      let probeType := JS.orString "probe" (probe_type transfer) in
      let totalArrived := sumCounts arrivedBatches in
      let probesByZone :=
        if JS.ltb 0 totalArrived
        then creditProbes (probes_by_zone state) toZoneId probeType totalArrived
        else initProbes (probes_by_zone state) toZoneId probeType in
      let zone := zoneOrFresh (zones state) toZoneId in
      (set_probes_by_zone probesByZone
         (set_zones
            (<[toZoneId :=
                 set_probe_mass
                   (Some (JS.orZero (probe_mass zone) + totalArrived * PROBE_MASS))
                   zone]> (zones state)) state), transfer')
    else if String.eqb (resourceOf transfer) "metal" then
      let totalArrived := sumMasses arrivedBatches in
      let zone := zoneOrFresh (zones state) toZoneId in
      (set_zones
         (<[toZoneId :=
              set_stored_metal (Some (JS.orZero (stored_metal zone) + totalArrived)) zone]>
            (zones state)) state, transfer')
    else (state, transfer').
Proof.
  intros H. unfold processContinuousArrivals.
  destruct (batchesOf transfer) as [|b l] eqn:El; [contradiction H; reflexivity|].
  destruct (rev (List.filter (hasArrived currentTime) (b :: l))) as [|a r] eqn:Er.
  - exfalso. apply H. apply (f_equal (@rev _)) in Er. rewrite rev_involutive in Er.
    exact Er.
  - reflexivity.
Qed.
Lemma heldAt_credit_same pbz z p added :
  JS.orZero (JS.orEmpty (creditProbes pbz z p added !! z) !! p)
  == JS.orZero (JS.orEmpty (pbz !! z) !! p) + added.
Proof.
  unfold creditProbes. rewrite lookup_insert_eq. cbn [JS.orEmpty].
  rewrite lookup_insert_eq. apply JSFacts.orZero_Some.
Qed.

Lemma heldAt_credit_other pbz z p added z' p' :
  (z', p') <> (z, p) ->
  JS.orZero (JS.orEmpty (creditProbes pbz z p added !! z') !! p')
  = JS.orZero (JS.orEmpty (pbz !! z') !! p').
Proof.
  intros H. unfold creditProbes.
  destruct (decide (z' = z)) as [->|Hz].
  - rewrite lookup_insert_eq. cbn [JS.orEmpty].
    rewrite lookup_insert_ne by congruence. reflexivity.
  - rewrite lookup_insert_ne by congruence. reflexivity.
Qed.

Lemma heldAt_init_same pbz z p :
  JS.orZero (JS.orEmpty (initProbes pbz z p !! z) !! p)
  == JS.orZero (JS.orEmpty (pbz !! z) !! p).
Proof.
  unfold initProbes. rewrite lookup_insert_eq. cbn [JS.orEmpty].
  rewrite lookup_insert_eq. apply JSFacts.orZero_Some.
Qed.

Lemma heldAt_init_other pbz z p z' p' :
  (z', p') <> (z, p) ->
  JS.orZero (JS.orEmpty (initProbes pbz z p !! z') !! p')
  = JS.orZero (JS.orEmpty (pbz !! z') !! p').
Proof.
  intros H. unfold initProbes.
  destruct (decide (z' = z)) as [->|Hz].
  - rewrite lookup_insert_eq. cbn [JS.orEmpty].
    rewrite lookup_insert_ne by congruence. reflexivity.
  - rewrite lookup_insert_ne by congruence. reflexivity.
Qed.

Lemma probeMass_zoneOrFresh zones z :
  JS.orZero (probe_mass (zoneOrFresh zones z))
  == JS.orZero (match zones !! z with Some zone => probe_mass zone | None => None end).
Proof.
  unfold zoneOrFresh. destruct (zones !! z); [reflexivity|].
  cbn [probe_mass freshZone]. rewrite JSFacts.orZero_Some. reflexivity.
Qed.

Lemma sumCounts_nonneg l :
  (forall b, In b l -> 0 <= JS.orZero (count b)) -> 0 <= sumCounts l.
Proof.
  induction l as [|b l IH]; intros H; [apply Qle_refl|].
  rewrite sumCounts_cons.
  assert (H1 := H b (or_introl eq_refl)).
  assert (H2 : 0 <= sumCounts l) by (apply IH; intros c Hc; apply H; right; exact Hc).
  lra.
Qed.

(** Arrivals on a continuous transfer.  The queue keeps exactly the batches
    that are not due yet, in order; with nothing due neither the state nor
    the transfer changes, and a second call at the same time changes
    nothing.  For probes the destination gains the arrived probes (nothing
    when their sum is not positive), its probe mass grows by 100 kg per
    probe, no other count moves, and with non-negative batch sizes the
    probes at the destination plus those still under way are conserved; for
    metal the destination's stock grows by the arrived mass and stock plus
    metal under way is conserved. *)
Theorem continuous_arrivals_deliver state transfer currentTime :
  let result := processContinuousArrivals state transfer currentTime in
  let state' := result.1 in
  let transfer' := result.2 in
  let due := List.filter (hasArrived currentTime) (batchesOf transfer) in
  let toZoneId := to_zone transfer in
  let probeType := JS.orString "probe" (probe_type transfer) in
  batchesOf transfer'
    = List.filter (fun b => negb (hasArrived currentTime b)) (batchesOf transfer) /\
  (forall b, In b (batchesOf transfer') -> currentTime < batch_arrival_time b) /\
  (due = [] -> state' = state /\ transfer' = transfer) /\
  processContinuousArrivals state' transfer' currentTime = (state', transfer') /\
  (resourceOf transfer = "probe" ->
     heldAt state' toZoneId probeType
       == heldAt state toZoneId probeType + JS.Math_max 0 (sumCounts due) /\
     (forall z p, (z, p) <> (toZoneId, probeType) ->
                  heldAt state' z p = heldAt state z p) /\
     probeMassAt state' toZoneId
       == probeMassAt state toZoneId + sumCounts due * PROBE_MASS /\
     ((forall b, In b (batchesOf transfer) -> 0 <= JS.orZero (count b)) ->
        heldAt state' toZoneId probeType + sumCounts (batchesOf transfer')
        == heldAt state toZoneId probeType + sumCounts (batchesOf transfer))) /\
  (resourceOf transfer = "metal" ->
     storedAt state' toZoneId == storedAt state toZoneId + sumMasses due /\
     (forall z, z <> toZoneId -> zones state' !! z = zones state !! z) /\
     probes_by_zone state' = probes_by_zone state /\
     storedAt state' toZoneId + sumMasses (batchesOf transfer')
     == storedAt state toZoneId + sumMasses (batchesOf transfer)).
Proof.
  intros result state' transfer' due toZoneId probeType.
  destruct due as [|d0 dl] eqn:Edue.
  - (* nothing has arrived *)
    assert (Hres : result = (state, transfer)) by (apply arrivals_none; exact Edue).
    subst state' transfer'. rewrite Hres. cbn [fst snd].
    pose proof (filter_none _ _ Edue) as Hkeep.
    split; [symmetry; exact Hkeep|].
    split.
    { intros b Hb. rewrite <- Hkeep in Hb. apply filter_In in Hb.
      destruct Hb as [_ Hb]. apply negb_true_iff in Hb.
      apply JSFacts.leb_gt in Hb. exact Hb. }
    split; [intros _; split; reflexivity|].
    split; [apply arrivals_none; exact Edue|].
    split.
    + intros _.
      change (sumCounts []) with 0.
      assert (H0 : JS.Math_max 0 0 == 0) by reflexivity.
      split; [rewrite H0; ring|].
      split; [intros; reflexivity|].
      split; [ring|intros _; reflexivity].
    + intros _. change (sumMasses []) with 0.
      split; [ring|]. split; [intros; reflexivity|]. split; reflexivity.
  - assert (Hne : List.filter (hasArrived currentTime) (batchesOf transfer) <> [])
      by (fold due; rewrite Edue; discriminate).
    assert (Hres := arrivals_some state transfer currentTime Hne).
    fold result in Hres. cbv zeta in Hres. fold due in Hres.
    fold toZoneId in Hres. fold probeType in Hres.
    rewrite <- Edue. clear Edue.
    assert (Hq : batchesOf transfer'
                 = List.filter (fun b => negb (hasArrived currentTime b))
                               (batchesOf transfer)).
    { subst transfer'. rewrite Hres.
      destruct (String.eqb (resourceOf transfer) "probe");
        [|destruct (String.eqb (resourceOf transfer) "metal")]; reflexivity. }
    split; [exact Hq|].
    split.
    { intros b Hb. rewrite Hq in Hb. apply filter_In in Hb.
      destruct Hb as [_ Hb]. apply negb_true_iff in Hb.
      apply JSFacts.leb_gt in Hb. exact Hb. }
    split; [intros H; subst due; rewrite H in Hne; contradiction|].
    split.
    { replace result with (state', transfer') by (subst state' transfer'; destruct result; reflexivity).
      apply arrivals_none. rewrite Hq. apply filter_filter_neg. }
    pose proof (sumCounts_rev due) as Hrc.
    pose proof (sumMasses_rev due) as Hrm.
    split.
    + intros Hp. rewrite Hp in Hres.
      change (String.eqb "probe" "probe") with true in Hres. cbv iota in Hres.
      subst state' transfer'. rewrite Hres. cbn [fst snd].
      unfold heldAt, probeMassAt. cbn [probes_by_zone zones set_probes_by_zone set_zones].
      rewrite lookup_insert_eq. cbn [probe_mass set_probe_mass].
      rewrite JSFacts.orZero_Some, probeMass_zoneOrFresh.
      assert (Hheld :
        JS.orZero (JS.orEmpty
          ((if JS.ltb 0 (sumCounts (rev due))
            then creditProbes (probes_by_zone state) toZoneId probeType (sumCounts (rev due))
            else initProbes (probes_by_zone state) toZoneId probeType) !! toZoneId)
          !! probeType)
        == JS.orZero (JS.orEmpty (probes_by_zone state !! toZoneId) !! probeType)
           + JS.Math_max 0 (sumCounts due)).
      { destruct (JS.ltb 0 (sumCounts (rev due))) eqn:E.
        - apply JSFacts.ltb_lt in E. rewrite heldAt_credit_same.
          rewrite JSFacts.max_zero_of_nonneg by lra. lra.
        - apply JSFacts.ltb_ge in E. rewrite heldAt_init_same.
          rewrite JSFacts.max_zero_of_nonpos by lra. lra. }
      split; [exact Hheld|].
      split.
      { intros z p Hzp.
        destruct (JS.ltb 0 (sumCounts (rev due)));
          [apply heldAt_credit_other | apply heldAt_init_other]; exact Hzp. }
      split; [rewrite Hrc; reflexivity|].
      intros Hnn.
      change (batchesOf (set_in_transit
                (Some (List.filter (fun b => negb (hasArrived currentTime b))
                                   (batchesOf transfer))) transfer))
        with (List.filter (fun b => negb (hasArrived currentTime b)) (batchesOf transfer)).
      rewrite Hheld.
      rewrite (sumCounts_partition (hasArrived currentTime) (batchesOf transfer)).
      fold due.
      assert (H0 : 0 <= sumCounts due).
      { apply sumCounts_nonneg. intros b Hb. apply Hnn.
        unfold due in Hb. apply filter_In in Hb. apply Hb. }
      rewrite JSFacts.max_zero_of_nonneg by exact H0. ring.
    + intros Hm. rewrite Hm in Hres.
      change (String.eqb "metal" "probe") with false in Hres.
      change (String.eqb "metal" "metal") with true in Hres. cbv iota in Hres.
      subst state' transfer'. rewrite Hres. cbn [fst snd].
      assert (Hst : storedAt
                 (set_zones
                    (<[toZoneId:=set_stored_metal
                         (Some (JS.orZero (stored_metal (zoneOrFresh (zones state) toZoneId))
                                + sumMasses (rev due)))
                         (zoneOrFresh (zones state) toZoneId)]> (zones state)) state)
                 toZoneId
               == storedAt state toZoneId + sumMasses due).
      { unfold storedAt at 1. unfold storedMetalOf. cbn [zones set_zones].
        rewrite lookup_insert_eq. cbn [stored_metal set_stored_metal].
        rewrite JSFacts.orZero_Some, stored_zoneOrFresh, Hrm. reflexivity. }
      split; [exact Hst|].
      split; [intros z Hz; cbn [zones set_zones]; apply lookup_insert_ne; congruence|].
      split; [reflexivity|].
      rewrite Hst.
      change (batchesOf (set_in_transit
                (Some (List.filter (fun b => negb (hasArrived currentTime b))
                                   (batchesOf transfer))) transfer))
        with (List.filter (fun b => negb (hasArrived currentTime b)) (batchesOf transfer)).
      rewrite (sumMasses_partition (hasArrived currentTime) (batchesOf transfer)).
      fold due. ring.
Qed.

Lemma stored_probe_mass_update zones z v :
  JS.orZero (stored_metal (set_probe_mass v (zoneOrFresh zones z)))
  == storedMetalOf zones z.
Proof. cbn [stored_metal set_probe_mass]. apply stored_zoneOrFresh. Qed.

(** Completing a one-time transfer only credits the destination.  A probe
    transfer of n > 0 probes adds n to the destination's count of that type
    and 100 n kg to its probe mass and is marked completed; with no probes
    it returns with state and transfer untouched, status included.  A metal
    transfer adds its kilograms to the destination's stock.  No other zone
    changes, so the source is never debited here. *)
Theorem one_time_completion_credits_destination state transfer :
  let result := completeOneTimeTransfer state transfer in
  let state' := result.1 in
  let transfer' := result.2 in
  let toZoneId := to_zone transfer in
  let probeType := JS.orString "probe" (probe_type transfer) in
  let probeCount := JS.orZero (probe_count transfer) in
  (resourceOf transfer = "probe" ->
     (probeCount <= 0 -> state' = state /\ transfer' = transfer) /\
     (0 < probeCount ->
        heldAt state' toZoneId probeType == heldAt state toZoneId probeType + probeCount /\
        (forall z p, (z, p) <> (toZoneId, probeType) ->
                     heldAt state' z p = heldAt state z p) /\
        probeMassAt state' toZoneId
          == probeMassAt state toZoneId + probeCount * PROBE_MASS /\
        storedAt state' toZoneId == storedAt state toZoneId /\
        status transfer' = "completed")) /\
  (resourceOf transfer = "metal" ->
     storedAt state' toZoneId
       == storedAt state toZoneId + JS.orZero (metal_kg transfer) /\
     probes_by_zone state' = probes_by_zone state /\
     status transfer' = "completed") /\
  (forall z, z <> toZoneId ->
     zones state' !! z = zones state !! z /\
     forall p, heldAt state' z p = heldAt state z p) /\
  active_transfers state' = active_transfers state /\
  time state' = time state /\
  t_id transfer' = t_id transfer /\ V1.type transfer' = V1.type transfer.
Proof.
  intros result state' transfer' toZoneId probeType probeCount.
  subst result state' transfer'. unfold completeOneTimeTransfer.
  fold toZoneId. fold probeType. fold probeCount.
  destruct (String.eqb (resourceOf transfer) "probe") eqn:Ep.
  - apply String.eqb_eq in Ep.
    destruct (JS.leb probeCount 0) eqn:Ec.
    + apply JSFacts.leb_le in Ec. cbn [fst snd].
      split; [intros _; split; [intros _; split; reflexivity|intros H; lra]|].
      split; [intros Hm; rewrite Hm in Ep; discriminate|].
      split; [intros z Hz; split; [reflexivity|intros p; reflexivity]|].
      repeat split.
    + apply JSFacts.leb_gt in Ec. cbn [fst snd].
      split.
      { intros _. split; [intros H; lra|]. intros _.
        unfold heldAt, probeMassAt, storedAt, storedMetalOf.
        cbn [probes_by_zone zones set_probes_by_zone set_zones].
        rewrite !lookup_insert_eq.
        split; [apply heldAt_credit_same|].
        split; [intros z p Hzp; apply heldAt_credit_other; exact Hzp|].
        split.
        { cbn [probe_mass set_probe_mass].
          rewrite JSFacts.orZero_Some, probeMass_zoneOrFresh. reflexivity. }
        split; [apply stored_probe_mass_update|reflexivity]. }
      split; [intros Hm; rewrite Hm in Ep; discriminate|].
      split.
      { intros z Hz. cbn [zones set_zones set_probes_by_zone].
        split; [apply lookup_insert_ne; congruence|].
        intros p. unfold heldAt. cbn [probes_by_zone set_zones set_probes_by_zone].
        apply heldAt_credit_other. congruence. }
      repeat split.
  - destruct (String.eqb (resourceOf transfer) "metal") eqn:Em; cbn [fst snd].
    + split; [intros Hp; rewrite Hp in Ep; discriminate|].
      split.
      { intros _. unfold storedAt, storedMetalOf. cbn [zones set_zones].
        rewrite lookup_insert_eq. cbn [stored_metal set_stored_metal].
        split; [|split; reflexivity].
        rewrite JSFacts.orZero_Some.
        pose proof (stored_zoneOrFresh (zones state) toZoneId) as H.
        unfold storedMetalOf in H. rewrite H. reflexivity. }
      split.
      { intros z Hz. cbn [zones set_zones].
        split; [apply lookup_insert_ne; congruence|intros p; reflexivity]. }
      repeat split.
    + split; [intros Hp; rewrite Hp in Ep; discriminate|].
      split; [intros Hm; rewrite Hm in Em; discriminate|].
      split; [intros z Hz; split; [reflexivity|intros p; reflexivity]|].
      repeat split.
Qed.

Lemma findIndex_Some transferId l : forall index,
  findIndex transferId l = Some index ->
  exists transfer,
    l !! index = Some transfer /\ t_id transfer = transferId /\
    forall j t, (j < index)%nat -> l !! j = Some t -> t_id t <> transferId.
Proof.
  induction l as [|x l IH]; intros index H; simpl in H; [discriminate|].
  destruct (String.eqb (t_id x) transferId) eqn:E.
  - injection H as <-. exists x. split; [reflexivity|].
    split; [apply String.eqb_eq; exact E|]. intros j t Hj. lia.
  - destruct (findIndex transferId l) as [i|] eqn:Ei; [|discriminate].
    injection H as <-. destruct (IH i eq_refl) as (t & Ht & Hid & Hbefore).
    exists t. split; [exact Ht|]. split; [exact Hid|].
    intros j u Hj Hu. destruct j as [|j].
    + simpl in Hu. injection Hu as <-. apply String.eqb_neq. exact E.
    + simpl in Hu. apply (Hbefore j u); [lia|exact Hu].
Qed.

Lemma findIndex_None transferId l :
  findIndex transferId l = None <-> forall t, In t l -> t_id t <> transferId.
Proof.
  induction l as [|x l IH]; simpl.
  - split; [intros _ t []|reflexivity].
  - destruct (String.eqb (t_id x) transferId) eqn:E.
    + split; [discriminate|]. intros H. exfalso.
      apply (H x); [left; reflexivity|]. apply String.eqb_eq. exact E.
    + destruct (findIndex transferId l) as [i|].
      * split; [discriminate|]. intros H.
        assert (H' : forall t, In t l -> t_id t <> transferId)
          by (intros t Ht; apply H; right; exact Ht).
        apply IH in H'. discriminate.
      * split; [|reflexivity]. intros _ t [<-|Ht].
        -- apply String.eqb_neq. exact E.
        -- apply IH; [reflexivity|exact Ht].
Qed.

Lemma fold_probe_start l : forall s,
  fold_left addProbeBatch l s == s + fold_left addProbeBatch l 0.
Proof.
  induction l as [|b l IH]; intros s; simpl; [ring|].
  rewrite IH, (IH (addProbeBatch 0 b)). unfold addProbeBatch.
  destruct (_ || _); ring.
Qed.

(** Deleting a transfer.  It fails exactly when no active transfer has the
    id, and then changes nothing.  Otherwise the first transfer with that id
    is removed from the list; a continuous one also loses its accumulator
    and its cargo under way goes back to the source zone: the probes to the
    zone's count of that type (the zone's probe mass is left as it is), the
    metal to the zone's stock.  A one-time transfer is removed without any
    change to probes or zones. *)
Theorem deleteTransfer_returns_cargo acc state transferId :
  let result := deleteTransfer acc state transferId in
  let removed := result.1.1 in
  let acc' := result.1.2 in
  let state' := result.2 in
  (removed = false <->
     forall t, In t (active_transfers state) -> t_id t <> transferId) /\
  (removed = false -> acc' = acc /\ state' = state) /\
  (removed = true ->
     exists index transfer,
       active_transfers state !! index = Some transfer /\
       t_id transfer = transferId /\
       (forall j t, (j < index)%nat -> active_transfers state !! j = Some t ->
                    t_id t <> transferId) /\
       active_transfers state' = delete index (active_transfers state) /\
       S (length (active_transfers state')) = length (active_transfers state) /\
       (acc' = if isContinuous transfer then delete transferId acc else acc) /\
       (isContinuous transfer = false ->
          probes_by_zone state' = probes_by_zone state /\
          zones state' = zones state) /\
       (isContinuous transfer = true -> resourceOf transfer = "probe" ->
          let fromZoneId := from_zone transfer in
          let probeType := JS.orString "probe" (probe_type transfer) in
          heldAt state' fromZoneId probeType
            == heldAt state fromZoneId probeType + returnedProbes (batchesOf transfer) /\
          (forall z p, (z, p) <> (fromZoneId, probeType) ->
                       heldAt state' z p = heldAt state z p) /\
          zones state' = zones state) /\
       (isContinuous transfer = true -> resourceOf transfer = "metal" ->
          storedAt state' (from_zone transfer)
            == storedAt state (from_zone transfer) + returnedMetal (batchesOf transfer) /\
          probes_by_zone state' = probes_by_zone state)).
Proof.
  intros result removed acc' state'.
  subst removed acc' state' result. unfold deleteTransfer.
  destruct (findIndex transferId (active_transfers state)) as [index|] eqn:Ef.
  - destruct (findIndex_Some _ _ _ Ef) as (transfer & Hlk & Hid & Hbefore).
    rewrite Hlk. cbn [fst snd].
    split.
    { split; [discriminate|]. intros H. exfalso.
      apply (H transfer); [|exact Hid].
      apply list_elem_of_lookup_2 in Hlk. apply list_elem_of_In. exact Hlk. }
    split; [discriminate|].
    intros _. exists index, transfer.
    split; [exact Hlk|]. split; [exact Hid|]. split; [exact Hbefore|].
    set (st1 := if isContinuous transfer && _ then _ else state).
    assert (Hact : active_transfers st1 = active_transfers state).
    { subst st1. destruct (isContinuous transfer && _); [|reflexivity].
      destruct (String.eqb (resourceOf transfer) "probe"); [reflexivity|].
      destruct (String.eqb (resourceOf transfer) "metal"); reflexivity. }
    cbn [active_transfers set_active_transfers]. rewrite Hact.
    split; [reflexivity|].
    split.
    { pose proof (lookup_lt_Some _ _ _ Hlk) as Hlt.
      rewrite length_delete by (eexists; exact Hlk). lia. }
    split; [reflexivity|].
    split.
    { intros Hc. subst st1. rewrite Hc. cbn [andb]. split; reflexivity. }
    split.
    { intros Hc Hp. subst st1. rewrite Hc, Hp. cbn [andb].
      change (String.eqb "probe" "probe") with true. cbv iota.
      destruct (negb (length (batchesOf transfer) =? 0)%nat) eqn:El.
      - unfold heldAt. cbn [probes_by_zone zones set_probes_by_zone set_active_transfers].
        split; [apply heldAt_credit_same|].
        split; [intros z p Hzp; apply heldAt_credit_other; exact Hzp|reflexivity].
      - apply negb_false_iff, Nat.eqb_eq in El.
        destruct (batchesOf transfer); [|discriminate].
        unfold heldAt. cbn [set_active_transfers probes_by_zone zones].
        split; [change (returnedProbes []) with 0; ring|].
        split; [intros; reflexivity|reflexivity]. }
    { intros Hc Hm. subst st1. rewrite Hc, Hm. cbn [andb].
      change (String.eqb "metal" "probe") with false.
      change (String.eqb "metal" "metal") with true. cbv iota.
      destruct (negb (length (batchesOf transfer) =? 0)%nat) eqn:El.
      - unfold storedAt, storedMetalOf. cbn [zones set_zones set_active_transfers probes_by_zone].
        rewrite lookup_insert_eq. cbn [stored_metal set_stored_metal].
        split; [|reflexivity].
        rewrite JSFacts.orZero_Some.
        pose proof (stored_zoneOrFresh (zones state) (from_zone transfer)) as H.
        unfold storedMetalOf in H. rewrite H. reflexivity.
      - apply negb_false_iff, Nat.eqb_eq in El.
        destruct (batchesOf transfer); [|discriminate].
        unfold storedAt. cbn [set_active_transfers probes_by_zone zones].
        split; [change (returnedMetal []) with 0; ring|reflexivity]. }
  - cbn [fst snd]. split.
    { split; [intros _; apply findIndex_None; exact Ef|reflexivity]. }
    split; [intros _; split; reflexivity|discriminate].
Qed.

Lemma findIndex_insert transferId l : forall i t t',
  l !! i = Some t -> t_id t' = t_id t ->
  findIndex transferId (<[i := t']> l) = findIndex transferId l.
Proof.
  induction l as [|x l IH]; intros i t t' Hl Hid; [reflexivity|].
  destruct i as [|i]; simpl in *.
  - injection Hl as ->. rewrite Hid. reflexivity.
  - rewrite (IH i t t' Hl Hid). reflexivity.
Qed.

Lemma insert_back (l : list Transfer) i t t' :
  l !! i = Some t -> <[i := t]> (<[i := t']> l) = l.
Proof.
  intros H. rewrite list_insert_insert_eq. apply list_insert_id. exact H.
Qed.

Lemma set_active_transfers_id s : set_active_transfers (active_transfers s) s = s.
Proof. destruct s; reflexivity. Qed.

Lemma set_active_transfers_twice l l' s :
  set_active_transfers l (set_active_transfers l' s) = set_active_transfers l s.
Proof. reflexivity. Qed.

Lemma used_fold_insert storedMetal zoneId exclude l : forall i t t' start,
  l !! i = Some t ->
  (forall r, usedStep storedMetal zoneId exclude r t'
             = usedStep storedMetal zoneId exclude r t) ->
  fold_left (usedStep storedMetal zoneId exclude) (<[i := t']> l) start
  = fold_left (usedStep storedMetal zoneId exclude) l start.
Proof.
  induction l as [|x l IH]; intros i t t' start Hl Hs; [reflexivity|].
  destruct i as [|i]; simpl in *.
  - injection Hl as ->. rewrite Hs. reflexivity.
  - apply (IH i t t'); assumption.
Qed.

(** Updating a rate.  The stored rate is the request clamped into [0,100]
    (the request itself when it lies there).  The update fails, leaving the
    state as it is, when no transfer has the id or the first one with it is
    not continuous; otherwise only [rate_percentage] of that transfer is
    written.  [metal_rate_percentage], the field the metal branch reads, is
    never written, so the launch capacity in use is the same before and
    after. *)
Theorem rate_update_clamps_and_spares_metal state transferId ratePercentage :
  let result := updateTransferRate state transferId ratePercentage in
  let updated := result.1 in
  let state' := result.2 in
  let clamped := JS.Math_max 0 (JS.Math_min 100 ratePercentage) in
  (0 <= clamped <= 100 /\ (0 <= ratePercentage <= 100 -> clamped == ratePercentage)) /\
  (updated = false -> state' = state) /\
  (updated = true ->
     exists index transfer,
       active_transfers state !! index = Some transfer /\
       t_id transfer = transferId /\ isContinuous transfer = true /\
       (forall j t, (j < index)%nat -> active_transfers state !! j = Some t ->
                    t_id t <> transferId) /\
       active_transfers state'
         = <[index := set_rate_percentage (Some clamped) transfer]>
             (active_transfers state)) /\
  ((forall t, In t (active_transfers state) -> t_id t <> transferId) ->
     updated = false) /\
  probes_by_zone state' = probes_by_zone state /\
  zones state' = zones state /\
  List.map metal_rate_percentage (active_transfers state')
    = List.map metal_rate_percentage (active_transfers state) /\
  (forall zoneId exclude,
     calculateUsedMetalCapacity state' zoneId exclude
     = calculateUsedMetalCapacity state zoneId exclude).
Proof.
  intros result updated state' clamped.
  assert (Hclamp : 0 <= clamped <= 100 /\
                   (0 <= ratePercentage <= 100 -> clamped == ratePercentage)).
  { subst clamped. split; [split|].
    - apply JSFacts.max_nonneg.
    - apply Q.max_lub; [discriminate|apply JSFacts.min_le_l].
    - intros [H0 H1].
      assert (Hm : JS.Math_min 100 ratePercentage == ratePercentage)
        by (apply Q.min_r; exact H1).
      rewrite JSFacts.max_zero_of_nonneg; [exact Hm|]. rewrite Hm. exact H0. }
  split; [exact Hclamp|].
  subst updated state' result. unfold updateTransferRate.
  destruct (findIndex transferId (active_transfers state)) as [index|] eqn:Ef.
  - destruct (findIndex_Some _ _ _ Ef) as (transfer & Hlk & Hid & Hbefore).
    rewrite Hlk.
    destruct (isContinuous transfer) eqn:Ec; cbn [negb fst snd].
    + fold clamped.
      split; [discriminate|].
      split; [intros _; exists index, transfer; repeat split; assumption|].
      split.
      { intros H. exfalso. apply (H transfer); [|exact Hid].
        apply list_elem_of_lookup_2 in Hlk. apply list_elem_of_In. exact Hlk. }
      split; [reflexivity|]. split; [reflexivity|].
      cbn [active_transfers set_active_transfers].
      split.
      { rewrite list_fmap_insert.
        change (metal_rate_percentage (set_rate_percentage (Some clamped) transfer))
          with (metal_rate_percentage transfer).
        apply list_insert_id. rewrite list_lookup_fmap, Hlk. reflexivity. }
      intros zoneId exclude. unfold calculateUsedMetalCapacity.
      cbn [active_transfers zones set_active_transfers].
      apply (used_fold_insert _ _ _ _ index transfer); [exact Hlk|].
      intros r. reflexivity.
    + split; [reflexivity|]. split; [discriminate|].
      split; [reflexivity|]. repeat split.
  - cbn [fst snd]. split; [reflexivity|]. split; [discriminate|].
    split; [reflexivity|]. repeat split.
Qed.

(** Pausing.  The call fails exactly when no transfer has the id, and then
    changes nothing; otherwise it sets the [paused] flag of a continuous
    transfer, or the status of a one-time transfer, on the first transfer
    with the id and touches neither probes nor zones.  A paused continuous
    transfer takes up no launch capacity.  Pausing and then resuming a
    transfer that was running gives back the state exactly. *)
Theorem pause_round_trip state transferId pause :
  let result := pauseTransfer state transferId pause in
  let found := result.1 in
  let state' := result.2 in
  (found = false <->
     forall t, In t (active_transfers state) -> t_id t <> transferId) /\
  (found = false -> state' = state) /\
  (found = true ->
     exists index transfer,
       active_transfers state !! index = Some transfer /\
       t_id transfer = transferId /\
       (forall j t, (j < index)%nat -> active_transfers state !! j = Some t ->
                    t_id t <> transferId) /\
       active_transfers state'
         = <[index := if isContinuous transfer then set_paused pause transfer
                      else set_status (if pause then "paused" else "traveling") transfer]>
             (active_transfers state) /\
       (isContinuous transfer = true -> pause = true ->
          forall zoneId exclude,
            usesCapacity zoneId exclude (set_paused pause transfer) = false) /\
       ((if isContinuous transfer then paused transfer = false
         else status transfer = "traveling") ->
          (pauseTransfer (pauseTransfer state transferId true).2 transferId false).2
          = state)) /\
  probes_by_zone state' = probes_by_zone state /\ zones state' = zones state.
Proof.
  intros result found state'.
  destruct (findIndex transferId (active_transfers state)) as [index|] eqn:Ef.
  - destruct (findIndex_Some _ _ _ Ef) as (transfer & Hlk & Hid & Hbefore).
    assert (Hres : result
              = (true,
                 set_active_transfers
                   (<[index := if isContinuous transfer then set_paused pause transfer
                               else set_status (if pause then "paused" else "traveling")
                                               transfer]>
                      (active_transfers state)) state)).
    { subst result. unfold pauseTransfer. rewrite Ef, Hlk. reflexivity. }
    subst found state'. clearbody result. subst result. cbn [fst snd].
    split.
    { split; [discriminate|]. intros H. exfalso. apply (H transfer); [|exact Hid].
      apply list_elem_of_lookup_2 in Hlk. apply list_elem_of_In. exact Hlk. }
    split; [discriminate|].
    split; [|split; reflexivity].
    intros _. exists index, transfer.
    split; [exact Hlk|]. split; [exact Hid|]. split; [exact Hbefore|].
    split; [reflexivity|].
    split.
    { intros Hc -> zoneId exclude. unfold usesCapacity.
      cbn [paused set_paused negb]. rewrite !andb_false_r. reflexivity. }
    intros Hstate.
    unfold pauseTransfer. rewrite Ef, Hlk. cbn [snd active_transfers set_active_transfers].
    set (t1 := if isContinuous transfer then set_paused true transfer
               else set_status "paused" transfer).
    assert (Hid1 : t_id t1 = t_id transfer)
      by (subst t1; destruct (isContinuous transfer); reflexivity).
    assert (Hc1 : isContinuous t1 = isContinuous transfer)
      by (subst t1; unfold isContinuous;
          destruct (String.eqb (V1.type transfer) "continuous") eqn:E; exact E).
    rewrite (findIndex_insert transferId _ index transfer t1 Hlk Hid1), Ef.
    rewrite list_lookup_insert_eq by (apply lookup_lt_Some in Hlk; exact Hlk).
    cbn [snd]. rewrite Hc1.
    assert (Hback : (if isContinuous transfer then set_paused false t1
                     else set_status "traveling" t1) = transfer).
    { subst t1. destruct (isContinuous transfer); destruct transfer; simpl in *;
        subst; reflexivity. }
    rewrite Hback.
    cbn [active_transfers set_active_transfers].
    rewrite set_active_transfers_twice, insert_back by exact Hlk.
    apply set_active_transfers_id.
  - assert (Hres : result = (false, state)).
    { subst result. unfold pauseTransfer. rewrite Ef. reflexivity. }
    subst found state'. clearbody result. subst result. cbn [fst snd].
    split.
    { split; [intros _; apply findIndex_None; exact Ef|reflexivity]. }
    split; [reflexivity|]. split; [discriminate|]. split; reflexivity.
Qed.

Section System.

Variable orbitalZones : Registry.
Variable calculateDeltaV : string -> string -> Skills -> Q.
Variable calculateTransferTime : string -> string -> Skills -> Q.
Variable calculateUpgradeFactorFromCoefficients : string -> Skills -> Q.

(** Launch capacity: the capacity in use is the zone's stored metal times
    the summed rates of the unpaused continuous metal transfers leaving the
    zone (one-time, paused, probe and excluded transfers use none); the
    available capacity is never negative, a zone without mass drivers has
    capacity 0, and with non-negative stock and rates the capacity in use is
    non-negative, does not grow when a transfer is excluded, and the
    available capacity never exceeds the total. *)
Theorem metal_capacity_accounting state zoneId buildingsData exclude :
  let used := calculateUsedMetalCapacity state zoneId exclude in
  let total :=
    calculateMetalTransferCapacity calculateUpgradeFactorFromCoefficients
      state zoneId buildingsData in
  let available :=
    getAvailableMetalCapacity calculateUpgradeFactorFromCoefficients
      state zoneId buildingsData exclude in
  used == storedAt state zoneId
          * rateSum (List.filter (usesCapacity zoneId exclude) (active_transfers state))
          / 100 /\
  0 <= available /\
  (massDriverCount state zoneId == 0 -> total = 0) /\
  (0 <= storedAt state zoneId ->
   (forall t, In t (active_transfers state) ->
              0 <= JS.orZero (metal_rate_percentage t)) ->
     0 <= used /\
     available <= JS.Math_max 0 total /\
     (total <= 0 -> available == 0) /\
     forall e, calculateUsedMetalCapacity state zoneId (Some e)
               <= calculateUsedMetalCapacity state zoneId None).
Proof.
  intros used total available.
  assert (Hused : forall ex, calculateUsedMetalCapacity state zoneId ex
            == storedAt state zoneId
               * rateSum (List.filter (usesCapacity zoneId ex) (active_transfers state))
               / 100).
  { intros ex. unfold calculateUsedMetalCapacity. rewrite used_fold.
    unfold storedAt, Qdiv. ring. }
  split; [apply Hused|].
  split; [apply JSFacts.max_nonneg|].
  split.
  - intros H. subst total. unfold calculateMetalTransferCapacity.
    apply JSFacts.eqb_eq in H. rewrite H. reflexivity.
  - intros Hs Hr.
    assert (Hfil : forall ex t,
              In t (List.filter (usesCapacity zoneId ex) (active_transfers state)) ->
              0 <= JS.orZero (metal_rate_percentage t)).
    { intros ex t Ht. apply filter_In in Ht. apply Hr. apply Ht. }
    assert (Hnn : forall ex, 0 <= calculateUsedMetalCapacity state zoneId ex).
    { intros ex. rewrite Hused.
      pose proof (rateSum_nonneg _ (Hfil ex)) as H1.
      apply Qle_shift_div_l; [reflexivity|].
      setoid_replace (0 * 100) with 0 using relation Qeq by ring.
      apply Qmult_le_0_compat; assumption. }
    pose proof (Hnn exclude) as Hu. fold used in Hu.
    assert (Hav : available = JS.Math_max 0 (total - used)) by reflexivity.
    clearbody used total available.
    split; [exact Hu|].
    assert (Ha : available <= JS.Math_max 0 total).
    { rewrite Hav. apply Q.max_le_compat_l. lra. }
    split; [exact Ha|].
    split.
    + intros Ht.
      assert (H0 : JS.Math_max 0 total == 0) by (apply JSFacts.max_zero_of_nonpos; exact Ht).
      pose proof (JSFacts.max_nonneg (total - used)) as H1.
      rewrite <- Hav in H1. lra.
    + intros e. rewrite !Hused.
      pose proof (rateSum_filter_le zoneId e (active_transfers state) Hr) as H1.
      unfold Qdiv. apply Qmult_le_compat_r; [|discriminate].
      revert H1 Hs.
      generalize (rateSum (List.filter (usesCapacity zoneId (Some e)) (active_transfers state))).
      generalize (rateSum (List.filter (usesCapacity zoneId None) (active_transfers state))).
      generalize (storedAt state zoneId).
      intros s b a H1 Hs.
      assert (H2 : 0 <= s * (b - a)) by (apply Qmult_le_0_compat; lra).
      lra.
Qed.

Lemma multiplier_half n : JS.ltb 0 n = true -> calculateMassDriverSpeedMultiplier n = 1 # 2.
Proof.
  intros H. apply JSFacts.ltb_lt in H. unfold calculateMassDriverSpeedMultiplier.
  destruct (JS.eqb n 0) eqn:E; [|reflexivity].
  apply JSFacts.eqb_eq in E. lra.
Qed.

(** Creating a transfer.  An unknown zone, and metal leaving a zone without
    a mass driver, are refused with the accumulators as they were; a
    one-time request never writes the accumulators; a probe request between
    known zones with a positive travel time succeeds.  Every transfer handed
    out runs between known zones, travels, is not paused, has a positive
    travel time (the Hohmann time, halved by a mass driver, tripled for
    metal to the Dyson sphere), departs now and arrives after that time; a
    continuous one starts with an empty queue and an accumulator of 0, and a
    continuous metal rate is capped by the available launch capacity. *)
Theorem createTransfer_validates acc state fromZoneId toZoneId resourceType probeType
    resourceCount skills type ratePercentage transferId :
  let result :=
    createTransfer orbitalZones calculateDeltaV calculateTransferTime
      calculateUpgradeFactorFromCoefficients acc state fromZoneId toZoneId
      resourceType probeType resourceCount skills type ratePercentage transferId in
  let currentTime := JS.orZero (time state) in
  let currentSkills := match skills with Some s => s | None => skillsOf state end in
  (getZone orbitalZones fromZoneId = None ->
     result = (Failure (ZoneNotFound fromZoneId), acc)) /\
  (getZone orbitalZones fromZoneId <> None -> getZone orbitalZones toZoneId = None ->
     result = (Failure (ZoneNotFound toZoneId), acc)) /\
  (getZone orbitalZones fromZoneId <> None -> getZone orbitalZones toZoneId <> None ->
   resourceType = "metal" -> hasMassDriver state fromZoneId = false ->
     result = (Failure MassDriverRequired, acc)) /\
  (type = "one-time" -> snd result = acc) /\
  (getZone orbitalZones fromZoneId <> None -> getZone orbitalZones toZoneId <> None ->
   resourceType <> "metal" -> 0 <= currentTime ->
   0 < calculateTransferTime fromZoneId toZoneId currentSkills ->
     exists transfer acc', result = (Success transfer, acc')) /\
  (forall transfer acc', result = (Success transfer, acc') ->
     getZone orbitalZones fromZoneId <> None /\
     getZone orbitalZones toZoneId <> None /\
     (resourceType = "metal" -> hasMassDriver state fromZoneId = true) /\
     t_id transfer = transferId /\
     from_zone transfer = fromZoneId /\ to_zone transfer = toZoneId /\
     resource_type transfer = Some resourceType /\
     V1.type transfer = type /\
     status transfer = "traveling" /\ paused transfer = false /\
     0 < transfer_time transfer /\
     transfer_time transfer
       == scheduledTime calculateTransferTime state fromZoneId toZoneId resourceType currentSkills /\
     departure_time transfer = Some currentTime /\
     arrival_time transfer = Some (currentTime + transfer_time transfer) /\
     (type = "one-time" -> acc' = acc /\ in_transit transfer = None) /\
     (type <> "one-time" ->
        acc' = <[transferId := 0]> acc /\ in_transit transfer = Some []) /\
     (resourceType = "metal" -> type = "continuous" -> 0 < ratePercentage ->
        exists rate,
          metal_rate_percentage transfer = Some rate /\
          0 < rate /\ rate <= ratePercentage /\
          rate <= getAvailableMetalCapacity calculateUpgradeFactorFromCoefficients
                    state fromZoneId None None)).
Proof.
  intros result currentTime currentSkills. subst result.
  unfold createTransfer. fold currentTime. fold currentSkills.
  destruct (getZone orbitalZones fromZoneId) as [fz|] eqn:Ef.
  2:{ repeat split; first [congruence | intros; discriminate]. }
  destruct (getZone orbitalZones toZoneId) as [tz|] eqn:Et.
  2:{ repeat split; first [congruence | intros; discriminate]. }
  change (JS.ltb 0 (massDriverCount state fromZoneId))
    with (hasMassDriver state fromZoneId).
  unfold scheduledTime.
  set (base := calculateTransferTime fromZoneId toZoneId currentSkills).
  set (avail := getAvailableMetalCapacity _ _ _ _ _).
  set (dv := calculateDeltaV _ _ _).
  destruct (hasMassDriver state fromZoneId) eqn:Emd;
    [rewrite (multiplier_half _ Emd)|];
    destruct (String.eqb resourceType "metal") eqn:Em;
    destruct (isDysonDestination toZoneId);
    destruct (JS.leb base 0) eqn:Eb;
    simpl.
  all: try (apply JSFacts.leb_gt in Eb).
  all: repeat match goal with
       | |- context [if ?b then (_, _) else _] =>
           let E := fresh "E" in destruct b eqn:E
       end.
  all: try match goal with
       | E : String.eqb _ "one-time" = true |- _ => apply String.eqb_eq in E
       | E : String.eqb _ "one-time" = false |- _ => apply String.eqb_neq in E
       end.
  all: try match goal with
       | E : String.eqb _ "metal" = false |- _ => apply String.eqb_neq in E
       | E : String.eqb _ "metal" = true |- _ => apply String.eqb_eq in E
       end.
  all: repeat match goal with
       | E : JS.leb _ 0 = false |- _ => apply JSFacts.leb_gt in E
       end.
  all: repeat match goal with
       | E : JS.leb _ 0 = true |- _ => apply JSFacts.leb_le in E
       | E : JS.eqb _ 0 = true |- _ => apply JSFacts.eqb_eq in E
       end.
  all: repeat split; intros;
       try match goal with
           | H : (_, _) = (Success _, _) |- _ => inversion H; subst; clear H
           end;
       simpl in *; try congruence; try discriminate; try reflexivity; try lra.
  all: try (eexists; eexists; reflexivity).
  all: clearbody avail.
  all: match goal with
       | Hr : 0 < ?r, E : JS.ltb 0 ?r && JS.leb ?a 0 = false |- _ =>
           let Hb := fresh "Hb" in
           assert (Hb : JS.ltb 0 r = true) by (apply JSFacts.ltb_lt; exact Hr);
           rewrite Hb in E |- *; simpl in E |- *;
           apply JSFacts.leb_gt in E;
           destruct (JS.ltb a r) eqn:Ea;
           [apply JSFacts.ltb_lt in Ea | apply JSFacts.ltb_ge in Ea];
           eexists; (split; [reflexivity|]); repeat split; lra
       end.
Qed.

(** Sending probes on a continuous transfer with a positive rate from a
    zone that builds probes.  What accrues is the accumulator plus
    production * rate / 100 * dt; the batch is 0 until both the accrued
    amount and the stock reach one probe, then the whole probes of the
    smaller.  The loop stops by its own test after that batch.  The
    accumulator keeps the accrued remainder, the source zone loses exactly
    the batch, no other probe count moves, the batch is queued with arrival
    now + travel time, and the zone's probe mass drops by 100 kg per probe
    sent, not below 0. *)
Theorem continuous_probe_dispatch acc state transfer deltaTime currentTime :
  resourceOf transfer = "probe" ->
  0 < JS.orZero (rate_percentage transfer) ->
  0 < getZoneProbeProductionRate state (from_zone transfer) ->
  let fromZoneId := from_zone transfer in
  let probeType := JS.orString "probe" (probe_type transfer) in
  let available := heldAt state fromZoneId probeType in
  let accrued :=
    JS.orZero (acc !! t_id transfer)
    + getZoneProbeProductionRate state fromZoneId
      * JS.orZero (rate_percentage transfer) / 100 * deltaTime in
  let sent := batchOf MIN_PROBE_BATCH accrued available in
  let result :=
    processContinuousTransfer calculateTransferTime
      calculateUpgradeFactorFromCoefficients acc state transfer deltaTime currentTime in
  let acc' := result.1.1 in
  let state' := result.1.2 in
  let transfer' := result.2 in
  (0 <= sent /\ JS.isInteger sent /\
   (0 < sent -> 1 <= sent /\ sent <= available /\ sent <= accrued)) /\
  (accrued - sent < 1 \/ available - sent < 1) /\
  ((exists a, acc' !! t_id transfer = Some a /\ a == accrued - sent) /\
   forall k, k <> t_id transfer -> acc' !! k = acc !! k) /\
  heldAt state' fromZoneId probeType == available - sent /\
  (forall z p, (z, p) <> (fromZoneId, probeType) -> heldAt state' z p = heldAt state z p) /\
  sumCounts (batchesOf transfer') == sumCounts (batchesOf transfer) + sent /\
  (sent == 0 -> batchesOf transfer' = batchesOf transfer /\
                probeMassAt state' fromZoneId = probeMassAt state fromZoneId) /\
  (0 < sent ->
     batchesOf transfer'
       = (batchesOf transfer
          ++ [probeBatch sent currentTime (currentTime + transfer_time transfer')])%list /\
     arrival_time transfer' = Some (currentTime + transfer_time transfer') /\
     probeMassAt state' fromZoneId
       == JS.Math_max 0 (probeMassAt state fromZoneId - sent * PROBE_MASS)) /\
  last_send_time transfer' = Some currentTime /\
  t_id transfer' = t_id transfer /\ V1.type transfer' = V1.type transfer /\
  from_zone transfer' = from_zone transfer /\ to_zone transfer' = to_zone transfer.
Proof.
  intros Hres Hrate Hprod fromZoneId probeType available accrued sent result.
  subst result. unfold processContinuousTransfer.
  set (T := if isDysonDestination (to_zone transfer) && _ then _ else _).
  change (resourceOf (set_transfer_time T transfer)) with (resourceOf transfer).
  rewrite Hres.
  change (String.eqb "probe" "probe") with true. cbv iota.
  change (rate_percentage (set_transfer_time T transfer)) with (rate_percentage transfer).
  change (from_zone (set_transfer_time T transfer)) with (from_zone transfer).
  change (probe_type (set_transfer_time T transfer)) with (probe_type transfer).
  change (t_id (set_transfer_time T transfer)) with (t_id transfer).
  fold fromZoneId. fold probeType.
  assert (Hr : JS.leb (JS.orZero (rate_percentage transfer)) 0 = false)
    by (apply JSFacts.leb_gt; exact Hrate).
  assert (Hp : JS.leb (getZoneProbeProductionRate state fromZoneId) 0 = false)
    by (apply JSFacts.leb_gt; exact Hprod).
  rewrite Hr, Hp.
  change (JS.orZero (JS.orEmpty (probes_by_zone state !! fromZoneId) !! probeType))
    with available.
  fold accrued.
  unfold sent, batchOf, MIN_PROBE_BATCH.
  destruct (JS.leb 1 accrued && JS.leb 1 available) eqn:Econd.
  - apply andb_true_iff in Econd. destruct Econd as [Ha Hv].
    apply JSFacts.leb_le in Ha. apply JSFacts.leb_le in Hv.
    unfold loopBound.
    unfold available, heldAt in Hv |- *.
    rewrite (sendProbes_once _ currentTime T probeType accrued
               (JS.orEmpty (probes_by_zone state !! fromZoneId))
               (set_transfer_time T transfer) Ha Hv).
    fold (heldAt state fromZoneId probeType) in Hv |- *. fold available in Hv |- *.
    set (n := JS.Math_floor (JS.Math_min accrued available)).
    cbn [ps_accumulated ps_available ps_totalProbesSent ps_zoneProbes ps_transfer fst snd].
    assert (Hmin : 1 <= JS.Math_min accrued available)
      by (apply JSFacts.min_glb; assumption).
    pose proof (floor_at_least_one _ Hmin) as Hn. fold n in Hn.
    destruct (floor_min_bounds accrued available) as (Hna & Hnv & Hstop).
    fold n in Hna, Hnv, Hstop.
    pose proof (JSFacts.floor_isInteger (JS.Math_min accrued available)) as Hint.
    fold n in Hint.
    assert (Hlt : JS.ltb 0 (0 + n) = true) by (apply JSFacts.ltb_lt; lra).
    rewrite Hlt.
    destruct (probes_by_zone state !! fromZoneId) as [zp|] eqn:Ezp.
    2:{ exfalso. unfold available, heldAt in Hv. rewrite Ezp in Hv.
        change (JS.orZero (JS.orEmpty None !! probeType)) with 0 in Hv. lra. }
    assert (Hmax : JS.Math_max 0 (available - n) == available - n)
      by (apply JSFacts.max_zero_of_nonneg; lra).
    split; [split; [lra|split; [exact Hint|intros _; repeat split; assumption]]|].
    split; [exact Hstop|].
    split.
    { split.
      - eexists. split; [apply lookup_insert_eq|reflexivity].
      - intros k Hk. apply lookup_insert_ne. congruence. }
    split.
    { cbn [probes_by_zone set_probes_by_zone]. rewrite lookup_insert_eq.
      cbn [JS.orEmpty]. rewrite lookup_insert_eq.
      rewrite JSFacts.orZero_Some. exact Hmax. }
    split.
    { intros z p Hzp. cbn [probes_by_zone set_probes_by_zone].
      destruct (decide (z = fromZoneId)) as [->|Hz].
      - rewrite lookup_insert_eq, Ezp. cbn [JS.orEmpty].
        rewrite lookup_insert_ne by congruence. reflexivity.
      - rewrite lookup_insert_ne by congruence. reflexivity. }
    split.
    { cbn [batchesOf in_transit set_last_send_time pushBatch set_arrival_time set_in_transit].
      rewrite sumCounts_app, sumCounts_single.
      cbn [count probeBatch]. rewrite JSFacts.orZero_Some.
      reflexivity. }
    split; [intros H0; exfalso; lra|].
    split.
    { intros _. split; [reflexivity|]. split; [reflexivity|].
      unfold probeMassAt. cbn [zones set_probes_by_zone set_zones].
      rewrite lookup_insert_eq. cbn [probe_mass set_probe_mass].
      rewrite JSFacts.orZero_Some.
      unfold zoneOrFresh.
      destruct (zones state !! fromZoneId) as [zone|]; cbn [probe_mass freshZone].
      + apply Q.max_compat; [reflexivity|]. ring.
      + apply Q.max_compat; [reflexivity|].
        rewrite JSFacts.orZero_Some. change (JS.orZero None) with 0. ring. }
    repeat split.
  - assert (Hstop : accrued - 0 < 1 \/ available - 0 < 1).
    { apply andb_false_iff in Econd. destruct Econd as [E|E];
        apply JSFacts.leb_gt in E; [left|right]; lra. }
    rewrite sendProbes_stop by exact Econd.
    cbn [ps_accumulated ps_available ps_totalProbesSent ps_zoneProbes ps_transfer fst snd].
    change (JS.ltb 0 0) with false. cbv iota.
    assert (Hpbz : match probes_by_zone state !! fromZoneId with
                   | Some _ => <[fromZoneId := JS.orEmpty (probes_by_zone state !! fromZoneId)]>
                                 (probes_by_zone state)
                   | None => probes_by_zone state
                   end = probes_by_zone state).
    { destruct (probes_by_zone state !! fromZoneId) eqn:E; [|reflexivity].
      apply insert_id. exact E. }
    rewrite Hpbz.
    split; [split; [lra|split; [apply JSFacts.isInteger_inject with (z := 0%Z)|intros H0; lra]]|].
    split; [exact Hstop|].
    split.
    { split.
      - exists accrued. split; [apply lookup_insert_eq|ring].
      - intros k Hk. apply lookup_insert_ne. congruence. }
    split; [unfold available, heldAt; cbn [probes_by_zone set_probes_by_zone]; ring|].
    split; [intros z p _; reflexivity|].
    split; [change (batchesOf (set_last_send_time (Some currentTime) (set_transfer_time T transfer))) with (batchesOf transfer); ring|].
    split; [intros _; split; reflexivity|].
    split; [intros H0; lra|].
    repeat split.
Qed.

(** Sending metal on a continuous transfer with a positive rate from a
    zone with metal in store.  The send rate is the requested share of the
    stock capped by the launch capacity the other transfers leave, so it is
    0 without capacity; nothing leaves until 100 kg have accrued and are in
    store, then the whole kilograms of the smaller.  The loop stops by its
    own test after that batch.  The accumulator keeps the remainder, the
    source zone's stock drops by exactly the batch, no other zone and no
    probe count changes, and the batch is queued with arrival now + travel
    time. *)
Theorem continuous_metal_dispatch acc state transfer deltaTime currentTime :
  resourceOf transfer = "metal" ->
  0 < JS.orZero (metal_rate_percentage transfer) ->
  0 < storedAt state (from_zone transfer) ->
  let fromZoneId := from_zone transfer in
  let available := storedAt state fromZoneId in
  let requested := available * (JS.orZero (metal_rate_percentage transfer) / 100) in
  let capacity :=
    JS.Math_max 0
      (calculateMetalTransferCapacity calculateUpgradeFactorFromCoefficients
         state fromZoneId None
       - calculateUsedMetalCapacity state fromZoneId (Some (t_id transfer))) in
  let sendRate := JS.Math_min requested capacity in
  let accrued := JS.orZero (acc !! t_id transfer) + sendRate * deltaTime in
  let sent := batchOf MIN_METAL_BATCH_KG accrued available in
  let result :=
    processContinuousTransfer calculateTransferTime
      calculateUpgradeFactorFromCoefficients acc state transfer deltaTime currentTime in
  let acc' := result.1.1 in
  let state' := result.1.2 in
  let transfer' := result.2 in
  (0 <= sendRate /\ sendRate <= requested /\ sendRate <= capacity) /\
  (0 <= sent /\ JS.isInteger sent /\
   (0 < sent -> 100 <= sent /\ sent <= available /\ sent <= accrued)) /\
  (accrued - sent < 100 \/ available - sent < 100) /\
  ((exists a, acc' !! t_id transfer = Some a /\ a == accrued - sent) /\
   forall k, k <> t_id transfer -> acc' !! k = acc !! k) /\
  storedAt state' fromZoneId == available - sent /\
  (forall z, z <> fromZoneId -> zones state' !! z = zones state !! z) /\
  probes_by_zone state' = probes_by_zone state /\
  sumMasses (batchesOf transfer') == sumMasses (batchesOf transfer) + sent /\
  (sent == 0 -> batchesOf transfer' = batchesOf transfer /\ state' = state) /\
  (0 < sent ->
     batchesOf transfer'
       = (batchesOf transfer
          ++ [metalBatch sent currentTime (currentTime + transfer_time transfer')])%list /\
     arrival_time transfer' = Some (currentTime + transfer_time transfer')) /\
  last_send_time transfer' = Some currentTime /\
  t_id transfer' = t_id transfer /\ V1.type transfer' = V1.type transfer /\
  from_zone transfer' = from_zone transfer /\ to_zone transfer' = to_zone transfer.
Proof.
  intros Hres Hrate Hstored fromZoneId available requested capacity sendRate accrued
         sent result.
  subst result. unfold processContinuousTransfer.
  set (T := if isDysonDestination (to_zone transfer) && _ then _ else _).
  change (resourceOf (set_transfer_time T transfer)) with (resourceOf transfer).
  rewrite Hres.
  change (String.eqb "metal" "probe") with false.
  change (String.eqb "metal" "metal") with true. cbv iota.
  change (metal_rate_percentage (set_transfer_time T transfer))
    with (metal_rate_percentage transfer).
  change (from_zone (set_transfer_time T transfer)) with (from_zone transfer).
  change (t_id (set_transfer_time T transfer)) with (t_id transfer).
  fold fromZoneId.
  change (storedMetalOf (zones state) fromZoneId) with available.
  fold requested. fold capacity. fold sendRate. fold accrued.
  assert (Hr : JS.leb (JS.orZero (metal_rate_percentage transfer)) 0 = false)
    by (apply JSFacts.leb_gt; exact Hrate).
  assert (Hreq : 0 < requested).
  { unfold requested. apply Qmult_lt_0_compat; [exact Hstored|].
    apply Qlt_shift_div_l; [reflexivity|]. lra. }
  assert (Hq : JS.leb requested 0 = false) by (apply JSFacts.leb_gt; exact Hreq).
  rewrite Hr, Hq.
  assert (Hcap : 0 <= capacity) by apply JSFacts.max_nonneg.
  assert (Hrate3 : 0 <= sendRate /\ sendRate <= requested /\ sendRate <= capacity).
  { unfold sendRate. split; [apply JSFacts.min_glb; lra|].
    split; [apply JSFacts.min_le_l|apply JSFacts.min_le_r]. }
  split; [exact Hrate3|].
  unfold sent, batchOf, MIN_METAL_BATCH_KG.
  destruct (JS.leb 100 accrued && JS.leb 100 available) eqn:Econd.
  - apply andb_true_iff in Econd. destruct Econd as [Ha Hv].
    apply JSFacts.leb_le in Ha. apply JSFacts.leb_le in Hv.
    unfold loopBound.
    unfold available, storedAt in Hv |- *.
    rewrite (sendMetal_once _ currentTime T fromZoneId accrued (zones state)
               (set_transfer_time T transfer) Ha Hv).
    fold (storedAt state fromZoneId) in Hv |- *. fold available in Hv |- *.
    set (n := JS.Math_floor (JS.Math_min accrued available)).
    cbn [ms_accumulated ms_available ms_zones ms_transfer fst snd].
    assert (Hmin : 100 <= JS.Math_min accrued available)
      by (apply JSFacts.min_glb; assumption).
    pose proof (floor_ge_hundred _ Hmin) as Hn. fold n in Hn.
    destruct (floor_min_bounds accrued available) as (Hna & Hnv & Hstop).
    fold n in Hna, Hnv, Hstop.
    pose proof (JSFacts.floor_isInteger (JS.Math_min accrued available)) as Hint.
    fold n in Hint.
    pose proof (stored_zoneOrFresh (zones state) fromZoneId) as Hs.
    fold (storedAt state fromZoneId) in Hs. fold available in Hs.
    assert (Hmax : JS.Math_max 0
                     (JS.orZero (stored_metal (zoneOrFresh (zones state) fromZoneId)) - n)
                   == available - n).
    { rewrite JSFacts.max_zero_of_nonneg; lra. }
    split; [split; [lra|split; [exact Hint|intros _; repeat split; assumption]]|].
    split; [destruct Hstop; [left|right]; lra|].
    split.
    { split.
      - eexists. split; [apply lookup_insert_eq|reflexivity].
      - intros k Hk. apply lookup_insert_ne. congruence. }
    split.
    { unfold storedAt, storedMetalOf. cbn [zones set_zones].
      rewrite lookup_insert_eq. cbn [stored_metal set_stored_metal].
      rewrite JSFacts.orZero_Some. exact Hmax. }
    split.
    { intros z Hz. cbn [zones set_zones]. apply lookup_insert_ne. congruence. }
    split; [reflexivity|].
    split.
    { cbn [batchesOf in_transit set_last_send_time pushBatch set_arrival_time set_in_transit].
      rewrite sumMasses_app, sumMasses_single.
      cbn [mass_kg metalBatch]. rewrite JSFacts.orZero_Some.
      reflexivity. }
    split; [intros H0; exfalso; lra|].
    split; [intros _; split; reflexivity|].
    repeat split.
  - assert (Hstop : accrued - 0 < 100 \/ available - 0 < 100).
    { apply andb_false_iff in Econd. destruct Econd as [E|E];
        apply JSFacts.leb_gt in E; [left|right]; lra. }
    rewrite sendMetal_stop by exact Econd.
    cbn [ms_accumulated ms_available ms_zones ms_transfer fst snd].
    rewrite set_zones_id.
    split; [split; [lra|split; [apply JSFacts.isInteger_inject with (z := 0%Z)|intros H0; lra]]|].
    split; [exact Hstop|].
    split.
    { split.
      - exists accrued. split; [apply lookup_insert_eq|ring].
      - intros k Hk. apply lookup_insert_ne. congruence. }
    split; [fold available; ring|].
    split; [intros z _; reflexivity|].
    split; [reflexivity|].
    split; [change (batchesOf (set_last_send_time (Some currentTime) (set_transfer_time T transfer))) with (batchesOf transfer); ring|].
    split; [intros _; split; reflexivity|].
    split; [intros H0; lra|].
    repeat split.
Qed.

Lemma probe_dispatch_unfold acc state transfer deltaTime currentTime :
  resourceOf transfer = "probe" ->
  0 < JS.orZero (rate_percentage transfer) ->
  0 < getZoneProbeProductionRate state (from_zone transfer) ->
  processContinuousTransfer calculateTransferTime
    calculateUpgradeFactorFromCoefficients acc state transfer deltaTime currentTime
  = let fromZoneId := from_zone transfer in
    let probeType := JS.orString "probe" (probe_type transfer) in
    let T := travelTime calculateTransferTime state transfer in
    let accrued :=
      JS.orZero (acc !! t_id transfer)
      + getZoneProbeProductionRate state fromZoneId
        * JS.orZero (rate_percentage transfer) / 100 * deltaTime in
    let sent :=
      sendProbes (loopBound accrued) currentTime T probeType
        {| ps_accumulated := accrued;
           ps_available := heldAt state fromZoneId probeType;
           ps_totalProbesSent := 0;
           ps_zoneProbes := JS.orEmpty (probes_by_zone state !! fromZoneId);
           ps_transfer := set_transfer_time T transfer |} in
    (<[t_id transfer := ps_accumulated sent]> acc,
     set_probes_by_zone
       match probes_by_zone state !! fromZoneId with
       | Some _ => <[fromZoneId := ps_zoneProbes sent]> (probes_by_zone state)
       | None => probes_by_zone state
       end
       (set_zones
          (if JS.ltb 0 (ps_totalProbesSent sent) then
             <[fromZoneId :=
                 set_probe_mass
                   (Some (JS.Math_max 0
                            (JS.orZero (probe_mass (zoneOrFresh (zones state) fromZoneId))
                             - ps_totalProbesSent sent * PROBE_MASS)))
                   (zoneOrFresh (zones state) fromZoneId)]> (zones state)
           else zones state) state),
     set_last_send_time (Some currentTime) (ps_transfer sent)).
Proof.
  intros Hres Hrate Hprod. cbv zeta.
  unfold processContinuousTransfer.
  fold (travelTime calculateTransferTime state transfer).
  set (T := travelTime calculateTransferTime state transfer).
  change (resourceOf (set_transfer_time T transfer)) with (resourceOf transfer).
  rewrite Hres.
  change (String.eqb "probe" "probe") with true. cbv iota.
  change (rate_percentage (set_transfer_time T transfer)) with (rate_percentage transfer).
  change (from_zone (set_transfer_time T transfer)) with (from_zone transfer).
  change (probe_type (set_transfer_time T transfer)) with (probe_type transfer).
  change (t_id (set_transfer_time T transfer)) with (t_id transfer).
  assert (Hr : JS.leb (JS.orZero (rate_percentage transfer)) 0 = false)
    by (apply JSFacts.leb_gt; exact Hrate).
  assert (Hp : JS.leb (getZoneProbeProductionRate state (from_zone transfer)) 0 = false)
    by (apply JSFacts.leb_gt; exact Hprod).
  rewrite Hr, Hp. reflexivity.
Qed.

(** The accumulators are state of their own.  Take a probe transfer whose
    gain in this tick is below one probe, from a zone holding at least one.
    An engine whose accumulator for the transfer brings the accrued amount
    to one probe sends a batch: the source zone loses at least one probe and
    the queue grows by one batch.  An engine with the same game state and
    no accumulators, as after a reload, sends nothing: the zone keeps its
    probes and the queue is unchanged.  The two resulting game states
    differ. *)
Theorem accumulators_decide_what_is_sent acc state transfer deltaTime currentTime :
  resourceOf transfer = "probe" ->
  0 < JS.orZero (rate_percentage transfer) ->
  0 < getZoneProbeProductionRate state (from_zone transfer) ->
  let fromZoneId := from_zone transfer in
  let probeType := JS.orString "probe" (probe_type transfer) in
  let gain :=
    getZoneProbeProductionRate state fromZoneId
    * JS.orZero (rate_percentage transfer) / 100 * deltaTime in
  gain < 1 ->
  1 <= JS.orZero (acc !! t_id transfer) + gain ->
  1 <= heldAt state fromZoneId probeType ->
  let kept :=
    processContinuousTransfer calculateTransferTime
      calculateUpgradeFactorFromCoefficients acc state transfer deltaTime currentTime in
  let fresh :=
    processContinuousTransfer calculateTransferTime
      calculateUpgradeFactorFromCoefficients ∅ state transfer deltaTime currentTime in
  heldAt (fresh.1.2) fromZoneId probeType == heldAt state fromZoneId probeType /\
  batchesOf (fresh.2) = batchesOf transfer /\
  heldAt (kept.1.2) fromZoneId probeType <= heldAt state fromZoneId probeType - 1 /\
  length (batchesOf (kept.2)) = S (length (batchesOf transfer)) /\
  kept.1.2 <> fresh.1.2.
Proof.
  intros Hres Hrate Hprod fromZoneId probeType gain Hgain Hacc Hheld kept fresh.
  assert (Hk := probe_dispatch_unfold acc state transfer deltaTime currentTime
                  Hres Hrate Hprod).
  assert (Hf := probe_dispatch_unfold ∅ state transfer deltaTime currentTime
                  Hres Hrate Hprod).
  fold kept in Hk. fold fresh in Hf. cbv zeta in Hk, Hf.
  fold fromZoneId in Hk, Hf. fold probeType in Hk, Hf. fold gain in Hk, Hf.
  set (T := travelTime calculateTransferTime state transfer) in *.
  set (available := heldAt state fromZoneId probeType) in *.
  (* the engine that kept its accumulator sends a batch *)
  unfold loopBound in Hk.
  unfold available, heldAt in Hk, Hheld.
  rewrite (sendProbes_once _ currentTime T probeType _
             (JS.orEmpty (probes_by_zone state !! fromZoneId))
             (set_transfer_time T transfer) Hacc Hheld) in Hk.
  fold (heldAt state fromZoneId probeType) in Hk, Hheld. fold available in Hk, Hheld.
  set (accrued := JS.orZero (acc !! t_id transfer) + gain) in *.
  set (n := JS.Math_floor (JS.Math_min accrued available)) in *.
  cbn [ps_accumulated ps_available ps_totalProbesSent ps_zoneProbes ps_transfer] in Hk.
  assert (Hmin : 1 <= JS.Math_min accrued available)
    by (apply JSFacts.min_glb; assumption).
  pose proof (floor_at_least_one _ Hmin) as Hn. fold n in Hn.
  destruct (floor_min_bounds accrued available) as (Hna & Hnv & _).
  fold n in Hna, Hnv.
  (* the engine with a fresh accumulator does not *)
  assert (Hstop : JS.leb MIN_PROBE_BATCH (JS.orZero ((∅ : Accumulators) !! t_id transfer) + gain)
                  && JS.leb MIN_PROBE_BATCH available = false).
  { apply andb_false_iff. left. apply JSFacts.leb_gt.
    assert (H0 : JS.orZero ((∅ : Accumulators) !! t_id transfer) = 0) by reflexivity.
    rewrite H0. unfold MIN_PROBE_BATCH. lra. }
  rewrite sendProbes_stop in Hf by exact Hstop.
  cbn [ps_accumulated ps_available ps_totalProbesSent ps_zoneProbes ps_transfer] in Hf.
  change (JS.ltb 0 0) with false in Hf. cbv iota in Hf.
  destruct (probes_by_zone state !! fromZoneId) as [zp|] eqn:Ezp.
  2:{ exfalso. unfold available, heldAt in Hheld. rewrite Ezp in Hheld.
      change (JS.orZero (JS.orEmpty None !! probeType)) with 0 in Hheld. lra. }
  cbn [JS.orEmpty] in Hk, Hf.
  rewrite (insert_id _ _ _ Ezp) in Hf.
  assert (Hmax : JS.Math_max 0 (available - n) == available - n)
    by (apply JSFacts.max_zero_of_nonneg; lra).
  assert (Hheldk : heldAt (kept.1.2) fromZoneId probeType == available - n).
  { rewrite Hk. unfold heldAt. cbn [fst snd probes_by_zone set_probes_by_zone].
    rewrite lookup_insert_eq. cbn [JS.orEmpty]. rewrite lookup_insert_eq.
    rewrite JSFacts.orZero_Some. exact Hmax. }
  assert (Hheldf : heldAt (fresh.1.2) fromZoneId probeType = available).
  { rewrite Hf. reflexivity. }
  split; [rewrite Hheldf; reflexivity|].
  split; [rewrite Hf; reflexivity|].
  split; [rewrite Hheldk; lra|].
  split.
  { assert (Hb : batchesOf (kept.2)
                  = (batchesOf transfer
                     ++ [probeBatch n currentTime (currentTime + T)])%list)
      by (rewrite Hk; reflexivity).
    rewrite Hb, length_app. cbn [length]. lia. }
  intros Heq.
  assert (H1 : heldAt (kept.1.2) fromZoneId probeType
               == heldAt (fresh.1.2) fromZoneId probeType) by (rewrite Heq; reflexivity).
  rewrite Hheldk, Hheldf in H1. lra.
Qed.

Lemma sendProbes_frame fuel now T ptype : forall s,
  t_id (ps_transfer (sendProbes fuel now T ptype s)) = t_id (ps_transfer s) /\
  V1.type (ps_transfer (sendProbes fuel now T ptype s)) = V1.type (ps_transfer s).
Proof.
  induction fuel as [|fuel IH]; intros s; simpl; [split; reflexivity|].
  destruct (_ && _); [|split; reflexivity].
  destruct (JS.leb _ _); [|split; reflexivity].
  destruct (IH {| ps_accumulated := ps_accumulated s
                    - JS.Math_floor (JS.Math_min (ps_accumulated s) (ps_available s));
                  ps_available :=
                    JS.Math_max 0
                      (match ps_zoneProbes s !! ptype with Some n => n | None => 0 end
                       - JS.Math_floor (JS.Math_min (ps_accumulated s) (ps_available s)));
                  ps_totalProbesSent := ps_totalProbesSent s
                    + JS.Math_floor (JS.Math_min (ps_accumulated s) (ps_available s));
                  ps_zoneProbes :=
                    <[ptype := JS.Math_max 0
                      (match ps_zoneProbes s !! ptype with Some n => n | None => 0 end
                       - JS.Math_floor (JS.Math_min (ps_accumulated s) (ps_available s)))]>
                      (ps_zoneProbes s);
                  ps_transfer :=
                    pushBatch (probeBatch
                                 (JS.Math_floor (JS.Math_min (ps_accumulated s) (ps_available s)))
                                 now (now + T)) (now + T) (ps_transfer s) |})
    as [H1 H2].
  split; [rewrite H1|rewrite H2]; reflexivity.
Qed.

Lemma sendMetal_frame fuel now T from : forall s,
  t_id (ms_transfer (sendMetal fuel now T from s)) = t_id (ms_transfer s) /\
  V1.type (ms_transfer (sendMetal fuel now T from s)) = V1.type (ms_transfer s).
Proof.
  induction fuel as [|fuel IH]; intros s; simpl; [split; reflexivity|].
  destruct (_ && _); [|split; reflexivity].
  destruct (JS.leb _ _); [|split; reflexivity].
  match goal with
  | |- context [sendMetal fuel now T from ?s1] => destruct (IH s1) as [H1 H2]
  end.
  split; [rewrite H1|rewrite H2]; reflexivity.
Qed.

Lemma dispatch_frame acc state transfer deltaTime currentTime :
  let result :=
    processContinuousTransfer calculateTransferTime
      calculateUpgradeFactorFromCoefficients acc state transfer deltaTime currentTime in
  sameFrame state (result.1.2) /\
  t_id (result.2) = t_id transfer /\ V1.type (result.2) = V1.type transfer.
Proof.
  cbv zeta. unfold processContinuousTransfer, sameFrame.
  set (T := if isDysonDestination (to_zone transfer) && _ then _ else _).
  destruct (String.eqb _ "probe").
  - destruct (JS.leb _ 0); [repeat split|].
    destruct (JS.leb _ 0); [repeat split|].
    cbn [fst snd].
    match goal with
    | |- context [sendProbes ?f ?n ?t ?p ?s] =>
        destruct (sendProbes_frame f n t p s) as [H1 H2]
    end.
    cbn [ps_transfer] in H1, H2.
    repeat split; cbn [t_id type set_last_send_time]; assumption.
  - destruct (String.eqb _ "metal"); [|repeat split].
    destruct (JS.leb _ 0); [repeat split|].
    destruct (JS.leb _ 0); [repeat split|].
    cbn [fst snd].
    match goal with
    | |- context [sendMetal ?f ?n ?t ?p ?s] =>
        destruct (sendMetal_frame f n t p s) as [H1 H2]
    end.
    cbn [ms_transfer] in H1, H2.
    repeat split; cbn [t_id type set_last_send_time]; assumption.
Qed.

Lemma arrivals_frame state transfer currentTime :
  let result := processContinuousArrivals state transfer currentTime in
  sameFrame state (result.1) /\
  t_id (result.2) = t_id transfer /\ V1.type (result.2) = V1.type transfer.
Proof.
  cbv zeta. unfold sameFrame.
  destruct (List.filter (hasArrived currentTime) (batchesOf transfer)) eqn:E.
  - rewrite arrivals_none by exact E. repeat split.
  - rewrite arrivals_some by (rewrite E; discriminate). cbv zeta.
    destruct (String.eqb _ "probe"); [repeat split|].
    destruct (String.eqb _ "metal"); repeat split.
Qed.

Lemma completion_frame state transfer :
  let result := completeOneTimeTransfer state transfer in
  sameFrame state (result.1) /\
  t_id (result.2) = t_id transfer /\ V1.type (result.2) = V1.type transfer.
Proof.
  cbv zeta. unfold completeOneTimeTransfer, sameFrame.
  destruct (String.eqb _ "probe").
  - destruct (JS.leb _ 0); repeat split.
  - destruct (String.eqb _ "metal"); repeat split.
Qed.

Lemma completingFrom_S now l : forall i,
  completingFrom now (S i) l = List.map S (completingFrom now i l).
Proof.
  induction l as [|t l IH]; intros i; simpl; [reflexivity|].
  destruct (completesNow now t); simpl; rewrite IH; reflexivity.
Qed.

Lemma removeCompleted_cons c (x : Transfer) l :
  removeCompleted (List.map S c) (x :: l) = x :: removeCompleted c l.
Proof.
  unfold removeCompleted. rewrite <- List.map_rev.
  generalize (rev c) as r. intros r. revert l.
  induction r as [|a r IH]; intros l; simpl; [reflexivity|]. apply IH.
Qed.

Lemma removeCompleted_head c (x : Transfer) l :
  removeCompleted (0%nat :: List.map S c) (x :: l) = removeCompleted c l.
Proof.
  unfold removeCompleted. simpl rev. rewrite fold_left_app. simpl.
  fold (removeCompleted (List.map S c) (x :: l)).
  rewrite removeCompleted_cons. reflexivity.
Qed.

Lemma isContinuous_type t t0 : V1.type t = V1.type t0 -> isContinuous t = isContinuous t0.
Proof. unfold isContinuous. intros ->. reflexivity. Qed.

Lemma removal_ids now L0 L' :
  Forall2 (processedFrom now) L0 L' ->
  List.map t_id (removeCompleted (completingFrom now 0 L0) L')
  = List.map t_id (List.filter (fun t => negb (completesNow now t)) L0) /\
  List.filter (fun t => negb (isContinuous t))
              (removeCompleted (completingFrom now 0 L0) L')
  = List.filter (fun t => negb (isContinuous t) && negb (completesNow now t)) L0 /\
  List.map t_id (List.filter isContinuous
                             (removeCompleted (completingFrom now 0 L0) L'))
  = List.map t_id (List.filter isContinuous L0).
Proof.
  induction 1 as [|t0 t l0 l (Hid & Hty & Hsame) Hrest (IH1 & IH2 & IH3)].
  - repeat split.
  - pose proof (isContinuous_type _ _ Hty) as Hc.
    cbn [completingFrom List.filter]. rewrite completingFrom_S.
    destruct (completesNow now t0) eqn:E.
    + rewrite removeCompleted_head.
      assert (Hc0 : isContinuous t0 = false).
      { unfold completesNow in E. destruct (isContinuous t0); [discriminate|reflexivity]. }
      rewrite Hc0. cbn [negb andb]. repeat split; assumption.
    + rewrite removeCompleted_cons. cbn [List.filter negb List.map].
      rewrite Hc.
      destruct (isContinuous t0) eqn:Hc0; cbn [negb andb List.map].
      * rewrite IH1, IH2, IH3, Hid. repeat split.
      * rewrite (Hsame eq_refl eq_refl) in *.
        rewrite IH1, IH2, IH3. repeat split.
Qed.

Lemma transferLoop_inv now dt L0 : forall n i acc st comp acc' st' comp',
  (i + n = length L0)%nat ->
  length (active_transfers st) = length L0 ->
  (forall j, (i <= j)%nat -> active_transfers st !! j = L0 !! j) ->
  transferLoop calculateTransferTime calculateUpgradeFactorFromCoefficients
               n i dt now acc st comp = (acc', st', comp') ->
  length (active_transfers st') = length L0 /\
  time st' = time st /\ skills st' = skills st /\
  structures_by_zone st' = structures_by_zone st /\
  (forall j, (j < i)%nat -> active_transfers st' !! j = active_transfers st !! j) /\
  (forall j t0, (i <= j)%nat -> L0 !! j = Some t0 ->
     exists t, active_transfers st' !! j = Some t /\ processedFrom now t0 t) /\
  comp' = (comp ++ completingFrom now i (drop i L0))%list.
Proof.
  induction n as [|n IH]; intros i acc st comp acc' st' comp' Hn Hlen Hun Hloop.
  - simpl in Hloop. injection Hloop as <- <- <-.
    split; [exact Hlen|]. split; [reflexivity|]. split; [reflexivity|].
    split; [reflexivity|]. split; [intros; reflexivity|].
    split.
    + intros j t0 Hj Ht0. apply lookup_lt_Some in Ht0. lia.
    + rewrite drop_ge by lia. simpl. rewrite app_nil_r. reflexivity.
  - destruct (L0 !! i) as [t0|] eqn:Et0.
    2:{ apply lookup_ge_None in Et0. lia. }
    assert (Hcur : active_transfers st !! i = Some t0)
      by (rewrite Hun by lia; exact Et0).
    assert (Hdrop : drop i L0 = t0 :: drop (S i) L0).
    { apply drop_S. exact Et0. }
    simpl in Hloop. rewrite Hcur in Hloop.
    assert (Hfinish : forall a1 st1 t1 comp1,
      sameFrame st st1 ->
      processedFrom now t0 t1 ->
      comp1 = (comp ++ (if completesNow now t0 then [i] else []))%list ->
      transferLoop calculateTransferTime calculateUpgradeFactorFromCoefficients
        n (S i) dt now a1
        (set_active_transfers (<[i := t1]> (active_transfers st1)) st1) comp1
      = (acc', st', comp') ->
      length (active_transfers st') = length L0 /\
      time st' = time st /\ skills st' = skills st /\
      structures_by_zone st' = structures_by_zone st /\
      (forall j, (j < i)%nat -> active_transfers st' !! j = active_transfers st !! j) /\
      (forall j u0, (i <= j)%nat -> L0 !! j = Some u0 ->
         exists u, active_transfers st' !! j = Some u /\ processedFrom now u0 u) /\
      comp' = (comp ++ completingFrom now i (drop i L0))%list).
    { intros a1 st1 t1 comp1 (Hact & Htime & Hskills & Hstruct) Hproc Hcomp Hrun.
      apply IH in Hrun; [| lia | | ].
      - destruct Hrun as (H1 & H2 & H3 & H4 & H5 & H6 & H7).
        cbn [time skills structures_by_zone active_transfers set_active_transfers]
          in H2, H3, H4, H5.
        split; [exact H1|]. split; [congruence|]. split; [congruence|].
        split; [congruence|].
        split.
        { intros j Hj. rewrite H5 by lia. rewrite Hact.
          apply list_lookup_insert_ne. lia. }
        split.
        { intros j u0 Hj Hu0.
          destruct (decide (j = i)) as [->|Hne].
          - rewrite Et0 in Hu0. injection Hu0 as <-.
            exists t1. split; [|exact Hproc].
            rewrite H5 by lia. rewrite Hact.
            apply list_lookup_insert_eq. apply lookup_lt_Some in Hcur. exact Hcur.
          - apply (H6 j u0); [lia|exact Hu0]. }
        rewrite H7, Hcomp, Hdrop. cbn [completingFrom].
        destruct (completesNow now t0); rewrite <- app_assoc; reflexivity.
      - cbn [active_transfers set_active_transfers].
        rewrite length_insert, Hact. exact Hlen.
      - intros j Hj. cbn [active_transfers set_active_transfers].
        rewrite list_lookup_insert_ne by lia. rewrite Hact. apply Hun. lia. }
    assert (Hself : set_active_transfers (<[i := t0]> (active_transfers st)) st = st).
    { rewrite list_insert_id by exact Hcur. apply set_active_transfers_id. }
    assert (Hframe0 : sameFrame st st) by (repeat split).
    unfold completesNow in Hfinish.
    destruct (isContinuous t0) eqn:Ec.
    + (* continuous *)
      cbn [negb andb app] in Hfinish. 
      destruct (if negb (paused t0)
                then processContinuousTransfer calculateTransferTime
                       calculateUpgradeFactorFromCoefficients acc st t0 dt now
                else (acc, st, t0)) as [[a1 s1] t1] eqn:Ed.
      assert (Hd : sameFrame st s1 /\ t_id t1 = t_id t0 /\ V1.type t1 = V1.type t0).
      { destruct (negb (paused t0)).
        - pose proof (dispatch_frame acc st t0 dt now) as H. cbv zeta in H.
          rewrite Ed in H. exact H.
        - injection Ed as <- <- <-. repeat split. }
      destruct Hd as (Hf1 & Hid1 & Hty1).
      destruct (processContinuousArrivals s1 t1 now) as [s2 t2] eqn:Ea.
      pose proof (arrivals_frame s1 t1 now) as Hf2. cbv zeta in Hf2.
      rewrite Ea in Hf2. cbn [fst snd] in Hf2.
      destruct Hf2 as (Hf2 & Hid2 & Hty2).
      apply (Hfinish a1 s2 t2 comp); [| |rewrite app_nil_r; reflexivity|exact Hloop].
      * destruct Hf1 as (A1 & A2 & A3 & A4), Hf2 as (B1 & B2 & B3 & B4).
        repeat split; congruence.
      * split; [congruence|]. split; [congruence|].
        intros Hc. rewrite Ec in Hc. discriminate.
    + cbn [negb andb] in Hfinish.
      destruct (String.eqb (status t0) "paused") eqn:Ep.
      * cbn [negb andb] in Hfinish.
        apply (Hfinish acc st t0 comp Hframe0);
          [repeat split|rewrite app_nil_r; reflexivity|].
        rewrite Hself. exact Hloop.
      * cbn [negb andb] in Hfinish.
        destruct (isDue now t0) eqn:Edue.
        -- destruct (completeOneTimeTransfer st t0) as [s1 t1] eqn:Eo.
           pose proof (completion_frame st t0) as Hf. cbv zeta in Hf.
           rewrite Eo in Hf. cbn [fst snd] in Hf. destruct Hf as (Hf & Hid1 & Hty1).
           apply (Hfinish acc s1 t1 (comp ++ [i])%list Hf);
             [|reflexivity|exact Hloop].
           split; [exact Hid1|]. split; [exact Hty1|].
           intros _ Hc. unfold completesNow in Hc. rewrite Ec, Ep, Edue in Hc.
           discriminate.
        -- apply (Hfinish acc st t0 comp Hframe0);
             [repeat split|rewrite app_nil_r; reflexivity|].
           rewrite Hself. exact Hloop.
Qed.

(** A whole tick of the transfer system.  The clock, the skills and the
    structures are not touched.  The transfers that leave the list are
    exactly the one-time transfers that are travelling, not paused and due;
    what stays keeps its order and its ids.  Every continuous transfer
    stays, paused or not, and a one-time transfer that stays is unchanged
    and not due. *)
Theorem processTransfers_keeps_continuous_removes_due acc state deltaTime :
  let result :=
    processTransfers calculateTransferTime calculateUpgradeFactorFromCoefficients
      acc state deltaTime in
  let state' := result.2 in
  let currentTime := JS.orZero (time state) in
  time state' = time state /\
  skills state' = skills state /\
  structures_by_zone state' = structures_by_zone state /\
  List.map t_id (active_transfers state')
    = List.map t_id (List.filter (fun t => negb (completesNow currentTime t))
                                 (active_transfers state)) /\
  List.filter (fun t => negb (isContinuous t)) (active_transfers state')
    = List.filter (fun t => negb (isContinuous t) && negb (completesNow currentTime t))
                  (active_transfers state) /\
  List.map t_id (List.filter isContinuous (active_transfers state'))
    = List.map t_id (List.filter isContinuous (active_transfers state)) /\
  (forall t, In t (active_transfers state') -> isContinuous t = false ->
             In t (active_transfers state) /\ completesNow currentTime t = false).
Proof.
  intros result state' currentTime.
  subst state' result. unfold processTransfers. fold currentTime.
  destruct (transferLoop calculateTransferTime calculateUpgradeFactorFromCoefficients
              (length (active_transfers state)) 0 deltaTime currentTime acc state [])
    as [[acc1 st1] comp1] eqn:Eloop.
  apply (transferLoop_inv currentTime deltaTime (active_transfers state)) in Eloop;
    [|reflexivity|reflexivity|intros; reflexivity].
  destruct Eloop as (Hlen & Htime & Hskills & Hstruct & _ & Hproc & Hcomp).
  rewrite drop_0 in Hcomp. cbn [app] in Hcomp. subst comp1.
  cbn [snd time skills structures_by_zone active_transfers set_active_transfers].
  assert (HF : Forall2 (processedFrom currentTime) (active_transfers state)
                       (active_transfers st1)).
  { apply Forall2_same_length_lookup_2; [symmetry; exact Hlen|].
    intros j x y Hx Hy. destruct (Hproc j x (Nat.le_0_l j) Hx) as (t & Ht & Hp).
    rewrite Hy in Ht. injection Ht as ->. exact Hp. }
  destruct (removal_ids _ _ _ HF) as (H1 & H2 & H3).
  split; [exact Htime|]. split; [exact Hskills|]. split; [exact Hstruct|].
  split; [exact H1|]. split; [exact H2|]. split; [exact H3|].
  intros t Ht Hc.
  assert (Hin : In t (List.filter (fun t => negb (isContinuous t))
                        (removeCompleted
                           (completingFrom currentTime 0 (active_transfers state))
                           (active_transfers st1)))).
  { apply filter_In. split; [exact Ht|]. rewrite Hc. reflexivity. }
  rewrite H2 in Hin. apply filter_In in Hin. destruct Hin as [Hin Hb].
  split; [exact Hin|].
  apply andb_true_iff in Hb. destruct Hb as [_ Hb].
  apply negb_true_iff in Hb. exact Hb.
Qed.

(** C5: a metal transfer out of a zone with zero mass drivers is never
    created.  [createTransfer] returns a failure (for known zones, "Mass
    driver required for metal transfers") whatever the destination, amount,
    mode and rate, and leaves the accumulators of the transfer system as
    they were.  The method reads the game state and has no write to it on
    any path, which is why the embedding returns no state. *)
Theorem metal_transfer_without_mass_driver_fails acc state fromZoneId toZoneId
    probeType resourceCount skills type ratePercentage transferId :
  massDriverCount state fromZoneId == 0 ->
  hasMassDriver state fromZoneId = false /\
  exists error,
    createTransfer orbitalZones calculateDeltaV calculateTransferTime
      calculateUpgradeFactorFromCoefficients acc state fromZoneId toZoneId
      "metal" probeType resourceCount skills type ratePercentage transferId
      = (Failure error, acc) /\
    (error = ZoneNotFound fromZoneId \/ error = ZoneNotFound toZoneId \/
     error = MassDriverRequired) /\
    (getZone orbitalZones fromZoneId <> None ->
     getZone orbitalZones toZoneId <> None -> error = MassDriverRequired).
Proof.
  intros Hzero.
  assert (Hmd : hasMassDriver state fromZoneId = false).
  { unfold hasMassDriver. apply JSFacts.ltb_ge. rewrite Hzero. apply Qle_refl. }
  split; [exact Hmd|].
  unfold createTransfer.
  destruct (getZone orbitalZones fromZoneId) as [fz|] eqn:Ef.
  - destruct (getZone orbitalZones toZoneId) as [tz|] eqn:Et.
    + rewrite Hmd. cbn [String.eqb negb andb].
      change (String.eqb "metal" "metal") with true. cbn [andb negb].
      eexists. split; [reflexivity|]. split; [right; right; reflexivity|].
      intros _ _. reflexivity.
    + eexists. split; [reflexivity|]. split; [right; left; reflexivity|].
      intros _ H. congruence.
  - eexists. split; [reflexivity|]. split; [left; reflexivity|].
    intros H. congruence.
Qed.

End System.

(** Witness for C5: 500 kg of metal ordered from earth to mars, with the
    mass-driver count of earth at 0. *)
Lemma metal_transfer_without_mass_driver_witness :
  hasMassDriver noDriverState "earth" = false /\
  exists error,
    createTransfer innerZones hundredDays hundredDays unitFactor
      ∅ noDriverState "earth" "mars" "metal" "probe" 500 None "one-time" 0 "t1"
      = (Failure error, ∅) /\
    (error = ZoneNotFound "earth" \/ error = ZoneNotFound "mars" \/
     error = MassDriverRequired) /\
    (getZone innerZones "earth" <> None ->
     getZone innerZones "mars" <> None -> error = MassDriverRequired).
Proof.
  apply (metal_transfer_without_mass_driver_fails innerZones hundredDays hundredDays
           unitFactor ∅ noDriverState "earth" "mars" "probe" 500 None "one-time" 0 "t1").
  vm_compute. reflexivity.
Defined.

(** The refused order and its counterpart once a mass driver stands at
    earth. *)
Example metal_transfer_scenario :
  createTransfer innerZones hundredDays hundredDays unitFactor
    ∅ noDriverState "earth" "mars" "metal" "probe" 500 None "one-time" 0 "t1"
    = (Failure MassDriverRequired, ∅) /\
  createTransfer innerZones hundredDays hundredDays unitFactor
    ∅ noDriverState "earth" "mars" "metal" "probe" 0 None "continuous" 10 "t1"
    = (Failure MassDriverRequired, ∅) /\
  exists transfer,
    createTransfer innerZones hundredDays hundredDays unitFactor
      ∅ streamState "earth" "mars" "metal" "probe" 500 None "one-time" 0 "t1"
      = (Success transfer, ∅) /\
    metal_kg transfer = Some 500 /\ transfer_time transfer == 50.
Proof.
  split; [vm_compute; reflexivity|]. split; [vm_compute; reflexivity|].
  eexists. split; [vm_compute; reflexivity|]. split; vm_compute; reflexivity.
Qed.

(** C2 on the transfer system of engine/.  The specification wants an
    engine restored from a snapshot to tick like the engine that wrote it;
    the fractional part of a continuous transfer is kept in the transfer
    system, outside the world state, while the queue and the last send time
    of the same transfer are in the world state.  On [streamState] the first
    tick of 3/8 day accrues 3/4 of a probe and sends none.  The engine that
    keeps running accrues 3/2 in the next tick and sends one probe; an
    engine built around the same world state starts from an empty map,
    accrues 3/4 and sends none.  The two world states differ from then
    on. *)
Theorem restored_engine_sends_no_probe :
  let firstTick := processTransfers hundredDays unitFactor constructor streamState (3#8) in
  let snapshot := snapshotAt (3#8) firstTick.2 in
  let continued := processTransfers hundredDays unitFactor firstTick.1 snapshot (3#8) in
  let restored := processTransfers hundredDays unitFactor constructor snapshot (3#8) in
  JS.orZero (firstTick.1 !! "stream-1") == 3#4 /\
  heldAt firstTick.2 "earth" "probe" == 10 /\
  heldAt continued.2 "earth" "probe" == 9 /\
  heldAt restored.2 "earth" "probe" == 10 /\
  JS.orZero (continued.1 !! "stream-1") == 1#2 /\
  JS.orZero (restored.1 !! "stream-1") == 3#4 /\
  continued.2 <> restored.2.
Proof.
  cbv zeta. repeat split; try (vm_compute; reflexivity).
  intros H.
  assert (E : heldAt
                (processTransfers hundredDays unitFactor
                   (processTransfers hundredDays unitFactor constructor streamState (3#8)).1
                   (snapshotAt (3#8)
                      (processTransfers hundredDays unitFactor constructor streamState (3#8)).2)
                   (3#8)).2 "earth" "probe"
              == heldAt
                   (processTransfers hundredDays unitFactor constructor
                      (snapshotAt (3#8)
                         (processTransfers hundredDays unitFactor constructor streamState (3#8)).2)
                      (3#8)).2 "earth" "probe").
  { rewrite H. reflexivity. }
  vm_compute in E. discriminate.
Qed.

Lemma continuous_probe_dispatch_witness :
  let result := processContinuousTransfer hundredDays unitFactor
                  ∅ streamState probeStream 1 0 in
  let accrued := JS.orZero ((∅ : Accumulators) !! "stream-1")
                 + getZoneProbeProductionRate streamState "earth"
                   * JS.orZero (Some 50) / 100 * 1 in
  heldAt (result.1.2) "earth" "probe"
  == heldAt streamState "earth" "probe"
     - batchOf MIN_PROBE_BATCH accrued (heldAt streamState "earth" "probe").
Proof.
  pose proof (continuous_probe_dispatch hundredDays unitFactor ∅ streamState probeStream 1 0)
    as H.
  cbv zeta in H.
  refine (proj1 (proj2 (proj2 (proj2 (H _ _ _))))).
  - reflexivity.
  - vm_compute. reflexivity.
  - vm_compute. reflexivity.
Defined.

Lemma continuous_metal_dispatch_witness :
  let result := processContinuousTransfer hundredDays unitFactor
                  ∅ streamState metalStream 1 0 in
  let available := storedAt streamState "earth" in
  let requested := available * (JS.orZero (Some 1) / 100) in
  let capacity :=
    JS.Math_max 0
      (calculateMetalTransferCapacity unitFactor streamState "earth" None
       - calculateUsedMetalCapacity streamState "earth" (Some "stream-2")) in
  let accrued := JS.orZero ((∅ : Accumulators) !! "stream-2")
                 + JS.Math_min requested capacity * 1 in
  storedAt (result.1.2) "earth"
  == available - batchOf MIN_METAL_BATCH_KG accrued available.
Proof.
  pose proof (continuous_metal_dispatch hundredDays unitFactor ∅ streamState metalStream 1 0)
    as H.
  cbv zeta in H.
  refine (proj1 (proj2 (proj2 (proj2 (proj2 (H _ _ _)))))).
  - reflexivity.
  - vm_compute. reflexivity.
  - vm_compute. reflexivity.
Defined.

Lemma accumulators_witness :
  let kept := processContinuousTransfer hundredDays unitFactor
                {[ "stream-1" := 3 # 4 ]} streamState probeStream (1 # 4) 0 in
  let fresh := processContinuousTransfer hundredDays unitFactor
                 ∅ streamState probeStream (1 # 4) 0 in
  kept.1.2 <> fresh.1.2.
Proof.
  pose proof (accumulators_decide_what_is_sent hundredDays unitFactor
                {[ "stream-1" := 3 # 4 ]} streamState probeStream (1 # 4) 0) as H.
  cbv zeta in H.
  refine (proj2 (proj2 (proj2 (proj2 (H _ _ _ _ _ _))))).
  - reflexivity.
  - vm_compute. reflexivity.
  - vm_compute. reflexivity.
  - vm_compute. reflexivity.
  - vm_compute. discriminate.
  - vm_compute. discriminate.
Defined.

End TransferFacts.

(** ** The composite skill calculator *)

Module CompositeFacts.
Import Reals Lra CompositeSkills.
Local Open Scope R_scope.

Lemma isPositive_true v : isPositive v = true <-> 0 < v.
Proof. unfold isPositive. destruct (Rlt_dec 0 v); split; intros; try discriminate; auto; contradiction. Qed.








Lemma factor_as_power valid alpha :
  valid <> [] ->
  Math_exp (alpha * Math_log (Math_pow (productOf valid) (1 / INR (length valid))))
  = Rpower (productOf valid) (alpha / INR (length valid)).
Proof.
  intros Hne. unfold Math_exp, Math_log, Math_pow, Rpower.
  rewrite ln_exp. f_equal. field.
  apply not_0_INR. destruct valid; [contradiction|discriminate].
Qed.

Lemma skillValuesLoop_length entries skills : forall values,
  (length values <= length (skillValuesLoop entries skills values))%nat.
Proof.
  induction entries as [|[name c] rest IH]; intros values; simpl; [lia|].
  destruct (String.eqb name "description"); [apply IH|].
  specialize (IH (values ++ [c * skillValueOf skills name])%list).
  rewrite length_app in IH. simpl in IH. lia.
Qed.

Lemma factor_cases skillValues alpha :
  let valid := List.filter isPositive skillValues in
  let factor := calculateTechTreeUpgradeFactor skillValues alpha in
  (valid = [] /\ factor = 1) \/
  (valid <> [] /\ factor = Rpower (productOf valid) (alpha / INR (length valid))).
Proof.
  intros valid factor.
  subst factor. unfold calculateTechTreeUpgradeFactor. fold valid.
  destruct (Nat.eqb (length skillValues) 0) eqn:E0.
  - left. split; [|reflexivity].
    apply Nat.eqb_eq in E0. subst valid.
    destruct skillValues; [reflexivity|discriminate].
  - destruct (Nat.eqb (length valid) 0) eqn:E1.
    + left. split; [|reflexivity].
      apply Nat.eqb_eq in E1. destruct valid; [reflexivity|discriminate].
    + assert (Hne : valid <> []).
      { intros H. rewrite H in E1. discriminate. }
      right. split; [exact Hne|].
      fold (productOf valid). apply factor_as_power. exact Hne.
Qed.

Lemma factor_pos skillValues alpha :
  0 < calculateTechTreeUpgradeFactor skillValues alpha.
Proof.
  destruct (factor_cases skillValues alpha) as [[_ ->]|[_ ->]]; [lra|].
  unfold Rpower. apply exp_pos.
Qed.

Lemma configured_factor_pos rules category skills alpha :
  0 < calculateUpgradeFactorFromCoefficients rules category skills alpha.
Proof.
  unfold calculateUpgradeFactorFromCoefficients.
  destruct rules as [r|]; [|lra].
  destruct (skill_coefficients r) as [tables|]; [|lra].
  destruct (tables !! category) as [c|]; [|lra].
  apply factor_pos.
Qed.


Lemma orDefault_nonzero d x : x <> 0 -> orDefault d (Some x) = x.
Proof. intros H. unfold orDefault. destruct (Req_dec_T x 0); [contradiction|reflexivity]. Qed.

Lemma single_skill_factor category name s alpha :
  0 < s -> alpha <> 0 -> name <> "description" ->
  name <> "robotic" -> name <> "computer" -> name <> "solar_pv" ->
  calculateUpgradeFactorFromCoefficients
    (Some (rulesWith category [(name, 1)] alpha)) category (skillsWith name s) None
  = Rpower s alpha.
Proof.
  intros Hs Ha Hd Hr Hc Hp.
  unfold calculateUpgradeFactorFromCoefficients, rulesWith.
  cbn [skill_coefficients alpha_probe_performance].
  rewrite lookup_singleton_eq.
  rewrite (orDefault_nonzero _ _ Ha).
  unfold buildSkillValues. cbn [skillValuesLoop].
  apply String.eqb_neq in Hd, Hr, Hc, Hp. rewrite Hd.
  cbn [app length Nat.ltb Nat.leb].
  unfold skillValueOf. rewrite Hr, Hc, Hp.
  unfold skillsWith. cbn [skill]. rewrite lookup_singleton_eq.
  rewrite orDefault_nonzero by lra.
  unfold calculateTechTreeUpgradeFactor. cbn [length Nat.eqb List.filter].
  assert (Hpos : isPositive (1 * s) = true) by (apply isPositive_true; lra).
  rewrite Hpos. cbn [length Nat.eqb fold_left].
  unfold Math_exp, Math_log, Math_pow, Rpower. rewrite ln_exp.
  f_equal. simpl INR. replace (1 * (1 * s)) with s by ring. field.
Qed.

(** The salvage efficiency is min(1, 0.75 * upgrade factor): positive, at
    most 1, 0.75 without configuration, and equal to 1 exactly when the
    upgrade factor is at least 4/3, which a single recycling skill of
    (4/3)^(1/alpha) or more achieves. *)
Theorem salvage_efficiency_is_capped_at_one rules skills :
  let factor :=
    calculateUpgradeFactorFromCoefficients rules "salvage_efficiency" skills None in
  let efficiency := calculateSalvageEfficiency rules skills in
  0 < efficiency <= 1 /\
  (factor = 1 -> efficiency = 3 / 4) /\
  (rules = None -> efficiency = 3 / 4) /\
  (efficiency = 1 <-> 4 / 3 <= factor) /\
  (forall s alpha, 0 < alpha -> Rpower (4 / 3) (1 / alpha) <= s ->
     calculateSalvageEfficiency
       (Some (rulesWith "salvage_efficiency" [("recycling", 1)] alpha))
       (skillsWith "recycling" s) = 1).
Proof.
  intros factor efficiency.
  assert (Heff : efficiency = Rmin 1 (3 / 4 * factor)) by reflexivity.
  pose proof (configured_factor_pos rules "salvage_efficiency" skills None) as Hpos.
  fold factor in Hpos.
  assert (Hnone : rules = None -> factor = 1) by (intros ->; reflexivity).
  clearbody factor efficiency.
  split.
  { rewrite Heff. unfold Rmin. destruct (Rle_dec 1 (3 / 4 * factor)); lra. }
  assert (Hunit : factor = 1 -> efficiency = 3 / 4).
  { intros ->. rewrite Heff. unfold Rmin. destruct (Rle_dec 1 (3 / 4 * 1)); lra. }
  split; [exact Hunit|].
  split; [intros H; apply Hunit, Hnone, H|].
  split.
  { rewrite Heff. unfold Rmin. destruct (Rle_dec 1 (3 / 4 * factor)); split; intros; lra. }
  intros s alpha Ha Hs.
  assert (Hb : 0 < Rpower (4 / 3) (1 / alpha)) by (unfold Rpower; apply exp_pos).
  unfold calculateSalvageEfficiency.
  rewrite single_skill_factor; try discriminate; try lra.
  assert (Hge : 4 / 3 <= Rpower s alpha).
  { replace (4 / 3) with (Rpower (Rpower (4 / 3) (1 / alpha)) alpha) at 1.
    - apply Rle_Rpower_l; lra.
    - rewrite Rpower_mult. replace (1 / alpha * alpha) with 1 by (field; lra).
      apply Rpower_1. lra. }
  unfold Rmin. destruct (Rle_dec 1 (3 / 4 * Rpower s alpha)); lra.
Qed.



(** The claim that the salvage fraction never reaches 100% fails: with the
    recycling skill at 2 and an exponent of 1 the upgrade factor is 2 and
    the fraction is exactly 1. *)
Lemma salvage_efficiency_reaches_one :
  calculateSalvageEfficiency
    (Some (rulesWith "salvage_efficiency" [("recycling", 1)] 1))
    (skillsWith "recycling" 2) = 1 /\
  ~ neverReachesOne
      (Some (rulesWith "salvage_efficiency" [("recycling", 1)] 1))
      (skillsWith "recycling" 2).
Proof.
  assert (E : calculateSalvageEfficiency
                (Some (rulesWith "salvage_efficiency" [("recycling", 1)] 1))
                (skillsWith "recycling" 2) = 1).
  { unfold calculateSalvageEfficiency.
    rewrite single_skill_factor; try discriminate; try lra.
    rewrite Rpower_1 by lra.
    unfold Rmin. destruct (Rle_dec 1 (3 / 4 * 2)); lra. }
  split; [exact E|]. unfold neverReachesOne. rewrite E. lra.
Qed.

(** C8, as the code has it: the salvage fraction is [min(1, 0.75 * factor)].
    It is 0.75 at factor 1, it is 0.75 times the factor as long as the
    factor stays below 4/3 (and then it is below 1), it does not decrease as
    the factor grows, it never exceeds 1, and from factor 4/3 on it is
    exactly 1. *)
Theorem salvage_efficiency_clamps_at_one rules skills :
  let factor :=
    calculateUpgradeFactorFromCoefficients rules "salvage_efficiency" skills None in
  let efficiency := calculateSalvageEfficiency rules skills in
  efficiency = Rmin 1 (3 / 4 * factor) /\
  0 < efficiency <= 1 /\
  (factor = 1 -> efficiency = 3 / 4) /\
  (factor < 4 / 3 -> efficiency = 3 / 4 * factor /\ efficiency < 1) /\
  (4 / 3 <= factor -> efficiency = 1) /\
  (forall rules' skills',
     factor <= calculateUpgradeFactorFromCoefficients rules' "salvage_efficiency" skills' None ->
     efficiency <= calculateSalvageEfficiency rules' skills').
Proof.
  intros factor efficiency.
  assert (Heff : efficiency = Rmin 1 (3 / 4 * factor)) by reflexivity.
  pose proof (configured_factor_pos rules "salvage_efficiency" skills None) as Hpos.
  fold factor in Hpos.
  clearbody factor efficiency.
  split; [exact Heff|].
  split; [rewrite Heff; unfold Rmin; destruct (Rle_dec 1 (3 / 4 * factor)); lra|].
  split; [intros ->; rewrite Heff; unfold Rmin; destruct (Rle_dec 1 (3 / 4 * 1)); lra|].
  split; [intros H; rewrite Heff; unfold Rmin;
          destruct (Rle_dec 1 (3 / 4 * factor)); split; lra|].
  split; [intros H; rewrite Heff; unfold Rmin;
          destruct (Rle_dec 1 (3 / 4 * factor)); lra|].
  intros rules' skills' H. unfold calculateSalvageEfficiency.
  set (factor' := calculateUpgradeFactorFromCoefficients rules' "salvage_efficiency" skills' None) in *.
  clearbody factor'. rewrite Heff. unfold Rmin.
  destruct (Rle_dec 1 (3 / 4 * factor)); destruct (Rle_dec 1 (3 / 4 * factor')); lra.
Qed.

End CompositeFacts.
